(** * Carbonite: event ledger and aggregation-consistency engine

    A shallow embedding of the SQL trigger functions, the reconciliation
    and leaderboard functions and the TypeScript service wrappers of the
    repository, together with the properties stated about them.

    Conventions used throughout.
    - A SQL table is the list of its rows in heap (storage) order.  A
      primary key is an invariant of the list, not a different type.
    - A [NUMERIC] value of scale at most 6 is the integer number of
      millionths of a pound it denotes ([10.2] is [10200000]), so that
      sums and comparisons are the exact decimal ones.  Column precision
      (the total number of digits) is not modelled: no overflow error.
    - [now] is the transaction timestamp, passed explicitly.
    - A transaction is one function application: concurrent submissions
      that serialise on the [global_emissions] row lock are sequences of
      such applications.  The idempotency check of [log_emission_atomic]
      comes before that lock; it and the rest of the function are also
      given on their own, for two submissions that both pass the check
      before either commits.
    - A query with [ORDER BY] may return its rows in any order that
      respects the keys; a function of this file that sorts computes one
      such order. *)

From Stdlib Require Import ZArith List Bool Lia String Permutation Sorted.
From Stdlib Require Import Floats.

Set Warnings "-inexact-float".
Import ListNotations.
Local Open Scope Z_scope.

(* ================================================================== *)
(** * Part I.  Definitions                                              *)
(* ================================================================== *)

(** ** Values and generic table operations *)

Definition uuid := string.
Definition numeric := Z.
Definition timestamptz := Z.

Definition uuid_eqb : uuid -> uuid -> bool := String.eqb.

(** [COALESCE(x, d)] *)
Definition coalesce {A : Type} (x : option A) (d : A) : A :=
  match x with
  | Some v => v
  | None => d
  end.

(** [COALESCE(SUM(col), 0)] over the rows of a table. *)
Definition sum_of {A : Type} (col : A -> Z) (rows : list A) : Z :=
  fold_right (fun r acc => col r + acc) 0 rows.

(** Rounding of the exact quotient [n / d] to the nearest integer, ties
    away from zero: the rounding PostgreSQL applies to [NUMERIC] values,
    both in [ROUND] and when a value is stored at a smaller scale. *)
Definition round_div (n d : Z) : Z :=
  Z.sgn n * ((2 * Z.abs n + d) / (2 * d)).

(** [ROUND(x, 2)] of a scale-6 value, again as a scale-6 value. *)
Definition round2 (x : numeric) : numeric := round_div x 10000 * 10000.

Section Tables.
Context {R : Type}.
Variable key : R -> uuid.

(** [SELECT * FROM t WHERE key = k] when [key] is the primary key. *)
Fixpoint find_row (k : uuid) (t : list R) : option R :=
  match t with
  | [] => None
  | r :: t' => if uuid_eqb (key r) k then Some r else find_row k t'
  end.

(** [UPDATE t SET ... WHERE key = k]: every matching row is rewritten. *)
Fixpoint update_rows (k : uuid) (set : R -> R) (t : list R) : list R :=
  match t with
  | [] => []
  | r :: t' =>
      (if uuid_eqb (key r) k then set r else r) :: update_rows k set t'
  end.

(** [INSERT INTO t VALUES fresh ON CONFLICT (key) DO UPDATE SET ...]. *)
Definition upsert (k : uuid) (fresh : R) (set : R -> R) (t : list R)
  : list R :=
  match find_row k t with
  | Some _ => update_rows k set t
  | None => t ++ [fresh]
  end.

(** The primary-key constraint. *)
Definition primary_key (t : list R) : Prop := NoDup (map key t).
End Tables.

Section OrderBy.
Context {R : Type}.
Variable before : R -> R -> bool.

(** [ORDER BY]: a stable insertion sort of the rows in the order they
    are scanned.  Rows that compare equal keep their scan order; SQL
    leaves the order of such rows unspecified. *)
Fixpoint insert_sorted (x : R) (l : list R) : list R :=
  match l with
  | [] => [x]
  | y :: l' => if before x y then x :: l else y :: insert_sorted x l'
  end.

Fixpoint order_by (l : list R) : list R :=
  match l with
  | [] => []
  | x :: l' => insert_sorted x (order_by l')
  end.
End OrderBy.

(** The keys of a [GROUP BY] or [SELECT DISTINCT], in order of first
    appearance. *)
Fixpoint distinct (l : list uuid) : list uuid :=
  match l with
  | [] => []
  | x :: l' => x :: filter (fun y => negb (uuid_eqb y x)) (distinct l')
  end.

(** [ROW_NUMBER() OVER (...)]: the rows of an ordered result numbered
    from [start]. *)
Fixpoint row_number {R : Type} (start : Z) (l : list R) : list (Z * R) :=
  match l with
  | [] => []
  | r :: l' => (start, r) :: row_number (start + 1) l'
  end.

(* ------------------------------------------------------------------ *)
(** ** The AI-verification schema
       ([user_actions] with a [verified] flag, [global_sync_trigger],
       [sync_global_emissions_from_user_stats], [get_leaderboard],
       [hourly_sync_check]) *)

Module AiVerification.

Record users_row := {
  u_user_id : uuid;
  username : option string
}.

Record user_actions_row := {
  action_id : uuid;
  ua_user_id : uuid;
  emissions_saved_lbs : numeric;
  verified : bool;
  verified_at : option timestamptz
}.

Record user_stats_row := {
  us_user_id : uuid;
  total_emissions_lbs : numeric;
  action_count : Z;
  last_updated : timestamptz
}.

Record global_emissions_row := {
  total_lbs_saved : numeric;
  total_actions : Z;
  ge_last_updated : timestamptz
}.

(** Row of the audit table named by the [INSERT] that
    [hourly_sync_check] keeps commented out. *)
Record sync_check_log_row := {
  log_timestamp : timestamptz;
  log_was_in_sync : bool;
  log_user_stats_sum : numeric;
  log_global_total : numeric;
  log_discrepancy : numeric;
  log_fixed : bool
}.

Record db := {
  users : list users_row;
  user_actions : list user_actions_row;
  user_stats : list user_stats_row;
  global_emissions : global_emissions_row;
  sync_check_log : list sync_check_log_row
}.

(** The state after the schema script has run:
    [INSERT INTO global_emissions VALUES (1, 0, 0)]. *)
Definition empty_db (registered : list users_row) : db :=
  {| users := registered;
     user_actions := [];
     user_stats := [];
     global_emissions :=
       {| total_lbs_saved := 0; total_actions := 0; ge_last_updated := 0 |};
     sync_check_log := [] |}.

Definition set_user_actions (t : list user_actions_row) (d : db) : db :=
  {| users := users d; user_actions := t; user_stats := user_stats d;
     global_emissions := global_emissions d;
     sync_check_log := sync_check_log d |}.

Definition set_global_emissions (g : global_emissions_row) (d : db) : db :=
  {| users := users d; user_actions := user_actions d;
     user_stats := user_stats d; global_emissions := g;
     sync_check_log := sync_check_log d |}.

(** [global_sync_trigger_function]: body of the row trigger. *)
Definition global_sync_trigger_function
    (now : timestamptz) (OLD NEW : user_actions_row) (d : db) : db :=
  if verified NEW && negb (verified OLD) then
    let g := global_emissions d in
    {| users := users d;
       user_actions := user_actions d;
       user_stats :=
         upsert us_user_id (ua_user_id NEW)
           {| us_user_id := ua_user_id NEW;
              total_emissions_lbs := emissions_saved_lbs NEW;
              action_count := 1;
              last_updated := now |}
           (fun r =>
              {| us_user_id := us_user_id r;
                 total_emissions_lbs :=
                   total_emissions_lbs r + emissions_saved_lbs NEW;
                 action_count := action_count r + 1;
                 last_updated := now |})
           (user_stats d);
       global_emissions :=
         {| total_lbs_saved := total_lbs_saved g + emissions_saved_lbs NEW;
            total_actions := total_actions g + 1;
            ge_last_updated := now |};
       sync_check_log := sync_check_log d |}
  else d.

(** [INSERT INTO user_actions]: the primary key and the
    [CHECK (emissions_saved_lbs >= 0)] constraint reject the row with an
    error ([None]).  The schema declares no trigger for [INSERT]. *)
Definition insert_user_action (a : user_actions_row) (d : db)
  : option db :=
  match find_row action_id (action_id a) (user_actions d) with
  | Some _ => None
  | None =>
      if emissions_saved_lbs a <? 0 then None
      else Some (set_user_actions (user_actions d ++ [a]) d)
  end.

(** [UPDATE user_actions SET ... WHERE action_id = id], with
    [global_sync_trigger] ([AFTER UPDATE ... FOR EACH ROW]) run for each
    row the statement rewrites. *)
Definition update_user_action
    (now : timestamptz) (id : uuid)
    (set : user_actions_row -> user_actions_row) (d : db) : db :=
  fold_left
    (fun acc OLD =>
       if uuid_eqb (action_id OLD) id
       then global_sync_trigger_function now OLD (set OLD) acc
       else acc)
    (user_actions d)
    (set_user_actions (update_rows action_id id set (user_actions d)) d).

(** The two updates [verifyAndSyncAction] issues. *)
Definition set_verified_true (now : timestamptz) (r : user_actions_row)
  : user_actions_row :=
  {| action_id := action_id r; ua_user_id := ua_user_id r;
     emissions_saved_lbs := emissions_saved_lbs r;
     verified := true; verified_at := Some now |}.

Definition set_verified_false (r : user_actions_row) : user_actions_row :=
  {| action_id := action_id r; ua_user_id := ua_user_id r;
     emissions_saved_lbs := emissions_saved_lbs r;
     verified := false; verified_at := verified_at r |}.

Definition verifyAndSyncAction
    (now : timestamptz) (actionId : uuid) (is_verified : bool) (d : db)
  : db :=
  if is_verified
  then update_user_action now actionId (set_verified_true now) d
  else update_user_action now actionId set_verified_false d.

(** [saveUserAction]: the action is inserted with [verified = false]
    under the identifier the database gives it. *)
Definition saveUserAction (new_id userId : uuid) (emissionsSavedLbs : numeric)
    (d : db) : option db :=
  insert_user_action
    {| action_id := new_id; ua_user_id := userId;
       emissions_saved_lbs := emissionsSavedLbs;
       verified := false; verified_at := None |}
    d.

(** [sync_global_emissions_from_user_stats] *)
Record sync_result := {
  was_in_sync : bool;
  user_stats_sum : numeric;
  global_total : numeric;
  fixed : bool
}.

Definition sync_global_emissions_from_user_stats
    (now : timestamptz) (d : db) : db * sync_result :=
  let stats_sum := sum_of total_emissions_lbs (user_stats d) in
  let global_val := total_lbs_saved (global_emissions d) in
  let is_synced := stats_sum =? global_val in
  (if negb is_synced
   then set_global_emissions
          {| total_lbs_saved := stats_sum;
             total_actions := total_actions (global_emissions d);
             ge_last_updated := now |} d
   else d,
   {| was_in_sync := is_synced; user_stats_sum := stats_sum;
      global_total := global_val; fixed := negb is_synced |}).

(** [hourly_sync_check]: the JSON object it returns and the warnings it
    raises. *)
Record sync_check_json := {
  j_timestamp : timestamptz;
  j_was_in_sync : bool;
  j_user_stats_sum : numeric;
  j_global_total : numeric;
  j_discrepancy : numeric;
  j_fixed : bool;
  j_in_sync : bool;
  j_alert_channel : string
}.

Record warning := {
  w_user_stats_sum : numeric;
  w_global_total : numeric;
  w_discrepancy : numeric;
  w_fixed : bool
}.

Definition hourly_sync_check (now : timestamptz) (d : db)
  : db * sync_check_json * list warning :=
  let '(d', check_result) := sync_global_emissions_from_user_stats now d in
  let discrepancy :=
    Z.abs (user_stats_sum check_result - global_total check_result) in
  let result :=
    {| j_timestamp := now;
       j_was_in_sync := was_in_sync check_result;
       j_user_stats_sum := round2 (user_stats_sum check_result);
       j_global_total := round2 (global_total check_result);
       j_discrepancy := round2 discrepancy;
       j_fixed := fixed check_result;
       j_in_sync :=
         round2 (user_stats_sum check_result)
         =? round2 (global_total check_result);
       j_alert_channel := "System admin or monitoring dashboard"%string |} in
  (d', result,
   if negb (was_in_sync check_result)
   then [ {| w_user_stats_sum := round2 (user_stats_sum check_result);
             w_global_total := round2 (global_total check_result);
             w_discrepancy := round2 discrepancy;
             w_fixed := fixed check_result |} ]
   else []).

(** [get_leaderboard] *)
Record ranked_user := {
  ru_user_id : uuid;
  ru_username : option string;
  ru_total_emissions_lbs : numeric;
  ru_action_count : Z;
  ru_last_update_timestamp : timestamptz;
  last_verified_action_at : timestamptz
}.

Record leaderboard_row := {
  rank : Z;
  lb_user_id : uuid;
  lb_username : option string;
  lb_total_emissions_lbs : numeric;
  lb_action_count : Z;
  lb_last_update_timestamp : timestamptz
}.

(** [SELECT MAX(ua.verified_at) FROM user_actions ua
     WHERE ua.user_id = uid AND ua.verified = TRUE] *)
Fixpoint max_verified_at (uid : uuid) (acts : list user_actions_row)
  : option timestamptz :=
  match acts with
  | [] => None
  | a :: acts' =>
      let rest := max_verified_at uid acts' in
      if uuid_eqb (ua_user_id a) uid && verified a then
        match verified_at a, rest with
        | Some t, Some m => Some (Z.max t m)
        | Some t, None => Some t
        | None, _ => rest
        end
      else rest
  end.

(** The [ranked_users] common table expression. *)
Definition ranked_users (d : db) : list ranked_user :=
  flat_map
    (fun us =>
       map
         (fun u =>
            {| ru_user_id := us_user_id us;
               ru_username := username u;
               ru_total_emissions_lbs := total_emissions_lbs us;
               ru_action_count := action_count us;
               ru_last_update_timestamp := last_updated us;
               last_verified_action_at :=
                 coalesce (max_verified_at (us_user_id us) (user_actions d))
                          (last_updated us) |})
         (filter (fun u => uuid_eqb (u_user_id u) (us_user_id us))
                 (users d)))
    (filter (fun us => 0 <? total_emissions_lbs us) (user_stats d)).

(** [ORDER BY total_emissions_lbs DESC, last_verified_action_at DESC] *)
Definition leaderboard_before (a b : ranked_user) : bool :=
  (ru_total_emissions_lbs b <? ru_total_emissions_lbs a)
  || ((ru_total_emissions_lbs a =? ru_total_emissions_lbs b)
      && (last_verified_action_at b <=? last_verified_action_at a)).

(** [get_leaderboard], with the rows that tie on both keys in the order
    of [ranked_users]: one of the results the query may return. *)
Definition get_leaderboard (limit_count : nat) (d : db)
  : list leaderboard_row :=
  firstn limit_count
    (map
       (fun nr =>
          {| rank := fst nr;
             lb_user_id := ru_user_id (snd nr);
             lb_username := ru_username (snd nr);
             lb_total_emissions_lbs :=
               round2 (ru_total_emissions_lbs (snd nr));
             lb_action_count := ru_action_count (snd nr);
             lb_last_update_timestamp :=
               ru_last_update_timestamp (snd nr) |})
       (row_number 1 (order_by leaderboard_before (ranked_users d)))).

End AiVerification.

(* ------------------------------------------------------------------ *)
(** ** Row-level trigger events *)

Inductive tg_op := TG_INSERT | TG_UPDATE.

Definition tg_op_eqb (a b : tg_op) : bool :=
  match a, b with
  | TG_INSERT, TG_INSERT => true
  | TG_UPDATE, TG_UPDATE => true
  | _, _ => false
  end.

(** Whether a trigger declared [AFTER events] runs for a row operation. *)
Definition fires (events : list tg_op) (op : tg_op) : bool :=
  existsb (tg_op_eqb op) events.

(** [e * 2.20462] for a scale-6 number of kilograms, stored at scale 6. *)
Definition kg_to_lbs (e : numeric) : numeric := round_div (e * 220462) 100000.

(* ------------------------------------------------------------------ *)
(** ** Migration 20251115050327: add_action_sync_triggers
       ([sync_user_stats_on_action_insert] on every inserted action,
       [sync_global_emissions_on_stats_update] on [user_stats]) *)

Module ActionSyncTriggers.

(** [user_actions] as extended by the migration before this one; the
    [verified] column is the one of the table being extended, which the
    trigger function does not read. *)
Record user_actions_row := {
  user_id : uuid;
  custom_emissions_saved : option numeric;
  emissions_saved_lbs : option numeric;
  verified : bool
}.

Record user_stats_row := {
  us_user_id : uuid;
  total_lbs : numeric;
  action_count : Z;
  last_updated : timestamptz
}.

Record global_emissions_row := {
  total_lbs_saved : numeric;
  total_actions : Z;
  ge_last_updated : timestamptz
}.

Record db := {
  user_actions : list user_actions_row;
  user_stats : list user_stats_row;
  global_emissions : global_emissions_row
}.

(** [INSERT INTO global_emissions VALUES (1, 0, 0, now())
     ON CONFLICT (id) DO NOTHING]: the singleton row exists. *)
Definition empty_db : db :=
  {| user_actions := [];
     user_stats := [];
     global_emissions :=
       {| total_lbs_saved := 0; total_actions := 0; ge_last_updated := 0 |} |}.

(** [sync_global_emissions_on_stats_update]; the row with [id = 1]
    exists, so the [INSERT ... ON CONFLICT (id) DO UPDATE] updates it. *)
Definition sync_global_emissions_on_stats_update
    (now : timestamptz) (OLD : option user_stats_row) (NEW : user_stats_row)
    (d : db) : db :=
  let v_diff := total_lbs NEW - coalesce (option_map total_lbs OLD) 0 in
  let g := global_emissions d in
  {| user_actions := user_actions d;
     user_stats := user_stats d;
     global_emissions :=
       {| total_lbs_saved := total_lbs_saved g + v_diff;
          total_actions := total_actions g;
          ge_last_updated := now |} |}.

(** [CREATE TRIGGER trigger_sync_global_emissions_on_stats_update
     AFTER UPDATE ON user_stats FOR EACH ROW] *)
Definition trigger_sync_global_emissions_on_stats_update : list tg_op :=
  [TG_UPDATE].

Definition set_user_stats (t : list user_stats_row) (d : db) : db :=
  {| user_actions := user_actions d; user_stats := t;
     global_emissions := global_emissions d |}.

(** [sync_user_stats_on_action_insert], followed by the [user_stats]
    trigger when it is declared for the row operation performed;
    [events] is the event list of that trigger's declaration. *)
Definition sync_user_stats_on_action_insert
    (events : list tg_op) (now : timestamptz) (NEW : user_actions_row)
    (d : db) : db :=
  let v :=
    coalesce (custom_emissions_saved NEW)
             (coalesce (emissions_saved_lbs NEW) 0) in
  match find_row us_user_id (user_id NEW) (user_stats d) with
  | None =>
      let fresh :=
        {| us_user_id := user_id NEW; total_lbs := v; action_count := 1;
           last_updated := now |} in
      let d1 := set_user_stats (user_stats d ++ [fresh]) d in
      if fires events TG_INSERT
      then sync_global_emissions_on_stats_update now None fresh d1
      else d1
  | Some old =>
      let set r :=
        {| us_user_id := us_user_id r; total_lbs := total_lbs r + v;
           action_count := action_count r + 1; last_updated := now |} in
      let d1 :=
        set_user_stats
          (update_rows us_user_id (user_id NEW) set (user_stats d)) d in
      if fires events TG_UPDATE
      then sync_global_emissions_on_stats_update now (Some old) (set old) d1
      else d1
  end.

(** [INSERT INTO user_actions], with
    [trigger_sync_user_stats_on_action_insert] ([AFTER INSERT]). *)
Definition insert_user_action_with
    (events : list tg_op) (now : timestamptz) (NEW : user_actions_row)
    (d : db) : db :=
  sync_user_stats_on_action_insert events now NEW
    {| user_actions := user_actions d ++ [NEW];
       user_stats := user_stats d;
       global_emissions := global_emissions d |}.

(** The insert under the triggers as this migration declares them. *)
Definition insert_user_action : timestamptz -> user_actions_row -> db -> db :=
  insert_user_action_with trigger_sync_global_emissions_on_stats_update.

End ActionSyncTriggers.

(* ------------------------------------------------------------------ *)
(** ** Migrations 20251115053008 (complete_app_setup) and 20251117175551
       (fix_function_volatility): the same two functions, with the
       [user_stats] trigger declared [AFTER INSERT OR UPDATE] *)

Module CompleteAppSetup.

Record action_templates_row := {
  id : uuid;
  emissions_saved : numeric
}.

Record user_actions_row := {
  user_id : uuid;
  action_template_id : option uuid;
  custom_emissions_saved : option numeric
}.

Record user_stats_row := {
  us_user_id : uuid;
  total_lbs : numeric;
  total_emissions_lbs : numeric;
  action_count : Z;
  last_updated : timestamptz
}.

Record global_emissions_row := {
  g_total_lbs : numeric;
  total_lbs_saved : numeric;
  total_actions : Z;
  ge_last_updated : timestamptz
}.

Record db := {
  action_templates : list action_templates_row;
  user_actions : list user_actions_row;
  user_stats : list user_stats_row;
  global_emissions : global_emissions_row
}.

Definition empty_db (templates : list action_templates_row) : db :=
  {| action_templates := templates;
     user_actions := [];
     user_stats := [];
     global_emissions :=
       {| g_total_lbs := 0; total_lbs_saved := 0; total_actions := 0;
          ge_last_updated := 0 |} |}.

(** [SELECT COALESCE(emissions_saved * 2.20462, 0) INTO v_lbs
     FROM action_templates WHERE id = NEW.action_template_id];
    [None] is SQL [NULL], what [SELECT ... INTO] leaves when no template
    row matches. *)
Definition template_lbs (templates : list action_templates_row)
    (NEW : user_actions_row) : option numeric :=
  match action_template_id NEW with
  | Some t =>
      option_map (fun r => kg_to_lbs (emissions_saved r))
                 (find_row id t templates)
  | None => Some 0
  end.

(** The value of [v_lbs]. *)
Definition v_lbs (templates : list action_templates_row)
    (NEW : user_actions_row) : option numeric :=
  match custom_emissions_saved NEW with
  | Some c => if 0 <? c then Some c else template_lbs templates NEW
  | None => template_lbs templates NEW
  end.

Definition sync_global_emissions_on_stats_update
    (now : timestamptz) (OLD : option user_stats_row) (NEW : user_stats_row)
    (d : db) : db :=
  let v_diff := total_lbs NEW - coalesce (option_map total_lbs OLD) 0 in
  if negb (v_diff =? 0) then
    let g := global_emissions d in
    {| action_templates := action_templates d;
       user_actions := user_actions d;
       user_stats := user_stats d;
       global_emissions :=
         {| g_total_lbs := g_total_lbs g + v_diff;
            total_lbs_saved := total_lbs_saved g + v_diff;
            total_actions :=
              total_actions g
              + (action_count NEW
                 - coalesce (option_map action_count OLD) 0);
            ge_last_updated := now |} |}
  else d.

(** [CREATE TRIGGER trigger_sync_global_emissions
     AFTER INSERT OR UPDATE ON user_stats FOR EACH ROW] *)
Definition trigger_sync_global_emissions : list tg_op :=
  [TG_INSERT; TG_UPDATE].

Definition set_user_stats (t : list user_stats_row) (d : db) : db :=
  {| action_templates := action_templates d;
     user_actions := user_actions d; user_stats := t;
     global_emissions := global_emissions d |}.

Definition sync_user_stats_on_action_insert
    (events : list tg_op) (now : timestamptz) (NEW : user_actions_row)
    (d : db) : db :=
  match v_lbs (action_templates d) NEW with
  | Some v =>
      if 0 <? v then
        match find_row us_user_id (user_id NEW) (user_stats d) with
        | None =>
            let fresh :=
              {| us_user_id := user_id NEW; total_lbs := v;
                 total_emissions_lbs := v; action_count := 1;
                 last_updated := now |} in
            let d1 := set_user_stats (user_stats d ++ [fresh]) d in
            if fires events TG_INSERT
            then sync_global_emissions_on_stats_update now None fresh d1
            else d1
        | Some old =>
            let set r :=
              {| us_user_id := us_user_id r; total_lbs := total_lbs r + v;
                 total_emissions_lbs := total_emissions_lbs r + v;
                 action_count := action_count r + 1;
                 last_updated := now |} in
            let d1 :=
              set_user_stats
                (update_rows us_user_id (user_id NEW) set (user_stats d))
                d in
            if fires events TG_UPDATE
            then sync_global_emissions_on_stats_update
                   now (Some old) (set old) d1
            else d1
        end
      else d
  | None => d
  end.

Definition insert_user_action
    (now : timestamptz) (NEW : user_actions_row) (d : db) : db :=
  sync_user_stats_on_action_insert trigger_sync_global_emissions now NEW
    {| action_templates := action_templates d;
       user_actions := user_actions d ++ [NEW];
       user_stats := user_stats d;
       global_emissions := global_emissions d |}.

End CompleteAppSetup.

(* ------------------------------------------------------------------ *)
(** ** FINAL_SIMPLE_SOLUTION.sql
       ([update_emission_totals], [backfill_totals], [get_user_total],
       [get_global_total], [get_leaderboard_simple],
       [sync_global_from_user_stats]) *)

Module SimpleSolution.

Record action_templates_row := {
  id : uuid;
  emissions_saved : numeric
}.

Record profiles_row := {
  p_id : uuid;
  p_username : option string;
  full_name : option string
}.

Record user_actions_row := {
  user_id : uuid;
  custom_emissions_saved : option numeric;
  action_template_id : option uuid
}.

Record user_stats_row := {
  us_user_id : uuid;
  total_lbs : numeric;
  total_emissions_lbs : option numeric;
  last_updated : timestamptz
}.

Record global_emissions_row := {
  g_total_lbs : numeric;
  total_lbs_saved : option numeric;
  ge_last_updated : timestamptz
}.

Record db := {
  action_templates : list action_templates_row;
  profiles : list profiles_row;
  user_actions : list user_actions_row;
  user_stats : list user_stats_row;
  global_emissions : global_emissions_row
}.

(** Step 3 of the script on a fresh database. *)
Definition empty_db (templates : list action_templates_row)
    (people : list profiles_row) : db :=
  {| action_templates := templates;
     profiles := people;
     user_actions := [];
     user_stats := [];
     global_emissions :=
       {| g_total_lbs := 0; total_lbs_saved := Some 0;
          ge_last_updated := 0 |} |}.

(** [COALESCE((SELECT emissions_saved FROM action_templates
               WHERE id = t), 0)] *)
Definition template_emissions (templates : list action_templates_row)
    (t : uuid) : numeric :=
  coalesce (option_map emissions_saved (find_row id t templates)) 0.

(** The value of [v_lbs] in [update_emission_totals]. *)
Definition v_lbs (templates : list action_templates_row)
    (NEW : user_actions_row) : numeric :=
  let from_template :=
    match action_template_id NEW with
    | Some t => kg_to_lbs (template_emissions templates t)
    | None => 0
    end in
  match custom_emissions_saved NEW with
  | Some c => if 0 <? c then c else from_template
  | None => from_template
  end.

(** [UPDATE user_stats SET total_emissions_lbs = total_lbs
     WHERE <sel> AND (total_emissions_lbs IS NULL
                      OR total_emissions_lbs != total_lbs)] *)
Definition mirror_total (sel : user_stats_row -> bool)
    (t : list user_stats_row) : list user_stats_row :=
  map
    (fun r =>
       if sel r
          && match total_emissions_lbs r with
             | None => true
             | Some e => negb (e =? total_lbs r)
             end
       then {| us_user_id := us_user_id r; total_lbs := total_lbs r;
               total_emissions_lbs := Some (total_lbs r);
               last_updated := last_updated r |}
       else r)
    t.

(** [update_emission_totals]: body of the [AFTER INSERT] row trigger on
    [user_actions]. *)
Definition update_emission_totals
    (now : timestamptz) (NEW : user_actions_row) (d : db) : db :=
  let v := v_lbs (action_templates d) NEW in
  if 0 <? v then
    let g := global_emissions d in
    {| action_templates := action_templates d;
       profiles := profiles d;
       user_actions := user_actions d;
       user_stats :=
         mirror_total
           (fun r => uuid_eqb (us_user_id r) (user_id NEW))
           (upsert us_user_id (user_id NEW)
              {| us_user_id := user_id NEW; total_lbs := v;
                 total_emissions_lbs := None; last_updated := now |}
              (fun r =>
                 {| us_user_id := us_user_id r;
                    total_lbs := total_lbs r + v;
                    total_emissions_lbs := total_emissions_lbs r;
                    last_updated := now |})
              (user_stats d));
       global_emissions :=
         {| g_total_lbs := g_total_lbs g + v;
            total_lbs_saved := Some (coalesce (total_lbs_saved g) 0 + v);
            ge_last_updated := now |} |}
  else d.

(** [INSERT INTO user_actions], with [trigger_update_emission_totals]. *)
Definition insert_user_action
    (now : timestamptz) (NEW : user_actions_row) (d : db) : db :=
  update_emission_totals now NEW
    {| action_templates := action_templates d;
       profiles := profiles d;
       user_actions := user_actions d ++ [NEW];
       user_stats := user_stats d;
       global_emissions := global_emissions d |}.

(** The [CASE] expression summed by [backfill_totals], before any
    rounding: a scale-11 value (the product of a scale-6 number and
    [2.20462]). *)
Definition case_lbs (templates : list action_templates_row)
    (ua : user_actions_row) : Z :=
  let from_template :=
    match action_template_id ua with
    | Some t => template_emissions templates t * 220462
    | None => 0
    end in
  match custom_emissions_saved ua with
  | Some c => if 0 <? c then c * 100000 else from_template
  | None => from_template
  end.

(** The [WHERE] clause of the [user_totals] expression. *)
Definition contributes (ua : user_actions_row) : bool :=
  match custom_emissions_saved ua with
  | Some c => 0 <? c
  | None => false
  end
  || match action_template_id ua with
     | Some _ => true
     | None => false
     end.

(** The [user_totals] expression: one row per user, with the sum at
    scale 11. *)
Definition user_totals (d : db) : list (uuid * Z) :=
  let rows := filter contributes (user_actions d) in
  map
    (fun u =>
       (u,
        sum_of (case_lbs (action_templates d))
               (filter (fun ua => uuid_eqb (user_id ua) u) rows)))
    (distinct (map user_id rows)).

(** [backfill_totals] *)
Definition backfill_totals (now : timestamptz) (d : db) : db :=
  let stats1 :=
    fold_left
      (fun t ut =>
         let total := round_div (snd ut) 100000 in
         upsert us_user_id (fst ut)
           {| us_user_id := fst ut; total_lbs := total;
              total_emissions_lbs := None; last_updated := now |}
           (fun r =>
              {| us_user_id := us_user_id r; total_lbs := total;
                 total_emissions_lbs := total_emissions_lbs r;
                 last_updated := now |})
           t)
      (user_totals d) (user_stats d) in
  let stats2 := mirror_total (fun _ => true) stats1 in
  {| action_templates := action_templates d;
     profiles := profiles d;
     user_actions := user_actions d;
     user_stats := stats2;
     global_emissions :=
       {| g_total_lbs := sum_of total_lbs stats2;
          total_lbs_saved := Some (sum_of total_lbs stats2);
          ge_last_updated := now |} |}.

(** [get_user_total]; [total_lbs] is declared [NOT NULL], so the second
    alternative of the [COALESCE] is never reached. *)
Definition get_user_total (p_user_id : uuid) (d : db) : numeric :=
  coalesce (option_map total_lbs (find_row us_user_id p_user_id (user_stats d)))
           0.

(** [get_global_total] *)
Definition get_global_total (d : db) : numeric :=
  g_total_lbs (global_emissions d).

(** [sync_global_from_user_stats] *)
Record sync_result := {
  was_in_sync : bool;
  user_stats_sum : numeric;
  global_total : numeric;
  fixed : bool
}.

Definition sync_global_from_user_stats (now : timestamptz) (d : db)
  : db * sync_result :=
  let v_user_sum := sum_of total_lbs (user_stats d) in
  let v_global := g_total_lbs (global_emissions d) in
  let v_is_synced := v_user_sum =? v_global in
  (if negb v_is_synced
   then {| action_templates := action_templates d;
           profiles := profiles d;
           user_actions := user_actions d;
           user_stats := user_stats d;
           global_emissions :=
             {| g_total_lbs := v_user_sum;
                total_lbs_saved := Some v_user_sum;
                ge_last_updated := now |} |}
   else d,
   {| was_in_sync := v_is_synced; user_stats_sum := v_user_sum;
      global_total := v_global; fixed := negb v_is_synced |}).

(** [get_leaderboard_simple] *)
Record ranked_user := {
  ru_user_id : uuid;
  ru_username : string;
  ru_total_lbs : numeric
}.

Record leaderboard_row := {
  rank : Z;
  lb_user_id : uuid;
  lb_username : string;
  lb_total_emissions_lbs : numeric;
  global_total_lbs : numeric
}.

(** [COALESCE(p.username, p.full_name, 'Anonymous')] over the
    [LEFT JOIN]: [None] is the all-[NULL] row of an unmatched user. *)
Definition display_name (p : option profiles_row) : string :=
  match p with
  | Some r =>
      coalesce (p_username r) (coalesce (full_name r) "Anonymous"%string)
  | None => "Anonymous"%string
  end.

Definition left_join_profiles (people : list profiles_row)
    (us : user_stats_row) : list ranked_user :=
  let mk p :=
    {| ru_user_id := us_user_id us; ru_username := display_name p;
       ru_total_lbs := total_lbs us |} in
  match filter (fun p => uuid_eqb (p_id p) (us_user_id us)) people with
  | [] => [mk None]
  | ps => map (fun p => mk (Some p)) ps
  end.

(** [ORDER BY total_lbs DESC] *)
Definition simple_before (a b : ranked_user) : bool :=
  ru_total_lbs b <=? ru_total_lbs a.

Definition ranked_users (limit_count : nat) (d : db) : list ranked_user :=
  firstn limit_count
    (order_by simple_before
       (flat_map (left_join_profiles (profiles d))
          (filter (fun us => 0 <? total_lbs us) (user_stats d)))).

(** [get_leaderboard_simple], with the rows that tie on the total in the
    order of the join: one of the results the query may return. *)
Definition get_leaderboard_simple (limit_count : nat) (d : db)
  : list leaderboard_row :=
  let v_global_total := get_global_total d in
  map
    (fun nr =>
       {| rank := fst nr;
          lb_user_id := ru_user_id (snd nr);
          lb_username := ru_username (snd nr);
          lb_total_emissions_lbs := ru_total_lbs (snd nr);
          global_total_lbs := v_global_total |})
    (row_number 1 (order_by simple_before (ranked_users limit_count d))).

End SimpleSolution.

(* ------------------------------------------------------------------ *)
(** ** The atomic, idempotent logging transaction and the bulk backfill

    The SQL of [log_emission_atomic] and [bulk_backfill_actions] is not
    part of the repository's files; the repository describes both as
    pseudocode (the section "Concurrency-Safe Pseudocode" of the emission
    logging document and "SQL Pseudocode for Bulk Backfill" of
    docs/BULK_SYNC_IMPLEMENTATION.md), which is what is embedded here,
    statement by statement.  The table [users] that the documented
    schema refers to is not part of the state: every user id is taken to
    be registered. *)

Module EmissionLogging.

Record user_actions_row := {
  action_id : uuid;
  ua_user_id : uuid;
  emissions_saved_lbs : numeric;
  verified : bool
}.

Record user_stats_row := {
  us_user_id : uuid;
  total_emissions_lbs : numeric;
  action_count : Z;
  last_updated : timestamptz
}.

Record global_emissions_row := {
  total_lbs_saved : numeric;
  total_actions : Z;
  ge_last_updated : timestamptz
}.

Record emission_events_row := {
  ev_action_id : uuid;
  ev_user_id : uuid;
  ev_emissions_lbs : numeric;
  ev_user_total_lbs : numeric;
  ev_global_total_lbs : numeric
}.

Record db := {
  user_actions : list user_actions_row;
  user_stats : list user_stats_row;
  global_emissions : global_emissions_row;
  emission_events : list emission_events_row
}.

Definition empty_db : db :=
  {| user_actions := [];
     user_stats := [];
     global_emissions :=
       {| total_lbs_saved := 0; total_actions := 0; ge_last_updated := 0 |};
     emission_events := [] |}.

(** The row the function returns.  A total is [None] when the [SELECT]
    that reads it finds no row, or when the pseudocode passes none. *)
Record log_result := {
  success : bool;
  r_action_id : uuid;
  r_user_id : uuid;
  r_emissions_lbs : numeric;
  user_total_lbs : option numeric;
  global_total_lbs : option numeric;
  is_duplicate : bool
}.

Inductive rpc_reply (A : Type) :=
| RpcData (rows : list A)
| RpcError (message : string).
Arguments RpcData {A} rows.
Arguments RpcError {A} message.

(** [INSERT ... ON CONFLICT (action_id) DO NOTHING], with whether the
    row was inserted. *)
Definition insert_do_nothing (r : user_actions_row)
    (t : list user_actions_row) : list user_actions_row * bool :=
  match find_row action_id (action_id r) t with
  | Some _ => (t, false)
  | None => (t ++ [r], true)
  end.

Definition log_emission_atomic
    (now : timestamptz) (p_action_id p_user_id : uuid)
    (p_emissions_lbs : numeric) (d : db) : db * rpc_reply log_result :=
  match find_row action_id p_action_id (user_actions d) with
  | Some _ =>
      (d,
       RpcData
         [ {| success := true; r_action_id := p_action_id;
              r_user_id := p_user_id; r_emissions_lbs := p_emissions_lbs;
              user_total_lbs :=
                option_map total_emissions_lbs
                  (find_row us_user_id p_user_id (user_stats d));
              global_total_lbs :=
                Some (total_lbs_saved (global_emissions d));
              is_duplicate := true |} ])
  | None =>
      if p_emissions_lbs <? 0 then
        (d, RpcError "check constraint: emissions_saved_lbs >= 0"%string)
      else
        let '(actions', inserted) :=
          insert_do_nothing
            {| action_id := p_action_id; ua_user_id := p_user_id;
               emissions_saved_lbs := p_emissions_lbs; verified := true |}
            (user_actions d) in
        if negb inserted then
          (d,
           RpcData
             [ {| success := true; r_action_id := p_action_id;
                  r_user_id := p_user_id;
                  r_emissions_lbs := p_emissions_lbs;
                  user_total_lbs := None; global_total_lbs := None;
                  is_duplicate := true |} ])
        else
          let stats' :=
            upsert us_user_id p_user_id
              {| us_user_id := p_user_id;
                 total_emissions_lbs := p_emissions_lbs;
                 action_count := 1; last_updated := now |}
              (fun r =>
                 {| us_user_id := us_user_id r;
                    total_emissions_lbs :=
                      total_emissions_lbs r + p_emissions_lbs;
                    action_count := action_count r + 1;
                    last_updated := last_updated r |})
              (user_stats d) in
          let user_total :=
            match find_row us_user_id p_user_id (user_stats d) with
            | Some r => total_emissions_lbs r + p_emissions_lbs
            | None => p_emissions_lbs
            end in
          let g := global_emissions d in
          let global_total := total_lbs_saved g + p_emissions_lbs in
          ({| user_actions := actions';
              user_stats := stats';
              global_emissions :=
                {| total_lbs_saved := global_total;
                   total_actions := total_actions g + 1;
                   ge_last_updated := ge_last_updated g |};
              emission_events :=
                emission_events d
                ++ [ {| ev_action_id := p_action_id;
                        ev_user_id := p_user_id;
                        ev_emissions_lbs := p_emissions_lbs;
                        ev_user_total_lbs := user_total;
                        ev_global_total_lbs := global_total |} ] |},
           RpcData
             [ {| success := true; r_action_id := p_action_id;
                  r_user_id := p_user_id;
                  r_emissions_lbs := p_emissions_lbs;
                  user_total_lbs := Some user_total;
                  global_total_lbs := Some global_total;
                  is_duplicate := false |} ])
  end.

(** *** Bulk backfill *)

Record action_log := {
  b_action_id : uuid;
  b_user_id : uuid;
  b_lbs : numeric;
  b_verified : bool
}.

Record backfill_result := {
  bf_success : bool;
  inserted_count : Z;
  skipped_count : Z;
  bf_global_total_lbs : numeric;
  affected_users : Z
}.

(** The bulk [INSERT ... ON CONFLICT (action_id) DO NOTHING], counting
    inserted and skipped rows. *)
Fixpoint insert_batch (batch : list action_log)
    (t : list user_actions_row) : list user_actions_row * Z * Z :=
  match batch with
  | [] => (t, 0, 0)
  | a :: batch' =>
      let '(t1, inserted) :=
        insert_do_nothing
          {| action_id := b_action_id a; ua_user_id := b_user_id a;
             emissions_saved_lbs := b_lbs a; verified := b_verified a |}
          t in
      let '(t2, ins, skip) := insert_batch batch' t1 in
      if inserted then (t2, ins + 1, skip) else (t2, ins, skip + 1)
  end.

(** [affected_users]: the users of the rows of [user_actions] whose
    [action_id] is one of the batch. *)
Definition affected (batch : list action_log)
    (t : list user_actions_row) : list uuid :=
  distinct
    (map ua_user_id
       (filter
          (fun r =>
             existsb (fun a => uuid_eqb (b_action_id a) (action_id r)) batch)
          t)).

(** The verified rows of one user. *)
Definition verified_rows_of (u : uuid) (t : list user_actions_row)
  : list user_actions_row :=
  filter (fun r => verified r && uuid_eqb (ua_user_id r) u) t.

(** [user_sums]: one row per affected user that has a verified row. *)
Definition user_sums (users : list uuid) (t : list user_actions_row)
  : list (uuid * (numeric * Z)) :=
  flat_map
    (fun u =>
       match verified_rows_of u t with
       | [] => []
       | rows =>
           [(u, (sum_of emissions_saved_lbs rows,
                 Z.of_nat (List.length rows)))]
       end)
    users.

(** [UPDATE user_stats SET ... FROM user_sums
     WHERE user_stats.user_id = user_sums.user_id] *)
Definition update_from_sums (now : timestamptz)
    (sums : list (uuid * (numeric * Z))) (t : list user_stats_row)
  : list user_stats_row :=
  map
    (fun r =>
       match find_row fst (us_user_id r) sums with
       | Some s =>
           {| us_user_id := us_user_id r;
              total_emissions_lbs := fst (snd s);
              action_count := snd (snd s);
              last_updated := now |}
       | None => r
       end)
    t.

Definition bulk_backfill_actions (now : timestamptz)
    (p_actions : list action_log) (d : db) : db * backfill_result :=
  let '(actions', ins, skip) := insert_batch p_actions (user_actions d) in
  let users := affected p_actions actions' in
  let stats' :=
    update_from_sums now (user_sums users actions') (user_stats d) in
  let total :=
    sum_of emissions_saved_lbs (filter verified actions') in
  ({| user_actions := actions';
      user_stats := stats';
      global_emissions :=
        {| total_lbs_saved := total;
           total_actions := total_actions (global_emissions d);
           ge_last_updated := now |};
      emission_events := emission_events d |},
   {| bf_success := true; inserted_count := ins; skipped_count := skip;
      bf_global_total_lbs := total;
      affected_users := Z.of_nat (List.length users) |}).

End EmissionLogging.

(* ------------------------------------------------------------------ *)
(** ** JavaScript numbers

    A [number] is an IEEE binary64.  Where the code adds numbers they are
    Rocq's primitive floats; where it prints, parses and rounds decimals
    they are written as the fraction they stand for, so that a number can
    be compared with a decimal exactly. *)

Module Binary64.

(** A finite binary64, as the fraction [num / 2^shift].  Zero is
    [0 / 2^0]; any other number has [2^52 <= |num| < 2^53]. *)
Record number := {
  num : Z;
  shift : Z
}.

Definition zero : number := {| num := 0; shift := 0 |}.

(** The binary64 nearest to the quotient [a / b] of two positive
    integers, ties to even: the value of a decimal literal, and what
    [JSON.parse] and [parseFloat] make of decimal text. *)
Definition nearest_positive (a b : Z) : number :=
  let k0 := 52 - Z.log2 a + Z.log2 b in
  let k := if a * 2 ^ Z.max k0 0 <? b * 2 ^ Z.max (- k0) 0 * 2 ^ 52
           then k0 + 1 else k0 in
  let n := a * 2 ^ Z.max k 0 in
  let d := b * 2 ^ Z.max (- k) 0 in
  let q0 := n / d in
  let r := n mod d in
  let q := if 2 * r <? d then q0
           else if (2 * r =? d) && Z.even q0 then q0
           else q0 + 1 in
  if q =? 2 ^ 53 then {| num := 2 ^ 52; shift := k - 1 |}
  else {| num := q; shift := k |}.

Definition nearest (a b : Z) : number :=
  match a with
  | Z0 => zero
  | Zpos _ => nearest_positive a b
  | Zneg p =>
      let x := nearest_positive (Zpos p) b in
      {| num := - num x; shift := shift x |}
  end.

(** The same number as a primitive float. *)
Definition to_float (x : number) : float :=
  let m := Z.ldexp (PrimFloat.of_uint63 (Uint63.of_Z (Z.abs (num x))))
             (- shift x) in
  if num x <? 0 then (- m)%float else m.

(** A finite primitive float as a fraction. *)
Definition of_float (x : float) : option number :=
  match Prim2SF x with
  | S754_zero _ => Some zero
  | S754_finite s m e =>
      Some {| num := if s then Zneg m else Zpos m; shift := - e |}
  | _ => None
  end.

(** [x === y] and [x < y] *)
Definition eqb (x y : number) : bool :=
  (num x =? num y) && (shift x =? shift y).

Definition ltb (x y : number) : bool :=
  num x * 2 ^ Z.max (shift y - shift x) 0
  <? num y * 2 ^ Z.max (shift x - shift y) 0.

(** A [NUMERIC] value of scale 6 as it arrives in a JSON document. *)
Definition of_numeric (x : numeric) : number := nearest x 1000000.

(** [x] is exactly the decimal of [millionths] millionths. *)
Definition is_decimal (x : number) (millionths : Z) : bool :=
  num x * 1000000 * 2 ^ Z.max (- shift x) 0
  =? millionths * 2 ^ Z.max (shift x) 0.

(** [x] lies within [tolerance] millionths of the decimal of
    [millionths] millionths. *)
Definition within (x : number) (millionths tolerance : Z) : Prop :=
  Z.abs (num x * 1000000 * 2 ^ Z.max (- shift x) 0
         - millionths * 2 ^ Z.max (shift x) 0)
  <= tolerance * 2 ^ Z.max (shift x) 0.

End Binary64.

(* ------------------------------------------------------------------ *)
(** ** src/services/globalSync.ts: the in-memory global aggregate

    [number] is IEEE binary64, the type of Rocq's primitive floats.  A
    listener is represented by whether it throws when it is handed a
    payload, which may depend on how many calls of listeners came before;
    what else it does lies outside the module, and a listener that calls
    back into the module is not represented. *)

Module GlobalSync.

Record GlobalState := {
  totalLbsSaved : float;
  actionCount : float
}.

(** The module-level [globalState] as initialised. *)
Definition globalState : GlobalState :=
  {| totalLbsSaved := 0%float; actionCount := 0%float |}.

Inductive FinalStatus := verified | needs_review.

Definition FinalStatus_eqb (a b : FinalStatus) : bool :=
  match a, b with
  | verified, verified => true
  | needs_review, needs_review => true
  | _, _ => false
  end.

(** The fields of [UserAction] the function reads, with the idempotency
    token [id] it does not read. *)
Record UserAction := {
  id : string;
  userId : string;
  emissionsSavedLbs : option float
}.

(** What [broadcast] hands to every listener. *)
Record payload := {
  emissions_added_lbs : float;
  new_total_lbs : float
}.

(** A subscribed function of type [Listener]: [throws n p] is the error
    the call [l(p)] throws when [n] calls of listeners have been made
    before it, [None] when the call returns. *)
Record Listener := {
  throws : nat -> payload -> option string
}.

Inductive outcome (A : Type) :=
| Returned (a : A)
| Thrown (message : string).
Arguments Returned {A} a.
Arguments Thrown {A} message.

(** The module state: [globalState], the set [listeners] in insertion
    order, and the calls of listeners made so far, each with the position
    of the listener called and the payload it was handed. *)
Record store := {
  state : GlobalState;
  listeners : list Listener;
  calls : list (nat * payload)
}.

(** The module as loaded, once the functions [subscribed] have been
    passed to [subscribeGlobal]. *)
Definition loaded (subscribed : list Listener) : store :=
  {| state := globalState; listeners := subscribed; calls := [] |}.

(** [listeners.forEach((l) => l(payload))]: the listeners are called in
    order; the first one that throws ends the loop. *)
Fixpoint forEach (ls : list Listener) (position : nat) (p : payload)
    (log : list (nat * payload)) : list (nat * payload) * option string :=
  match ls with
  | [] => (log, None)
  | l :: ls' =>
      let log' := (log ++ [(position, p)])%list in
      match throws l (List.length log) p with
      | Some e => (log', Some e)
      | None => forEach ls' (S position) p log'
      end
  end.

(** [broadcast(emissionsAddedLbs)] *)
Definition broadcast (emissionsAddedLbs : float) (s : store)
  : store * option string :=
  let p := {| emissions_added_lbs := emissionsAddedLbs;
              new_total_lbs := totalLbsSaved (state s) |} in
  let '(log, thrown) := forEach (listeners s) 0%nat p (calls s) in
  ({| state := state s; listeners := listeners s; calls := log |}, thrown).

(** [retry(fn, attempts)]: [fn] is run until it returns, at most
    [attempts] times; the delays between attempts are not represented. *)
Fixpoint retry {A : Type} (attempts : nat)
    (fn : store -> store * outcome A) (lastErr : string) (s : store)
  : store * outcome A :=
  match attempts with
  | O => (s, Thrown lastErr)
  | S n =>
      match fn s with
      | (s', Returned a) => (s', Returned a)
      | (s', Thrown e) => retry n fn e s'
      end
  end.

(** The callback [aggregateVerifiedAction] hands to [retry]: it commits
    the new total and count, then broadcasts. *)
Definition commit_and_broadcast (y : float) (s0 : store)
  : store * outcome GlobalState :=
  let newTotal := (totalLbsSaved (state s0) + y)%float in
  let newCount := (actionCount (state s0) + 1)%float in
  let committed :=
    {| state := {| totalLbsSaved := newTotal; actionCount := newCount |};
       listeners := listeners s0;
       calls := calls s0 |} in
  match broadcast y committed with
  | (s1, Some e) => (s1, Thrown e)
  | (s1, None) => (s1, Returned (state s1))
  end.

Definition aggregateVerifiedAction
    (action : UserAction) (finalStatus : FinalStatus) (s : store)
  : store * outcome GlobalState :=
  if negb (FinalStatus_eqb finalStatus verified) then
    (s, Thrown "Action not verified; cannot aggregate globally"%string)
  else
    let y := coalesce (emissionsSavedLbs action) 0%float in
    retry 3 (commit_and_broadcast y) "undefined"%string s.

Definition getGlobalState (s : store) : GlobalState := state s.

End GlobalSync.

(* ------------------------------------------------------------------ *)
(** ** The TypeScript service wrappers that write
       ([logEmission] of emissionLogging.ts; [logActionFullSpec];
       [bulkBackfillActions] of bulkSync.ts)

    A [number] of a request that carries an emission quantity is
    represented by the decimal it denotes (scale at most 6); [NaN], the
    infinities and the binary rounding of other values are outside these
    wrappers' model.  A missing (undefined) field is [None]. *)

Module Services.

(** A string field of a response: [n.toString()] of a number, or a
    string taken as it is. *)
Inductive js_text :=
| Printed (n : numeric)
| Literal (s : string).

(** A field declared [number | string]. *)
Inductive number_or_string :=
| Num (n : numeric)
| Str (s : string).

Inductive js_error :=
| Error (message : string)
| TypeError (message : string)
| PostgrestError (message : string).

(** How an [async] function settles. *)
Inductive promise (A : Type) :=
| Resolved (a : A)
| Rejected (e : js_error).
Arguments Resolved {A} a.
Arguments Rejected {A} e.

Inductive rpc_reply (A : Type) :=
| RpcData (rows : list A)
| RpcError (message : string).
Arguments RpcData {A} rows.
Arguments RpcError {A} message.

(** [!s] for a string field *)
Definition missing (s : option string) : bool :=
  match s with
  | None => true
  | Some s => String.eqb s EmptyString
  end.

(** [s || d] for a string field *)
Definition or_default (s : option string) (d : string) : string :=
  match s with
  | Some (String c s') => String c s'
  | _ => d
  end.

(** [x.toString()] where [x] may be [null] or [undefined] *)
Definition toString (x : option numeric) : js_text + js_error :=
  match x with
  | Some n => inl (Printed n)
  | None => inr (TypeError "Cannot read properties of undefined"%string)
  end.

(** The row [log_emission_atomic] and [log_action_atomic] return. *)
Record log_row := {
  row_success : bool;
  row_action_id : option string;
  row_user_id : option string;
  row_emissions_lbs : option numeric;
  row_user_total_lbs : option numeric;
  row_global_total_lbs : option numeric;
  row_is_duplicate : bool;
  row_message : string
}.

(** *** emissionLogging.ts *)

Record EmissionLogRequest := {
  action_id : option string;
  user_id : option string;
  emissions_lbs : option numeric;
  action_type : option string;
  quantity : option numeric;
  unit : option string
}.

Record EmissionLogResponse := {
  success : bool;
  res_action_id : option string;
  res_user_id : option string;
  res_emissions_lbs : js_text;
  user_total_lbs : js_text;
  global_total_lbs : js_text;
  is_duplicate : bool;
  message : string
}.

Record log_emission_args := {
  p_action_id : option string;
  p_user_id : option string;
  p_emissions_lbs : js_text;
  p_action_type : string;
  p_quantity : option numeric;
  p_unit : string
}.

Definition error_message (e : js_error) : string :=
  match e with
  | Error m => m
  | TypeError m => m
  | PostgrestError m => m
  end.

Section LogEmission.
Variable DB : Type.
(** [supabase.rpc('log_emission_atomic', args)] *)
Variable rpc : log_emission_args -> DB -> DB * rpc_reply log_row.

(** The [try] block: the response it returns, or what it throws. *)
Definition logEmission_try (request : EmissionLogRequest) (d : DB)
  : DB * (EmissionLogResponse + js_error) :=
  if missing (action_id request) || missing (user_id request)
     || match emissions_lbs request with None => true | Some _ => false end
  then
    (d, inr (Error
       "Missing required fields: action_id, user_id, emissions_lbs"%string))
  else if match emissions_lbs request with
          | Some n => n <? 0
          | None => false
          end
  then (d, inr (Error "emissions_lbs must be non-negative"%string))
  else
    let args :=
      {| p_action_id := action_id request;
         p_user_id := user_id request;
         p_emissions_lbs :=
           match emissions_lbs request with
           | Some n => Printed n
           | None => Literal EmptyString
           end;
         p_action_type :=
           or_default (action_type request) "verified_action"%string;
         p_quantity :=
           match quantity request with
           | Some q => if q =? 0 then None else Some q
           | None => None
           end;
         p_unit :=
           or_default (unit request) "lbs"%string |} in
    match rpc args d with
    | (d', RpcError m) => (d', inr (PostgrestError m))
    | (d', RpcData []) =>
        (d', inr (Error
           "No data returned from log_emission_atomic"%string))
    | (d', RpcData (result :: _)) =>
        (d',
         match toString (row_emissions_lbs result),
               toString (row_user_total_lbs result),
               toString (row_global_total_lbs result) with
         | inl e, inl u, inl g =>
             inl {| success := row_success result;
                    res_action_id := row_action_id result;
                    res_user_id := row_user_id result;
                    res_emissions_lbs := e;
                    user_total_lbs := u;
                    global_total_lbs := g;
                    is_duplicate := row_is_duplicate result;
                    message := row_message result |}
         | inr err, _, _ => inr err
         | _, inr err, _ => inr err
         | _, _, inr err => inr err
         end)
    end.

(** [logEmission]: the [try] block and its [catch] handler, which
    reads [request.emissions_lbs.toString()] again. *)
Definition logEmission (request : EmissionLogRequest) (d : DB)
  : DB * promise EmissionLogResponse :=
  match logEmission_try request d with
  | (d', inl response) => (d', Resolved response)
  | (d', inr error) =>
      (d',
       match toString (emissions_lbs request) with
       | inl e =>
           Resolved
             {| success := false;
                res_action_id := action_id request;
                res_user_id := user_id request;
                res_emissions_lbs := e;
                user_total_lbs := Literal "0"%string;
                global_total_lbs := Literal "0"%string;
                is_duplicate := false;
                message :=
                  or_default (Some (error_message error))
                    "Failed to log emission"%string |}
       | inr type_error => Rejected type_error
       end)
  end.
End LogEmission.

(** *** fullSpecEmissionLogging.ts *)

Record ActionLogRequest := {
  al_action_id : option string;
  al_user_id : option string;
  al_lbs : option number_or_string;
  al_logged_at : option string;
  al_verified : option bool;
  al_username : option string
}.

Record ActionLogResponse := {
  status_success : bool;
  alr_action_id : option string;
  alr_user_total_lbs : js_text;
  alr_global_total_lbs : js_text;
  alr_is_duplicate : bool;
  alr_timestamp : timestamptz
}.

Record log_action_args := {
  la_action_id : option string;
  la_user_id : option string;
  la_lbs : js_text;
  la_logged_at : option string;
  la_username : option string;
  la_performed_by : string
}.

Section LogActionFullSpec.
Variable DB : Type.
(** [supabase.rpc('log_action_atomic', args)] *)
Variable rpc : log_action_args -> DB -> DB * rpc_reply log_row.
(** The numeric value of a string, [None] for [NaN]. *)
Variable ToNumber : string -> option numeric.

(** [request.lbs < 0] *)
Definition lbs_negative (lbs : option number_or_string) : bool :=
  match lbs with
  | Some (Num n) => n <? 0
  | Some (Str s) =>
      match ToNumber s with
      | Some n => n <? 0
      | None => false
      end
  | None => false
  end.

Definition logActionFullSpec_try (now : timestamptz)
    (request : ActionLogRequest) (d : DB)
  : DB * (ActionLogResponse + js_error) :=
  if missing (al_action_id request) || missing (al_user_id request)
     || match al_lbs request with None => true | Some _ => false end
     || missing (al_logged_at request)
  then
    (d, inr (Error
       "Missing required fields: action_id, user_id, lbs, logged_at"%string))
  else if negb match al_verified request with
               | Some true => true
               | _ => false
               end
  then (d, inr (Error "verified must be true to count"%string))
  else if lbs_negative (al_lbs request)
  then (d, inr (Error "lbs must be non-negative"%string))
  else
    let lbsValue :=
      match al_lbs request with
      | Some (Str s) => Literal s
      | Some (Num n) => Printed n
      | None => Literal EmptyString
      end in
    let args :=
      {| la_action_id := al_action_id request;
         la_user_id := al_user_id request;
         la_lbs := lbsValue;
         la_logged_at := al_logged_at request;
         la_username :=
           if missing (al_username request) then None
           else al_username request;
         la_performed_by := "system"%string |} in
    match rpc args d with
    | (d', RpcError m) => (d', inr (PostgrestError m))
    | (d', RpcData []) =>
        (d', inr (Error "No data returned from log_action_atomic"%string))
    | (d', RpcData (result :: _)) =>
        (d',
         match toString (row_user_total_lbs result),
               toString (row_global_total_lbs result) with
         | inl u, inl g =>
             inl {| status_success := row_success result;
                    alr_action_id := row_action_id result;
                    alr_user_total_lbs := u;
                    alr_global_total_lbs := g;
                    alr_is_duplicate := row_is_duplicate result;
                    alr_timestamp := now |}
         | inr err, _ => inr err
         | _, inr err => inr err
         end)
    end.

Definition logActionFullSpec (now : timestamptz)
    (request : ActionLogRequest) (d : DB)
  : DB * promise ActionLogResponse :=
  match logActionFullSpec_try now request d with
  | (d', inl response) => (d', Resolved response)
  | (d', inr _) =>
      (d',
       Resolved
         {| status_success := false;
            alr_action_id := al_action_id request;
            alr_user_total_lbs := Literal "0"%string;
            alr_global_total_lbs := Literal "0"%string;
            alr_is_duplicate := false;
            alr_timestamp := now |})
  end.
End LogActionFullSpec.

(** *** bulkSync.ts *)

Record ActionLog := {
  log_action_id : string;
  log_user_id : string;
  log_lbs : number_or_string;
  log_logged_at : string;
  log_verified : bool;
  log_action_type : option string;
  log_quantity : option numeric;
  log_unit : option string
}.

Record BulkBackfillRequest := {
  actions : option (list ActionLog);
  idempotency_key : option string
}.

Record BulkBackfillResponse := {
  bulk_success : bool;
  inserted_count : Z;
  skipped_count : Z;
  bulk_global_total_lbs : js_text;
  affected_users : Z;
  bulk_message : string
}.

(** One element of the [p_actions] array. *)
Record action_jsonb := {
  jb_action_id : string;
  jb_user_id : string;
  jb_lbs : js_text;
  jb_logged_at : string;
  jb_verified : bool;
  jb_action_type : string;
  jb_quantity : option numeric;
  jb_unit : string
}.

Record backfill_row := {
  bfr_success : bool;
  bfr_inserted_count : option Z;
  bfr_skipped_count : option Z;
  bfr_global_total_lbs : option numeric;
  bfr_affected_users : option Z;
  bfr_message : option string
}.

Definition to_jsonb (action : ActionLog) : action_jsonb :=
  {| jb_action_id := log_action_id action;
     jb_user_id := log_user_id action;
     jb_lbs :=
       match log_lbs action with
       | Str s => Literal s
       | Num n => Printed n
       end;
     jb_logged_at := log_logged_at action;
     jb_verified := log_verified action;
     jb_action_type :=
       or_default (log_action_type action) "verified_action"%string;
     jb_quantity :=
       match log_quantity action with
       | Some q => if q =? 0 then None else Some q
       | None => None
       end;
     jb_unit :=
       or_default (log_unit action) "lbs"%string |}.

Section BulkBackfill.
Variable DB : Type.
(** [supabase.rpc('bulk_backfill_actions', { p_actions,
    p_idempotency_key })] *)
Variable rpc :
  list action_jsonb -> option string -> DB -> DB * rpc_reply backfill_row.

Definition bulkBackfillActions_try (request : BulkBackfillRequest)
    (d : DB) : DB * (BulkBackfillResponse + js_error) :=
  match actions request with
  | None | Some [] => (d, inr (Error "No actions provided"%string))
  | Some ((_ :: _) as given) =>
      match filter log_verified given with
      | [] => (d, inr (Error "No verified actions provided"%string))
      | verifiedActions =>
          match rpc (map to_jsonb verifiedActions)
                    (if missing (idempotency_key request) then None
                     else idempotency_key request) d with
          | (d', RpcError m) => (d', inr (PostgrestError m))
          | (d', RpcData []) =>
              (d', inr (Error
                 "No data returned from bulk_backfill_actions"%string))
          | (d', RpcData (result :: _)) =>
              (d',
               inl {| bulk_success := bfr_success result;
                      inserted_count :=
                        coalesce (bfr_inserted_count result) 0;
                      skipped_count :=
                        coalesce (bfr_skipped_count result) 0;
                      bulk_global_total_lbs :=
                        match bfr_global_total_lbs result with
                        | Some n => Printed n
                        | None => Literal "0"%string
                        end;
                      affected_users :=
                        coalesce (bfr_affected_users result) 0;
                      bulk_message :=
                        or_default (bfr_message result)
                          "Bulk backfill completed"%string |})
          end
      end
  end.

Definition bulkBackfillActions (request : BulkBackfillRequest) (d : DB)
  : DB * promise BulkBackfillResponse :=
  match bulkBackfillActions_try request d with
  | (d', inl response) => (d', Resolved response)
  | (d', inr error) =>
      (d',
       Resolved
         {| bulk_success := false; inserted_count := 0;
            skipped_count := 0;
            bulk_global_total_lbs := Literal "0"%string;
            affected_users := 0;
            bulk_message :=
              or_default (Some (error_message error))
                "Failed to bulk backfill actions"%string |})
  end.
End BulkBackfill.

End Services.

(* ------------------------------------------------------------------ *)
(** ** The functions that read totals back
       ([getLeaderboard] and [getLeaderboardDirect] of leaderboard.ts;
       [getUserTotalEmissions] and [getGlobalTotalEmissionsExact] of
       emissionLogging.ts)

    The database answers in JSON, in which a [NUMERIC] column is a JSON
    number: the client holds it as the binary64 nearest to the decimal
    ([Binary64.of_numeric]).  Totals are below [10^21], where [toFixed]
    prints digits and no exponent. *)

Module Readers.

(** A string of a response: [x.toString()] of a number, or a literal. *)
Inductive js_text :=
| Printed (x : Binary64.number)
| Literal (s : string).

(** [x.toFixed(2)]: the digits of the integer [n] for which [n / 100] is
    nearest to [x], the larger [n] of two that are equally near; a
    negative [x] is printed as the negation of [(-x).toFixed(2)].  The
    text is represented by [n], the number of hundredths it spells. *)
Definition toFixed2 (x : Binary64.number) : Z :=
  let m := Z.abs (Binary64.num x) in
  Z.sgn (Binary64.num x)
  * (if 0 <=? Binary64.shift x
     then (200 * m + 2 ^ Binary64.shift x) / (2 * 2 ^ Binary64.shift x)
     else 100 * m * 2 ^ (- Binary64.shift x)).

(** [parseFloat(text)] of a text of hundredths. *)
Definition parseFloat (hundredths : Z) : Binary64.number :=
  Binary64.nearest hundredths 100.

Record LeaderboardEntry := {
  rank : Z;
  user_id : uuid;
  username : string;
  total_emissions_lbs : Binary64.number;
  action_count : Z;
  last_update_timestamp : timestamptz
}.

(** The mapping [getLeaderboard] applies to each row [get_leaderboard]
    returns.  The total and the timestamp come from columns that are
    never [NULL], so their [||] defaults apply to a total of zero only,
    which they leave zero. *)
Definition to_entry (entry : AiVerification.leaderboard_row)
  : LeaderboardEntry :=
  {| rank := AiVerification.rank entry;
     user_id := AiVerification.lb_user_id entry;
     username :=
       Services.or_default (AiVerification.lb_username entry)
         "Anonymous"%string;
     total_emissions_lbs :=
       parseFloat
         (toFixed2
            (Binary64.of_numeric
               (AiVerification.lb_total_emissions_lbs entry)));
     action_count := AiVerification.lb_action_count entry;
     last_update_timestamp :=
       AiVerification.lb_last_update_timestamp entry |}.

(** A row of the first query of [getLeaderboardDirect]: the columns of
    [user_stats] with the embedded [users(username)]. *)
Record stats_row := {
  s_user_id : uuid;
  s_total_emissions_lbs : Binary64.number;
  s_action_count : Z;
  s_last_updated : timestamptz;
  s_username : option string
}.

Section Direct.
(** [new Date(text).getTime()] of a timestamp. *)
Variable getTime : timestamptz -> Z.

(** [lastVerifiedMap.get(user) || last_updated]: the map holds, for each
    user, the [verified_at] of the first of that user's rows in
    [actionsData]. *)
Definition tie_break (actionsData : list (uuid * option timestamptz))
    (entry : stats_row) : timestamptz :=
  match find_row fst (s_user_id entry) actionsData with
  | Some (_, Some verified_at) => verified_at
  | _ => s_last_updated entry
  end.

(** The comparator of the sort returns a number that is negative or
    zero. *)
Definition sorts_before (actionsData : list (uuid * option timestamptz))
    (a b : stats_row) : bool :=
  if negb (Binary64.eqb (s_total_emissions_lbs a) (s_total_emissions_lbs b))
  then Binary64.ltb (s_total_emissions_lbs b) (s_total_emissions_lbs a)
  else getTime (tie_break actionsData b) <=? getTime (tie_break actionsData a).

(** [getLeaderboardDirect]: [statsReply] and [actionsData] are what its
    two queries return; the error of the second is not looked at, and
    its data is then empty.  [Array.prototype.sort] is stable. *)
Definition getLeaderboardDirect (limit : nat)
    (statsReply : Services.rpc_reply stats_row)
    (actionsData : list (uuid * option timestamptz))
  : list LeaderboardEntry :=
  match statsReply with
  | Services.RpcError _ => []
  | Services.RpcData statsData =>
      map
        (fun ie =>
           {| rank := fst ie;
              user_id := s_user_id (snd ie);
              username :=
                Services.or_default (s_username (snd ie)) "Anonymous"%string;
              total_emissions_lbs :=
                parseFloat (toFixed2 (s_total_emissions_lbs (snd ie)));
              action_count := s_action_count (snd ie);
              last_update_timestamp := tie_break actionsData (snd ie) |})
        (row_number 1
           (firstn limit (order_by (sorts_before actionsData) statsData)))
  end.

(** [getLeaderboard]: [reply] is what [get_leaderboard] returns. *)
Definition getLeaderboard (limit : nat)
    (reply : Services.rpc_reply AiVerification.leaderboard_row)
    (statsReply : Services.rpc_reply stats_row)
    (actionsData : list (uuid * option timestamptz))
  : list LeaderboardEntry :=
  match reply with
  | Services.RpcError _ => getLeaderboardDirect limit statsReply actionsData
  | Services.RpcData data => map to_entry data
  end.
End Direct.

(** [getUserTotalEmissions]: [.single()] fails unless the query yields
    exactly one row. *)
Definition getUserTotalEmissions (userId : uuid)
    (user_stats : list EmissionLogging.user_stats_row) : js_text :=
  match
    filter (fun r => uuid_eqb (EmissionLogging.us_user_id r) userId)
           user_stats
  with
  | [r] =>
      Printed (Binary64.of_numeric (EmissionLogging.total_emissions_lbs r))
  | _ => Literal "0"%string
  end.

(** [getGlobalTotalEmissionsExact] *)
Definition getGlobalTotalEmissionsExact
    (g : EmissionLogging.global_emissions_row) : js_text :=
  Printed (Binary64.of_numeric (EmissionLogging.total_lbs_saved g)).

End Readers.

(* ------------------------------------------------------------------ *)
(** ** Invariants and reachable states *)

(** Invariant 1 of the data model, for each schema:
    [global_emissions.total_lbs_saved = SUM(user_stats totals)]. *)
Definition ai_consistent (d : AiVerification.db) : Prop :=
  AiVerification.total_lbs_saved (AiVerification.global_emissions d)
  = sum_of AiVerification.total_emissions_lbs (AiVerification.user_stats d).

Definition triggers_consistent (d : ActionSyncTriggers.db) : Prop :=
  ActionSyncTriggers.total_lbs_saved (ActionSyncTriggers.global_emissions d)
  = sum_of ActionSyncTriggers.total_lbs (ActionSyncTriggers.user_stats d).

Definition setup_consistent (d : CompleteAppSetup.db) : Prop :=
  CompleteAppSetup.total_lbs_saved (CompleteAppSetup.global_emissions d)
  = sum_of CompleteAppSetup.total_lbs (CompleteAppSetup.user_stats d).

Definition simple_consistent (d : SimpleSolution.db) : Prop :=
  SimpleSolution.g_total_lbs (SimpleSolution.global_emissions d)
  = sum_of SimpleSolution.total_lbs (SimpleSolution.user_stats d)
  /\ SimpleSolution.total_lbs_saved (SimpleSolution.global_emissions d)
     = Some (sum_of SimpleSolution.total_lbs (SimpleSolution.user_stats d)).

Definition logging_consistent (d : EmissionLogging.db) : Prop :=
  EmissionLogging.total_lbs_saved (EmissionLogging.global_emissions d)
  = sum_of EmissionLogging.total_emissions_lbs (EmissionLogging.user_stats d).

(** The states of the AI-verification schema that its statements reach
    from the state the schema script leaves. *)
Inductive ai_reachable (registered : list AiVerification.users_row)
  : AiVerification.db -> Prop :=
| ai_initial :
    ai_reachable registered (AiVerification.empty_db registered)
| ai_insert d a d' :
    ai_reachable registered d ->
    AiVerification.insert_user_action a d = Some d' ->
    ai_reachable registered d'
| ai_verify d now actionId is_verified :
    ai_reachable registered d ->
    ai_reachable registered
      (AiVerification.verifyAndSyncAction now actionId is_verified d)
| ai_reconcile d now :
    ai_reachable registered d ->
    ai_reachable registered
      (fst (AiVerification.sync_global_emissions_from_user_stats now d)).

(** The states [FINAL_SIMPLE_SOLUTION.sql] reaches. *)
Inductive simple_reachable
    (templates : list SimpleSolution.action_templates_row)
    (people : list SimpleSolution.profiles_row)
  : SimpleSolution.db -> Prop :=
| simple_initial :
    simple_reachable templates people
      (SimpleSolution.empty_db templates people)
| simple_insert d now a :
    simple_reachable templates people d ->
    simple_reachable templates people
      (SimpleSolution.insert_user_action now a d)
| simple_backfill d now :
    simple_reachable templates people d ->
    simple_reachable templates people (SimpleSolution.backfill_totals now d)
| simple_reconcile d now :
    simple_reachable templates people d ->
    simple_reachable templates people
      (fst (SimpleSolution.sync_global_from_user_stats now d)).

(** The states the later migrations reach. *)
Inductive setup_reachable
    (templates : list CompleteAppSetup.action_templates_row)
  : CompleteAppSetup.db -> Prop :=
| setup_initial :
    setup_reachable templates (CompleteAppSetup.empty_db templates)
| setup_insert d now a :
    setup_reachable templates d ->
    setup_reachable templates (CompleteAppSetup.insert_user_action now a d).

(** The states the logging transaction and the bulk backfill reach. *)
Inductive logging_reachable : EmissionLogging.db -> Prop :=
| logging_initial : logging_reachable EmissionLogging.empty_db
| logging_log d now a u q :
    logging_reachable d ->
    logging_reachable (fst (EmissionLogging.log_emission_atomic now a u q d)).

(* ------------------------------------------------------------------ *)
(** ** Idempotent submission *)

(** The idempotency check of [log_emission_atomic]: the row of the key,
    if one is committed.  [FOR UPDATE] locks that row; when there is none
    it locks nothing. *)
Definition existing_action (p_action_id : uuid) (d : EmissionLogging.db)
  : option EmissionLogging.user_actions_row :=
  find_row EmissionLogging.action_id p_action_id
    (EmissionLogging.user_actions d).

(** [log_emission_atomic] from the lock on [global_emissions] onward, as
    a transaction runs it whose check found no row: [d] is the state it
    finds once the lock is granted.  The insert does nothing when another
    transaction has committed the key meanwhile, and the function returns
    [existing_result(is_duplicate=true)], which names no totals; when the
    insert goes through, the rest is what [log_emission_atomic] does in
    [d], where its own check finds no row either. *)
Definition log_emission_locked
    (now : timestamptz) (p_action_id p_user_id : uuid)
    (p_emissions_lbs : numeric) (d : EmissionLogging.db)
  : EmissionLogging.db
    * EmissionLogging.rpc_reply EmissionLogging.log_result :=
  if p_emissions_lbs <? 0 then
    (d,
     EmissionLogging.RpcError
       "check constraint: emissions_saved_lbs >= 0"%string)
  else
    let '(actions', inserted) :=
      EmissionLogging.insert_do_nothing
        {| EmissionLogging.action_id := p_action_id;
           EmissionLogging.ua_user_id := p_user_id;
           EmissionLogging.emissions_saved_lbs := p_emissions_lbs;
           EmissionLogging.verified := true |}
        (EmissionLogging.user_actions d) in
    if negb inserted then
      (d,
       EmissionLogging.RpcData
         [ {| EmissionLogging.success := true;
              EmissionLogging.r_action_id := p_action_id;
              EmissionLogging.r_user_id := p_user_id;
              EmissionLogging.r_emissions_lbs := p_emissions_lbs;
              EmissionLogging.user_total_lbs := None;
              EmissionLogging.global_total_lbs := None;
              EmissionLogging.is_duplicate := true |} ])
    else EmissionLogging.log_emission_atomic now p_action_id p_user_id
           p_emissions_lbs d.

(** Two transactions submit one key at the same time: both run the
    idempotency check before either has committed, so neither finds a
    row; they then take the lock on [global_emissions] one after the
    other, the second seeing what the first committed.  The result is
    the state and reply of the first, then those of the second. *)
Definition concurrent_duplicates
    (now1 now2 : timestamptz) (p_action_id p_user_id : uuid)
    (p_emissions_lbs : numeric) (d : EmissionLogging.db)
  : option
      ((EmissionLogging.db
        * EmissionLogging.rpc_reply EmissionLogging.log_result)
       * (EmissionLogging.db
          * EmissionLogging.rpc_reply EmissionLogging.log_result)) :=
  match existing_action p_action_id d with
  | Some _ => None
  | None =>
      let first :=
        log_emission_locked now1 p_action_id p_user_id p_emissions_lbs d in
      Some (first,
            log_emission_locked now2 p_action_id p_user_id p_emissions_lbs
              (fst first))
  end.

(** One verified action of 22.5 lb, given to the in-memory aggregate. *)
Definition action_a1 : GlobalSync.UserAction :=
  {| GlobalSync.id := "a1"%string;
     GlobalSync.userId := "user1"%string;
     GlobalSync.emissionsSavedLbs := Some 22.5%float |}.

(* ------------------------------------------------------------------ *)
(** ** Reconciliation *)

(** A detected mismatch appends one record to the audit table, holding
    the previous total, the corrected total and the discrepancy. *)
Definition mismatch_writes_correction_record : Prop :=
  forall now d,
    let S := sum_of AiVerification.total_emissions_lbs
               (AiVerification.user_stats d) in
    let G := AiVerification.total_lbs_saved
               (AiVerification.global_emissions d) in
    S <> G ->
    exists record,
      AiVerification.sync_check_log
        (fst (fst (AiVerification.hourly_sync_check now d)))
      = (AiVerification.sync_check_log d ++ [record])%list
      /\ AiVerification.log_global_total record = G
      /\ AiVerification.log_user_stats_sum record = S
      /\ AiVerification.log_discrepancy record = Z.abs (S - G).

(** Scenario D: the user totals sum to 30.9 and the global total has
    been set to 30.5. *)
Definition scenario_D : AiVerification.db :=
  {| AiVerification.users := [];
     AiVerification.user_actions := [];
     AiVerification.user_stats :=
       [ {| AiVerification.us_user_id := "user1"%string;
            AiVerification.total_emissions_lbs := 30900000;
            AiVerification.action_count := 3;
            AiVerification.last_updated := 3 |} ];
     AiVerification.global_emissions :=
       {| AiVerification.total_lbs_saved := 30500000;
          AiVerification.total_actions := 3;
          AiVerification.ge_last_updated := 3 |};
     AiVerification.sync_check_log := [] |}.

(* ------------------------------------------------------------------ *)
(** ** Leaderboard *)

(** The order [get_leaderboard] asks for: greater total first, and among
    equal totals the more recent verified action first. *)
Definition ranked_not_after (a b : AiVerification.ranked_user) : Prop :=
  AiVerification.ru_total_emissions_lbs b
  < AiVerification.ru_total_emissions_lbs a
  \/ (AiVerification.ru_total_emissions_lbs a
      = AiVerification.ru_total_emissions_lbs b
      /\ AiVerification.last_verified_action_at b
         <= AiVerification.last_verified_action_at a).


(** The rows [get_leaderboard_simple] ranks, before ordering. *)
Definition simple_candidates (d : SimpleSolution.db)
  : list SimpleSolution.ranked_user :=
  flat_map (SimpleSolution.left_join_profiles (SimpleSolution.profiles d))
    (filter (fun us => 0 <? SimpleSolution.total_lbs us)
            (SimpleSolution.user_stats d)).

(** Two users with the same total and no verified action, updated at the
    same time. *)
Definition tied_stats : list AiVerification.user_stats_row :=
  [ {| AiVerification.us_user_id := "user1"%string;
       AiVerification.total_emissions_lbs := 10200000;
       AiVerification.action_count := 1;
       AiVerification.last_updated := 1 |};
    {| AiVerification.us_user_id := "user2"%string;
       AiVerification.total_emissions_lbs := 10200000;
       AiVerification.action_count := 1;
       AiVerification.last_updated := 1 |} ].

Definition two_users : list AiVerification.users_row :=
  [ {| AiVerification.u_user_id := "user1"%string;
       AiVerification.username := Some "User1"%string |};
    {| AiVerification.u_user_id := "user2"%string;
       AiVerification.username := Some "User2"%string |} ].

(** Two registered users with the same total and the same timestamp. *)
Definition tied_board : AiVerification.db :=
  {| AiVerification.users := two_users;
     AiVerification.user_actions := [];
     AiVerification.user_stats := tied_stats;
     AiVerification.global_emissions :=
       {| AiVerification.total_lbs_saved := 20400000;
          AiVerification.total_actions := 2;
          AiVerification.ge_last_updated := 1 |};
     AiVerification.sync_check_log := [] |}.

(** One registered user whose stored total is 10.2345. *)
Definition four_decimals : AiVerification.db :=
  {| AiVerification.users :=
       [ {| AiVerification.u_user_id := "user1"%string;
            AiVerification.username := Some "User1"%string |} ];
     AiVerification.user_actions := [];
     AiVerification.user_stats :=
       [ {| AiVerification.us_user_id := "user1"%string;
            AiVerification.total_emissions_lbs := 10234500;
            AiVerification.action_count := 1;
            AiVerification.last_updated := 1 |} ];
     AiVerification.global_emissions :=
       {| AiVerification.total_lbs_saved := 10234500;
          AiVerification.total_actions := 1;
          AiVerification.ge_last_updated := 1 |};
     AiVerification.sync_check_log := [] |}.

(* ------------------------------------------------------------------ *)
(** ** Validation *)

(** Malformed input of [logEmission]: a missing key, user or quantity, or
    a negative quantity. *)
Definition malformed_emission (request : Services.EmissionLogRequest)
  : bool :=
  Services.missing (Services.action_id request)
  || Services.missing (Services.user_id request)
  || match Services.emissions_lbs request with
     | None => true
     | Some n => n <? 0
     end.

(** Malformed input of [logActionFullSpec]. *)
Definition malformed_action (ToNumber : string -> option numeric)
    (request : Services.ActionLogRequest) : bool :=
  Services.missing (Services.al_action_id request)
  || Services.missing (Services.al_user_id request)
  || match Services.al_lbs request with
     | None => true
     | Some _ => Services.lbs_negative ToNumber (Services.al_lbs request)
     end.

(** A request of [logEmission] with no quantity. *)
Definition no_quantity : Services.EmissionLogRequest :=
  {| Services.action_id := Some "a1"%string;
     Services.user_id := Some "user1"%string;
     Services.emissions_lbs := None;
     Services.action_type := None;
     Services.quantity := None;
     Services.unit := None |}.

(* ------------------------------------------------------------------ *)
(** ** Scenario A *)

Definition three_users : list AiVerification.users_row :=
  [ {| AiVerification.u_user_id := "user1"%string;
       AiVerification.username := Some "User1"%string |};
    {| AiVerification.u_user_id := "user2"%string;
       AiVerification.username := Some "User2"%string |};
    {| AiVerification.u_user_id := "user3"%string;
       AiVerification.username := Some "User3"%string |} ].



(** The same three submissions through the logging transaction. *)
Definition scenario_A_logged : EmissionLogging.db :=
  fst (EmissionLogging.log_emission_atomic 3 "a3"%string "user3"%string
         10400000
         (fst (EmissionLogging.log_emission_atomic 2 "a2"%string
                 "user2"%string 10300000
                 (fst (EmissionLogging.log_emission_atomic 1 "a1"%string
                         "user1"%string 10200000
                         EmissionLogging.empty_db))))).




(** A listener that returns whatever it is handed. *)
Definition quiet : GlobalSync.Listener :=
  {| GlobalSync.throws := fun _ _ => None |}.

(* ------------------------------------------------------------------ *)
(** ** Backfill *)

(** What [backfill_totals] makes of a row of [user_stats] already there,
    and the row it inserts for a user not yet there, before the second
    column is brought in line. *)
Definition backfilled_row (now : timestamptz) (uts : list (uuid * Z))
    (r : SimpleSolution.user_stats_row) : SimpleSolution.user_stats_row :=
  match find_row fst (SimpleSolution.us_user_id r) uts with
  | Some ut =>
      {| SimpleSolution.us_user_id := SimpleSolution.us_user_id r;
         SimpleSolution.total_lbs := round_div (snd ut) 100000;
         SimpleSolution.total_emissions_lbs :=
           SimpleSolution.total_emissions_lbs r;
         SimpleSolution.last_updated := now |}
  | None => r
  end.

Definition inserted_row (now : timestamptz) (ut : uuid * Z)
  : SimpleSolution.user_stats_row :=
  {| SimpleSolution.us_user_id := fst ut;
     SimpleSolution.total_lbs := round_div (snd ut) 100000;
     SimpleSolution.total_emissions_lbs := None;
     SimpleSolution.last_updated := now |}.

(** The upserts of [backfill_totals]. *)
Definition backfill_upserts (now : timestamptz) (uts : list (uuid * Z))
    (t : list SimpleSolution.user_stats_row)
  : list SimpleSolution.user_stats_row :=
  fold_left
    (fun t ut =>
       let total := round_div (snd ut) 100000 in
       upsert SimpleSolution.us_user_id (fst ut)
         {| SimpleSolution.us_user_id := fst ut;
            SimpleSolution.total_lbs := total;
            SimpleSolution.total_emissions_lbs := None;
            SimpleSolution.last_updated := now |}
         (fun r =>
            {| SimpleSolution.us_user_id := SimpleSolution.us_user_id r;
               SimpleSolution.total_lbs := total;
               SimpleSolution.total_emissions_lbs :=
                 SimpleSolution.total_emissions_lbs r;
               SimpleSolution.last_updated := now |})
         t)
    uts t.

(** Whether a key is absent from a table. *)
Definition absent_from (t : list SimpleSolution.user_stats_row)
    (ut : uuid * Z) : bool :=
  negb (existsb (fun r => uuid_eqb (SimpleSolution.us_user_id r) (fst ut)) t).

(** A row with its second total column brought in line with the first. *)
Definition in_line (r : SimpleSolution.user_stats_row)
  : SimpleSolution.user_stats_row :=
  {| SimpleSolution.us_user_id := SimpleSolution.us_user_id r;
     SimpleSolution.total_lbs := SimpleSolution.total_lbs r;
     SimpleSolution.total_emissions_lbs := Some (SimpleSolution.total_lbs r);
     SimpleSolution.last_updated := SimpleSolution.last_updated r |}.

(** Three actions of one user on a template of 0.01 kg. *)
Definition small_template : list SimpleSolution.action_templates_row :=
  [ {| SimpleSolution.id := "t1"%string;
       SimpleSolution.emissions_saved := 10000 |} ].

Definition three_small_actions : SimpleSolution.db :=
  SimpleSolution.insert_user_action 3
    {| SimpleSolution.user_id := "user1"%string;
       SimpleSolution.custom_emissions_saved := None;
       SimpleSolution.action_template_id := Some "t1"%string |}
    (SimpleSolution.insert_user_action 2
       {| SimpleSolution.user_id := "user1"%string;
          SimpleSolution.custom_emissions_saved := None;
          SimpleSolution.action_template_id := Some "t1"%string |}
       (SimpleSolution.insert_user_action 1
          {| SimpleSolution.user_id := "user1"%string;
             SimpleSolution.custom_emissions_saved := None;
             SimpleSolution.action_template_id := Some "t1"%string |}
          (SimpleSolution.empty_db small_template []))).

(** A batch of one verified action of user1. *)
Definition one_action_batch : list EmissionLogging.action_log :=
  [ {| EmissionLogging.b_action_id := "a1"%string;
       EmissionLogging.b_user_id := "user1"%string;
       EmissionLogging.b_lbs := 10200000;
       EmissionLogging.b_verified := true |} ].

(* ------------------------------------------------------------------ *)
(** ** Actions of quantity zero *)

(** The states reached by inserting actions only. *)
Inductive simple_inserted
    (templates : list SimpleSolution.action_templates_row)
    (people : list SimpleSolution.profiles_row)
  : SimpleSolution.db -> Prop :=
| inserted_initial :
    simple_inserted templates people
      (SimpleSolution.empty_db templates people)
| inserted_insert d now a :
    simple_inserted templates people d ->
    simple_inserted templates people
      (SimpleSolution.insert_user_action now a d).

(** In every reachable state, a user all of whose actions have quantity 0
    has no [user_stats] row. *)
Definition zero_quantity_users_have_no_aggregate : Prop :=
  forall templates people d u,
    simple_reachable templates people d ->
    (forall a,
       In a (SimpleSolution.user_actions d) ->
       SimpleSolution.user_id a = u ->
       SimpleSolution.v_lbs templates a = 0) ->
    find_row SimpleSolution.us_user_id u (SimpleSolution.user_stats d) = None.

(** A template that saves nothing, and one action of user1 on it. *)
Definition zero_template : list SimpleSolution.action_templates_row :=
  [ {| SimpleSolution.id := "t0"%string;
       SimpleSolution.emissions_saved := 0 |} ].

Definition zero_action : SimpleSolution.user_actions_row :=
  {| SimpleSolution.user_id := "user1"%string;
     SimpleSolution.custom_emissions_saved := None;
     SimpleSolution.action_template_id := Some "t0"%string |}.

(* ------------------------------------------------------------------ *)
(** ** The AI-verification schema: active users and verified histories *)

(** [get_active_users_count]:
    [SELECT COUNT(DISTINCT user_id) FROM user_actions
     WHERE verified = TRUE] *)
Definition get_active_users_count (d : AiVerification.db) : Z :=
  Z.of_nat
    (List.length
       (distinct
          (map AiVerification.ua_user_id
             (filter AiVerification.verified
                     (AiVerification.user_actions d))))).

(** leaderboard.ts, [getActiveUsersCountDirect]: the [count: 'exact'] of
    the query [from('user_actions').select('user_id', { head: true })
    .eq('verified', true)], which counts rows; [0] when the query
    fails. *)
Definition getActiveUsersCountDirect (query_fails : bool)
    (d : AiVerification.db) : Z :=
  if query_fails then 0
  else Z.of_nat
         (List.length
            (filter AiVerification.verified
                    (AiVerification.user_actions d))).

(** leaderboard.ts, [getActiveUsersCount]: the database function, and
    the direct query when the call fails. *)
Definition getActiveUsersCount (rpc_fails query_fails : bool)
    (d : AiVerification.db) : Z :=
  if rpc_fails then getActiveUsersCountDirect query_fails d
  else get_active_users_count d.

(** The verified actions of one user. *)
Definition verified_actions_of (u : uuid)
    (acts : list AiVerification.user_actions_row)
  : list AiVerification.user_actions_row :=
  filter
    (fun a =>
       AiVerification.verified a
       && uuid_eqb (AiVerification.ua_user_id a) u)
    acts.

(** The histories of [saveUserAction] and [verifyAndSyncAction] in which
    every verification result is [verified]: no action is put back to
    unverified. *)
Inductive ai_verified_history (registered : list AiVerification.users_row)
  : AiVerification.db -> Prop :=
| history_initial :
    ai_verified_history registered (AiVerification.empty_db registered)
| history_save d new_id userId lbs d' :
    ai_verified_history registered d ->
    AiVerification.saveUserAction new_id userId lbs d = Some d' ->
    ai_verified_history registered d'
| history_verify d now actionId :
    ai_verified_history registered d ->
    ai_verified_history registered
      (AiVerification.verifyAndSyncAction now actionId true d).

(** The fresh database with one saved action of user1, not yet
    verified. *)
Definition one_saved_action : AiVerification.db :=
  AiVerification.set_user_actions
    [ {| AiVerification.action_id := "a1"%string;
         AiVerification.ua_user_id := "user1"%string;
         AiVerification.emissions_saved_lbs := 10200000;
         AiVerification.verified := false;
         AiVerification.verified_at := None |} ]
    (AiVerification.empty_db three_users).

(** The rows of a leaderboard show totals that never increase down the
    board. *)
Definition shown_not_above (a b : AiVerification.leaderboard_row) : Prop :=
  AiVerification.lb_total_emissions_lbs b
  <= AiVerification.lb_total_emissions_lbs a.

(** [global_emissions.total_actions] counts what the rows of
    [user_stats] count. *)
Definition ai_counted (d : AiVerification.db) : Prop :=
  AiVerification.total_actions (AiVerification.global_emissions d)
  = sum_of AiVerification.action_count (AiVerification.user_stats d).

(** In a state [d], the row of user [u] accounts for exactly the
    verified actions of [u]. *)
Definition ai_user_exact (d : AiVerification.db) (u : uuid) : Prop :=
  let mine := verified_actions_of u (AiVerification.user_actions d) in
  match find_row AiVerification.us_user_id u (AiVerification.user_stats d) with
  | Some r =>
      mine <> []
      /\ AiVerification.total_emissions_lbs r
         = sum_of AiVerification.emissions_saved_lbs mine
      /\ AiVerification.action_count r = Z.of_nat (List.length mine)
  | None => mine = []
  end.

(** The global row accounts for exactly the verified actions. *)
Definition ai_global_exact (d : AiVerification.db) : Prop :=
  let all := filter AiVerification.verified (AiVerification.user_actions d) in
  AiVerification.total_lbs_saved (AiVerification.global_emissions d)
  = sum_of AiVerification.emissions_saved_lbs all
  /\ AiVerification.total_actions (AiVerification.global_emissions d)
     = Z.of_nat (List.length all).

(* ------------------------------------------------------------------ *)
(** ** FINAL_SIMPLE_SOLUTION.sql: what an action adds *)

(** What [update_emission_totals] adds to the totals for an action: its
    quantity when positive, nothing otherwise. *)
Definition counted (templates : list SimpleSolution.action_templates_row)
    (a : SimpleSolution.user_actions_row) : numeric :=
  if 0 <? SimpleSolution.v_lbs templates a
  then SimpleSolution.v_lbs templates a
  else 0.

(** The actions of one user. *)
Definition actions_of (u : uuid)
    (acts : list SimpleSolution.user_actions_row)
  : list SimpleSolution.user_actions_row :=
  filter (fun a => uuid_eqb (SimpleSolution.user_id a) u) acts.

(** The legacy column of every [user_stats] row mirrors [total_lbs]. *)
Definition simple_columns_agree (d : SimpleSolution.db) : Prop :=
  forall r,
    In r (SimpleSolution.user_stats d) ->
    SimpleSolution.total_emissions_lbs r
    = Some (SimpleSolution.total_lbs r).

(** No action refers to a template: every quantity is a custom one. *)
Definition custom_only (d : SimpleSolution.db) : Prop :=
  forall a,
    In a (SimpleSolution.user_actions d) ->
    SimpleSolution.action_template_id a = None.

(** Two inserts of user1 with custom quantities 10.2 and 5, on a fresh
    database. *)
Definition two_custom_actions : SimpleSolution.db :=
  SimpleSolution.insert_user_action 2
    {| SimpleSolution.user_id := "user1"%string;
       SimpleSolution.custom_emissions_saved := Some 5000000;
       SimpleSolution.action_template_id := None |}
    (SimpleSolution.insert_user_action 1
       {| SimpleSolution.user_id := "user1"%string;
          SimpleSolution.custom_emissions_saved := Some 10200000;
          SimpleSolution.action_template_id := None |}
       (SimpleSolution.empty_db [] [])).

(* ------------------------------------------------------------------ *)
(** ** Migration 20251115050327: histories of inserts *)

(** The states the inserts reach under the triggers of the migration. *)
Inductive triggers_reachable : ActionSyncTriggers.db -> Prop :=
| triggers_initial : triggers_reachable ActionSyncTriggers.empty_db
| triggers_insert d now a :
    triggers_reachable d ->
    triggers_reachable (ActionSyncTriggers.insert_user_action now a d).

(** [COALESCE(NEW.custom_emissions_saved, NEW.emissions_saved_lbs, 0)] *)
Definition action_value (a : ActionSyncTriggers.user_actions_row) : numeric :=
  coalesce (ActionSyncTriggers.custom_emissions_saved a)
           (coalesce (ActionSyncTriggers.emissions_saved_lbs a) 0).

(** The actions of one user, in insertion order. *)
Definition inserted_by (u : uuid)
    (acts : list ActionSyncTriggers.user_actions_row)
  : list ActionSyncTriggers.user_actions_row :=
  filter (fun a => uuid_eqb (ActionSyncTriggers.user_id a) u) acts.

(** The actions that are not the first of their user: those inserted
    when a user of [earlier], or of an action before them in the list,
    is their user. *)
Fixpoint repeat_actions (earlier : list uuid)
    (acts : list ActionSyncTriggers.user_actions_row)
  : list ActionSyncTriggers.user_actions_row :=
  match acts with
  | [] => []
  | a :: rest =>
      (if existsb (uuid_eqb (ActionSyncTriggers.user_id a)) earlier
       then [a] else [])
      ++ repeat_actions (ActionSyncTriggers.user_id a :: earlier) rest
  end.

(** Three inserts under the migration's triggers: two of user1
    (10.2 and 5 lb) and one of user2 (7 lb). *)
Definition three_trigger_inserts : ActionSyncTriggers.db :=
  ActionSyncTriggers.insert_user_action 3
    {| ActionSyncTriggers.user_id := "user2"%string;
       ActionSyncTriggers.custom_emissions_saved := None;
       ActionSyncTriggers.emissions_saved_lbs := Some 7000000;
       ActionSyncTriggers.verified := true |}
    (ActionSyncTriggers.insert_user_action 2
       {| ActionSyncTriggers.user_id := "user1"%string;
          ActionSyncTriggers.custom_emissions_saved := None;
          ActionSyncTriggers.emissions_saved_lbs := Some 5000000;
          ActionSyncTriggers.verified := true |}
       (ActionSyncTriggers.insert_user_action 1
          {| ActionSyncTriggers.user_id := "user1"%string;
             ActionSyncTriggers.custom_emissions_saved := None;
             ActionSyncTriggers.emissions_saved_lbs := Some 10200000;
             ActionSyncTriggers.verified := true |}
          ActionSyncTriggers.empty_db)).

(* ------------------------------------------------------------------ *)
(** ** Migrations 20251115053008 and 20251117175551: the totals kept *)

(** Both total columns of the global row hold the sum of the user
    totals, the action count the sum of the users' counts, and both
    total columns of every user row agree. *)
Definition setup_in_step (d : CompleteAppSetup.db) : Prop :=
  CompleteAppSetup.g_total_lbs (CompleteAppSetup.global_emissions d)
  = sum_of CompleteAppSetup.total_lbs (CompleteAppSetup.user_stats d)
  /\ CompleteAppSetup.total_lbs_saved (CompleteAppSetup.global_emissions d)
     = sum_of CompleteAppSetup.total_lbs (CompleteAppSetup.user_stats d)
  /\ CompleteAppSetup.total_actions (CompleteAppSetup.global_emissions d)
     = sum_of CompleteAppSetup.action_count (CompleteAppSetup.user_stats d)
  /\ forall r,
       In r (CompleteAppSetup.user_stats d) ->
       CompleteAppSetup.total_emissions_lbs r = CompleteAppSetup.total_lbs r.

(** One insert of user1 on a template of 2.5 kg. *)
Definition one_template_action : CompleteAppSetup.db :=
  CompleteAppSetup.insert_user_action 1
    {| CompleteAppSetup.user_id := "user1"%string;
       CompleteAppSetup.action_template_id := Some "t1"%string;
       CompleteAppSetup.custom_emissions_saved := None |}
    (CompleteAppSetup.empty_db
       [ {| CompleteAppSetup.id := "t1"%string;
            CompleteAppSetup.emissions_saved := 2500000 |} ]).

(* ------------------------------------------------------------------ *)
(** ** The logging transaction: what a state holds *)

(** What a query of [user_stats] returns for a user's total: [None] when
    the user has no row. *)
Definition logged_total (u : uuid) (d : EmissionLogging.db)
  : option numeric :=
  option_map EmissionLogging.total_emissions_lbs
    (find_row EmissionLogging.us_user_id u (EmissionLogging.user_stats d)).

(** The logged actions of one user. *)
Definition logged_by (u : uuid)
    (acts : list EmissionLogging.user_actions_row)
  : list EmissionLogging.user_actions_row :=
  filter (fun a => uuid_eqb (EmissionLogging.ua_user_id a) u) acts.

(* ------------------------------------------------------------------ *)
(** ** bulkSync.ts: [logAction] *)

Module ActionsApi.

Record LogActionRequest := {
  action_id : option string;
  user_id : option string;
  lbs : option Services.number_or_string;
  logged_at : option string;
  action_type : option string;
  quantity : option numeric;
  unit : option string
}.

Record LogActionResponse := {
  success : bool;
  res_action_id : option string;
  res_user_id : option string;
  emissions_lbs : Services.js_text;
  user_total_lbs : Services.js_text;
  global_total_lbs : Services.js_text;
  is_duplicate : bool;
  message : string;
  timestamp : timestamptz
}.

(** [request.logged_at || new Date().toISOString()] *)
Inductive logged_at_arg :=
| At (iso : string)
| AtNow (now : timestamptz).

Record log_action_args := {
  p_action_id : option string;
  p_user_id : option string;
  p_emissions_lbs : Services.js_text;
  p_logged_at : logged_at_arg;
  p_action_type : string;
  p_quantity : option numeric;
  p_unit : string
}.

(** [typeof request.lbs === 'string' ? request.lbs
     : request.lbs.toString()] *)
Definition lbs_text (x : option Services.number_or_string)
  : Services.js_text + Services.js_error :=
  match x with
  | Some (Services.Str s) => inl (Services.Literal s)
  | Some (Services.Num n) => inl (Services.Printed n)
  | None =>
      inr (Services.TypeError "Cannot read properties of undefined"%string)
  end.

Section LogAction.
Variable DB : Type.
(** [supabase.rpc('log_emission_atomic', args)] *)
Variable rpc :
  log_action_args -> DB -> DB * Services.rpc_reply Services.log_row.

(** The [try] block. *)
Definition logAction_try (now : timestamptz) (request : LogActionRequest)
    (d : DB) : DB * (LogActionResponse + Services.js_error) :=
  if Services.missing (action_id request)
     || Services.missing (user_id request)
     || match lbs request with None => true | Some _ => false end
  then
    (d, inr (Services.Error
       "Missing required fields: action_id, user_id, lbs"%string))
  else
    match lbs_text (lbs request) with
    | inr type_error => (d, inr type_error)
    | inl lbsValue =>
        let args :=
          {| p_action_id := action_id request;
             p_user_id := user_id request;
             p_emissions_lbs := lbsValue;
             p_logged_at :=
               if Services.missing (logged_at request) then AtNow now
               else At (coalesce (logged_at request) EmptyString);
             p_action_type :=
               Services.or_default (action_type request)
                 "verified_action"%string;
             p_quantity :=
               match quantity request with
               | Some q => if q =? 0 then None else Some q
               | None => None
               end;
             p_unit := Services.or_default (unit request) "lbs"%string |} in
        match rpc args d with
        | (d', Services.RpcError m) => (d', inr (Services.PostgrestError m))
        | (d', Services.RpcData []) =>
            (d', inr (Services.Error
               "No data returned from log_emission_atomic"%string))
        | (d', Services.RpcData (result :: _)) =>
            (d',
             match Services.toString (Services.row_emissions_lbs result),
                   Services.toString (Services.row_user_total_lbs result),
                   Services.toString (Services.row_global_total_lbs result)
             with
             | inl e, inl u, inl g =>
                 inl {| success := Services.row_success result;
                        res_action_id := Services.row_action_id result;
                        res_user_id := Services.row_user_id result;
                        emissions_lbs := e;
                        user_total_lbs := u;
                        global_total_lbs := g;
                        is_duplicate := Services.row_is_duplicate result;
                        message := Services.row_message result;
                        timestamp := now |}
             | inr err, _, _ => inr err
             | _, inr err, _ => inr err
             | _, _, inr err => inr err
             end)
        end
    end.

(** [logAction]: the [try] block and its [catch] handler, which reads
    [request.lbs] again. *)
Definition logAction (now : timestamptz) (request : LogActionRequest)
    (d : DB) : DB * Services.promise LogActionResponse :=
  match logAction_try now request d with
  | (d', inl response) => (d', Services.Resolved response)
  | (d', inr error) =>
      (d',
       match lbs_text (lbs request) with
       | inl e =>
           Services.Resolved
             {| success := false;
                res_action_id := action_id request;
                res_user_id := user_id request;
                emissions_lbs := e;
                user_total_lbs := Services.Literal "0"%string;
                global_total_lbs := Services.Literal "0"%string;
                is_duplicate := false;
                message :=
                  Services.or_default (Some (Services.error_message error))
                    "Failed to log action"%string;
                timestamp := now |}
       | inr type_error => Services.Rejected type_error
       end)
  end.
End LogAction.

End ActionsApi.

(** A database function that fails on every call, leaving the database
    as it is. *)
Definition failing_rpc (args : ActionsApi.log_action_args) (d : unit)
  : unit * Services.rpc_reply Services.log_row :=
  (d, Services.RpcError "connection refused"%string).

(** A request of [logAction] for a negative quantity. *)
Definition negative_request : ActionsApi.LogActionRequest :=
  {| ActionsApi.action_id := Some "a1"%string;
     ActionsApi.user_id := Some "user1"%string;
     ActionsApi.lbs := Some (Services.Num (-5000000));
     ActionsApi.logged_at := None;
     ActionsApi.action_type := None;
     ActionsApi.quantity := None;
     ActionsApi.unit := None |}.

(* ------------------------------------------------------------------ *)
(** ** Unit conversion ([kgToLbs], [ensureLbs]) *)

Module Units.

Definition kgToLbs (kg : float) : float := (kg * 2.20462)%float.

(** The object [{ lbs, unit: 'lbs' }]. *)
Record in_lbs := {
  lbs : float;
  unit : string
}.

Definition ensureLbs (value : float) (unit : string) : in_lbs :=
  if String.eqb unit "lbs" then {| lbs := value; unit := "lbs" |}
  else if String.eqb unit "kg" then {| lbs := kgToLbs value; unit := "lbs" |}
  else {| lbs := value; unit := "lbs" |}.

End Units.

(* ------------------------------------------------------------------ *)
(** ** services/verification.ts: [verifyUserAction]

    The provider and the timer of [withTimeout] are outside the
    function: what the provider's promise does before the timer fires
    is an input. *)

Module Verification.

Inductive FallbackMode := auto_verify_simple | flag_complex.

Record VerificationConfig := {
  confidenceThreshold : float;
  timeoutMs : option float;
  fallbackMode : option FallbackMode
}.

Record VerificationAIResponse := {
  verified : bool;
  confidence : float;
  reasoning : string;
  provider : string;
  latencyMs : option float
}.

Record VerificationResult := {
  ai : VerificationAIResponse;
  finalStatus : GlobalSync.FinalStatus
}.

(** What the provider's promise does: it resolves before the timer
    fires, it rejects before the timer fires, or the timer fires
    first. *)
Inductive provider_outcome :=
| Answers (response : VerificationAIResponse)
| Fails
| TimesOut.

(** The [onTimeout] callback. *)
Definition fallback (quantity : float) (config : VerificationConfig)
  : VerificationAIResponse :=
  let timeout := coalesce (timeoutMs config) 2000%float in
  match fallbackMode config with
  | Some auto_verify_simple =>
      let small := PrimFloat.leb quantity 5%float in
      {| verified := small;
         confidence := if small then 0.86%float else 0.5%float;
         reasoning :=
           if small
           then ("Fallback: auto-verified simple low-quantity action"
                 ++ " due to AI timeout.")%string
           else "Fallback: AI timeout; complex action flagged."%string;
         provider := "mock"%string;
         latencyMs := Some timeout |}
  | _ =>
      {| verified := false;
         confidence := 0.5%float;
         reasoning :=
           "Fallback: AI failure or timeout; flagged for review."%string;
         provider := "mock"%string;
         latencyMs := Some timeout |}
  end.

(** [withTimeout(promise, ms, onTimeout)] *)
Definition withTimeout (settles : provider_outcome)
    (onTimeout : VerificationAIResponse) : VerificationAIResponse :=
  match settles with
  | Answers response => response
  | Fails => onTimeout
  | TimesOut => onTimeout
  end.

Definition verifyUserAction (quantity : float) (config : VerificationConfig)
    (settles : provider_outcome) : VerificationResult :=
  let aiResponse := withTimeout settles (fallback quantity config) in
  {| ai := aiResponse;
     finalStatus :=
       if PrimFloat.leb (confidenceThreshold config) (confidence aiResponse)
          && verified aiResponse
       then GlobalSync.verified
       else GlobalSync.needs_review |}.

End Verification.

(** The configuration [useVerification] builds by default. *)
Definition default_config : Verification.VerificationConfig :=
  {| Verification.confidenceThreshold := 0.85%float;
     Verification.timeoutMs := Some 2000%float;
     Verification.fallbackMode := Some Verification.auto_verify_simple |}.

(* ------------------------------------------------------------------ *)
(** ** globalSync.ts over a sequence of verification results *)

(** [aggregateVerifiedAction] called for each result of a sequence, the
    caller going on after a call that throws. *)
Definition aggregate_each
    (results : list (GlobalSync.UserAction * GlobalSync.FinalStatus))
    (s : GlobalSync.store) : GlobalSync.store :=
  fold_left
    (fun s0 x =>
       fst (GlobalSync.aggregateVerifiedAction (fst x) (snd x) s0))
    results s.

(** The quantities of the results whose final status is [verified], in
    order; an action without a quantity counts [0]. *)
Definition verified_quantities
    (results : list (GlobalSync.UserAction * GlobalSync.FinalStatus))
  : list float :=
  map (fun x => coalesce (GlobalSync.emissionsSavedLbs (fst x)) 0%float)
    (filter
       (fun x => GlobalSync.FinalStatus_eqb (snd x) GlobalSync.verified)
       results).

(** Three results: a verified action of 10.2 lb, one that needs review,
    and a verified action of 10.3 lb. *)
Definition mixed_results
  : list (GlobalSync.UserAction * GlobalSync.FinalStatus) :=
  [ ({| GlobalSync.id := "a1"%string; GlobalSync.userId := "user1"%string;
        GlobalSync.emissionsSavedLbs := Some 10.2%float |},
     GlobalSync.verified);
    ({| GlobalSync.id := "a2"%string; GlobalSync.userId := "user2"%string;
        GlobalSync.emissionsSavedLbs := Some 99%float |},
     GlobalSync.needs_review);
    ({| GlobalSync.id := "a3"%string; GlobalSync.userId := "user2"%string;
        GlobalSync.emissionsSavedLbs := Some 10.3%float |},
     GlobalSync.verified) ].

(** The payloads broadcast for the verified results of a sequence, when
    the total before it is [total]. *)
Fixpoint payloads
    (results : list (GlobalSync.UserAction * GlobalSync.FinalStatus))
    (total : float) : list GlobalSync.payload :=
  match results with
  | [] => []
  | (action, status) :: rest =>
      if GlobalSync.FinalStatus_eqb status GlobalSync.verified then
        let y := coalesce (GlobalSync.emissionsSavedLbs action) 0%float in
        let newTotal := (total + y)%float in
        {| GlobalSync.emissions_added_lbs := y;
           GlobalSync.new_total_lbs := newTotal |}
        :: payloads rest newTotal
      else payloads rest total
  end.

(* ------------------------------------------------------------------ *)
(** ** What a query with [ORDER BY] may return

    SQL fixes the order of two rows only when they differ on an
    [ORDER BY] key.  [order_by] produces one order that respects the keys;
    the results a query may return are all such orders of its rows. *)

Definition ordered_by {R : Type} (before : R -> R -> bool)
    (rows out : list R) : Prop :=
  Permutation rows out /\ StronglySorted (fun a b => before a b = true) out.

(** No two of the rows tie on the keys. *)
Definition no_ties {R : Type} (before : R -> R -> bool) (rows : list R)
  : Prop :=
  NoDup rows
  /\ forall a b,
       In a rows -> In b rows ->
       before a b = true -> before b a = true -> a = b.

(** The row [get_leaderboard] returns for a numbered row of
    [ranked_users]. *)
Definition leaderboard_row_of (nr : Z * AiVerification.ranked_user)
  : AiVerification.leaderboard_row :=
  {| AiVerification.rank := fst nr;
     AiVerification.lb_user_id := AiVerification.ru_user_id (snd nr);
     AiVerification.lb_username := AiVerification.ru_username (snd nr);
     AiVerification.lb_total_emissions_lbs :=
       round2 (AiVerification.ru_total_emissions_lbs (snd nr));
     AiVerification.lb_action_count :=
       AiVerification.ru_action_count (snd nr);
     AiVerification.lb_last_update_timestamp :=
       AiVerification.ru_last_update_timestamp (snd nr) |}.

(** [board] is a result of [get_leaderboard(limit_count)] in state [d]:
    [ROW_NUMBER() OVER (ORDER BY ...)] numbers the rows of [ranked_users]
    in an order [numbered] that respects the two keys, the final
    [ORDER BY] returns the numbered rows in an order [returned] that
    respects them, and [LIMIT] keeps the first [limit_count]. *)
Definition get_leaderboard_returns (limit_count : nat)
    (d : AiVerification.db) (board : list AiVerification.leaderboard_row)
  : Prop :=
  exists numbered returned,
    ordered_by AiVerification.leaderboard_before
      (AiVerification.ranked_users d) numbered
    /\ ordered_by
         (fun x y => AiVerification.leaderboard_before (snd x) (snd y))
         (row_number 1 numbered) returned
    /\ board = firstn limit_count (map leaderboard_row_of returned).

(** The row [get_leaderboard_simple] returns for a numbered row of its
    [ranked_users]. *)
Definition simple_row_of (v_global_total : numeric)
    (nr : Z * SimpleSolution.ranked_user) : SimpleSolution.leaderboard_row :=
  {| SimpleSolution.rank := fst nr;
     SimpleSolution.lb_user_id := SimpleSolution.ru_user_id (snd nr);
     SimpleSolution.lb_username := SimpleSolution.ru_username (snd nr);
     SimpleSolution.lb_total_emissions_lbs :=
       SimpleSolution.ru_total_lbs (snd nr);
     SimpleSolution.global_total_lbs := v_global_total |}.

(** [board] is a result of [get_leaderboard_simple(limit_count)] in state
    [d]: the common table expression keeps the first [limit_count] of the
    candidates in an order [sorted] that respects the total, the window
    function numbers these in such an order [numbered], and the final
    [ORDER BY] returns the numbered rows in such an order [returned]. *)
Definition get_leaderboard_simple_returns (limit_count : nat)
    (d : SimpleSolution.db) (board : list SimpleSolution.leaderboard_row)
  : Prop :=
  exists sorted numbered returned,
    ordered_by SimpleSolution.simple_before (simple_candidates d) sorted
    /\ ordered_by SimpleSolution.simple_before
         (firstn limit_count sorted) numbered
    /\ ordered_by
         (fun x y => SimpleSolution.simple_before (snd x) (snd y))
         (row_number 1 numbered) returned
    /\ board
       = map (simple_row_of (SimpleSolution.get_global_total d)) returned.


(** A row that the keys of [get_leaderboard] put strictly before
    another. *)
Definition ranked_above (a b : AiVerification.ranked_user) : Prop :=
  AiVerification.ru_total_emissions_lbs b
  < AiVerification.ru_total_emissions_lbs a
  \/ (AiVerification.ru_total_emissions_lbs a
      = AiVerification.ru_total_emissions_lbs b
      /\ AiVerification.last_verified_action_at b
         < AiVerification.last_verified_action_at a).





(** Two registered users with totals 10.2 and 10.3. *)
Definition two_on_board : AiVerification.db :=
  {| AiVerification.users := two_users;
     AiVerification.user_actions := [];
     AiVerification.user_stats :=
       [ {| AiVerification.us_user_id := "user1"%string;
            AiVerification.total_emissions_lbs := 10200000;
            AiVerification.action_count := 1;
            AiVerification.last_updated := 1 |};
         {| AiVerification.us_user_id := "user2"%string;
            AiVerification.total_emissions_lbs := 10300000;
            AiVerification.action_count := 1;
            AiVerification.last_updated := 2 |} ];
     AiVerification.global_emissions :=
       {| AiVerification.total_lbs_saved := 20500000;
          AiVerification.total_actions := 2;
          AiVerification.ge_last_updated := 2 |};
     AiVerification.sync_check_log := [] |}.

(* ------------------------------------------------------------------ *)
(** ** Listeners of the in-memory aggregate *)

(** None of the listeners throws, whatever it is handed. *)
Definition never_throw (ls : list GlobalSync.Listener) : Prop :=
  forall l n p, In l ls -> GlobalSync.throws l n p = None.

(** One of the listeners throws, whatever it is handed. *)
Definition one_always_throws (ls : list GlobalSync.Listener) : Prop :=
  exists l, In l ls /\ forall n p, GlobalSync.throws l n p <> None.

(** The calls one broadcast makes when every listener returns: each
    listener in turn, with the payload. *)
Definition calls_of (ls : list GlobalSync.Listener) (p : GlobalSync.payload)
  : list (nat * GlobalSync.payload) :=
  map (fun i => (i, p)) (seq 0 (List.length ls)).

(** The store once a quantity [y] has been committed and broadcast to
    listeners that all return. *)
Definition aggregated (y : float) (s : GlobalSync.store) : GlobalSync.store :=
  let newTotal := (GlobalSync.totalLbsSaved (GlobalSync.state s) + y)%float in
  {| GlobalSync.state :=
       {| GlobalSync.totalLbsSaved := newTotal;
          GlobalSync.actionCount :=
            (GlobalSync.actionCount (GlobalSync.state s) + 1)%float |};
     GlobalSync.listeners := GlobalSync.listeners s;
     GlobalSync.calls :=
       (GlobalSync.calls s
        ++ calls_of (GlobalSync.listeners s)
             {| GlobalSync.emissions_added_lbs := y;
                GlobalSync.new_total_lbs := newTotal |})%list |}.

(** A listener that throws whatever it is handed. *)
Definition failing : GlobalSync.Listener :=
  {| GlobalSync.throws := fun _ _ => Some "listener failed"%string |}.

(* ------------------------------------------------------------------ *)
(** ** Scenario A in any order *)



(* ------------------------------------------------------------------ *)
(** ** Totals at the interfaces *)

(** The rows the first query of [getLeaderboardDirect] selects:
    [user_stats] rows with a positive total, each with its [users] row. *)
Definition stats_rows (d : AiVerification.db) : list Readers.stats_row :=
  flat_map
    (fun us =>
       match find_row AiVerification.u_user_id
               (AiVerification.us_user_id us) (AiVerification.users d) with
       | Some u =>
           [ {| Readers.s_user_id := AiVerification.us_user_id us;
                Readers.s_total_emissions_lbs :=
                  Binary64.of_numeric (AiVerification.total_emissions_lbs us);
                Readers.s_action_count := AiVerification.action_count us;
                Readers.s_last_updated := AiVerification.last_updated us;
                Readers.s_username := AiVerification.username u |} ]
       | None => []
       end)
    (filter (fun us => 0 <? AiVerification.total_emissions_lbs us)
            (AiVerification.user_stats d)).

(** The query names no order, and a server may cap the number of rows
    it sends: what is asked of its answer is that every row of it is one
    of the rows selected. *)
Definition stats_query_returns (d : AiVerification.db)
    (statsData : list Readers.stats_row) : Prop :=
  forall row, In row statsData -> In row (stats_rows d).

(** The claim that every leaderboard entry carries the stored total of
    its user. *)
Definition leaderboard_delivers_stored_totals : Prop :=
  forall getTime limit d board statsReply actionsData entry,
    get_leaderboard_returns limit d board ->
    In entry
       (Readers.getLeaderboard getTime limit (Services.RpcData board)
          statsReply actionsData) ->
    exists us,
      In us (AiVerification.user_stats d)
      /\ AiVerification.us_user_id us = Readers.user_id entry
      /\ Binary64.is_decimal (Readers.total_emissions_lbs entry)
           (AiVerification.total_emissions_lbs us)
         = true.

(** The claim that the text [getUserTotalEmissions] returns is the stored
    total: it then differs whenever the stored totals differ. *)
Definition getter_delivers_stored_total : Prop :=
  forall userId r1 r2,
    EmissionLogging.us_user_id r1 = userId ->
    EmissionLogging.us_user_id r2 = userId ->
    Readers.getUserTotalEmissions userId [r1]
    = Readers.getUserTotalEmissions userId [r2] ->
    EmissionLogging.total_emissions_lbs r1
    = EmissionLogging.total_emissions_lbs r2.

(** The same claim of [getGlobalTotalEmissionsExact]. *)
Definition global_getter_delivers_stored_total : Prop :=
  forall g1 g2,
    Readers.getGlobalTotalEmissionsExact g1
    = Readers.getGlobalTotalEmissionsExact g2 ->
    EmissionLogging.total_lbs_saved g1 = EmissionLogging.total_lbs_saved g2.

(** A [user_stats] row of user1 with a given total. *)
Definition holding (total : numeric) : EmissionLogging.user_stats_row :=
  {| EmissionLogging.us_user_id := "user1"%string;
     EmissionLogging.total_emissions_lbs := total;
     EmissionLogging.action_count := 1;
     EmissionLogging.last_updated := 1 |}.
(* ================================================================== *)
(** * Part II.  Properties                                              *)
(* ================================================================== *)

(** ** Tables, sums and sorting *)

Lemma uuid_eqb_eq (a b : uuid) : uuid_eqb a b = true <-> a = b.
Proof. apply String.eqb_eq. Qed.

Lemma uuid_eqb_refl (a : uuid) : uuid_eqb a a = true.
Proof. apply String.eqb_refl. Qed.

Lemma uuid_eqb_neq (a b : uuid) : uuid_eqb a b = false <-> a <> b.
Proof. apply String.eqb_neq. Qed.

Lemma sum_of_app {A : Type} (col : A -> Z) (l1 l2 : list A) :
  sum_of col (l1 ++ l2) = sum_of col l1 + sum_of col l2.
Proof.
  induction l1 as [|r l1 IH]; simpl; [reflexivity|].
  rewrite IH. lia.
Qed.

Section TableFacts.
Context {R : Type}.
Variable key : R -> uuid.

Lemma find_row_Some (k : uuid) (t : list R) (r : R) :
  find_row key k t = Some r -> In r t /\ key r = k.
Proof.
  induction t as [|x t IH]; simpl; [discriminate|].
  destruct (uuid_eqb (key x) k) eqn:E.
  - intros H. inversion H; subst. split; [now left|].
    now apply uuid_eqb_eq.
  - intros H. destruct (IH H) as [Hin Hk]. split; [now right|exact Hk].
Qed.

Lemma find_row_None (k : uuid) (t : list R) :
  find_row key k t = None <-> ~ In k (map key t).
Proof.
  induction t as [|x t IH]; simpl.
  - split; [intros _ []|reflexivity].
  - destruct (uuid_eqb (key x) k) eqn:E.
    + apply uuid_eqb_eq in E. split; [discriminate|].
      intros H. exfalso. apply H. now left.
    + apply uuid_eqb_neq in E. rewrite IH. split.
      * intros H [H1|H1]; [now apply E|now apply H].
      * intros H H1. apply H. now right.
Qed.

Lemma update_rows_absent (k : uuid) (set : R -> R) (t : list R) :
  ~ In k (map key t) -> update_rows key k set t = t.
Proof.
  induction t as [|x t IH]; simpl; [reflexivity|].
  intros H. destruct (uuid_eqb (key x) k) eqn:E.
  - apply uuid_eqb_eq in E. exfalso. apply H. now left.
  - rewrite IH; [reflexivity|]. intros H1. apply H. now right.
Qed.

Lemma map_key_update_rows (k : uuid) (set : R -> R) (t : list R) :
  (forall r, key (set r) = key r) ->
  map key (update_rows key k set t) = map key t.
Proof.
  intros Hset. induction t as [|x t IH]; simpl; [reflexivity|].
  rewrite IH. destruct (uuid_eqb (key x) k); [rewrite Hset|]; reflexivity.
Qed.

(** Under the primary key an [UPDATE ... WHERE key = k] changes the sum
    of a column by the change of the one row it rewrites. *)
Lemma sum_of_update_rows (col : R -> Z) (k : uuid) (set : R -> R)
    (t : list R) (r : R) :
  primary_key key t ->
  find_row key k t = Some r ->
  sum_of col (update_rows key k set t) = sum_of col t - col r + col (set r).
Proof.
  unfold primary_key. induction t as [|x t IH]; simpl; [discriminate|].
  intros Hnd Hfind. inversion Hnd as [|? ? Hx Hnd']; subst.
  destruct (uuid_eqb (key x) k) eqn:E.
  - inversion Hfind; subst. apply uuid_eqb_eq in E.
    rewrite update_rows_absent; [lia|now rewrite <- E].
  - rewrite (IH Hnd' Hfind). lia.
Qed.

Lemma sum_of_upsert (col : R -> Z) (k : uuid) (fresh : R) (set : R -> R)
    (t : list R) (v : Z) :
  primary_key key t ->
  col fresh = v ->
  (forall r, col (set r) = col r + v) ->
  sum_of col (upsert key k fresh set t) = sum_of col t + v.
Proof.
  intros Hpk Hfresh Hset. unfold upsert.
  destruct (find_row key k t) as [r|] eqn:E.
  - rewrite (sum_of_update_rows col k set t r Hpk E), Hset. lia.
  - rewrite sum_of_app. simpl. lia.
Qed.

Lemma primary_key_upsert (k : uuid) (fresh : R) (set : R -> R)
    (t : list R) :
  primary_key key t ->
  key fresh = k ->
  (forall r, key (set r) = key r) ->
  primary_key key (upsert key k fresh set t).
Proof.
  unfold primary_key, upsert. intros Hpk Hfresh Hset.
  destruct (find_row key k t) as [r|] eqn:E.
  - now rewrite map_key_update_rows.
  - rewrite map_app. simpl. apply find_row_None in E.
    apply NoDup_rev in Hpk. rewrite <- (rev_involutive (map key t ++ _)).
    apply NoDup_rev. rewrite rev_app_distr. simpl.
    constructor; [|exact Hpk].
    rewrite <- in_rev, Hfresh. exact E.
Qed.

Lemma find_row_upsert_same (k : uuid) (fresh : R) (set : R -> R)
    (t : list R) :
  key fresh = k ->
  (forall r, key (set r) = key r) ->
  find_row key k (upsert key k fresh set t)
  = Some match find_row key k t with
         | Some r => set r
         | None => fresh
         end.
Proof.
  intros Hfresh Hset. unfold upsert.
  destruct (find_row key k t) as [r|] eqn:E.
  - induction t as [|x t IH]; simpl in *; [discriminate|].
    destruct (uuid_eqb (key x) k) eqn:Ex.
    + inversion E; subst. now rewrite Hset, Ex.
    + rewrite Ex. now apply IH.
  - induction t as [|x t IH]; simpl in *.
    + now rewrite Hfresh, uuid_eqb_refl.
    + destruct (uuid_eqb (key x) k); [discriminate|now apply IH].
Qed.
End TableFacts.

Lemma sum_of_map {A : Type} (col : A -> Z) (l : list A) :
  sum_of col l = fold_right Z.add 0 (map col l).
Proof. induction l as [|r l IH]; simpl; [reflexivity|now rewrite IH]. Qed.

Lemma sum_of_same_column {A B : Type} (f : A -> Z) (g : B -> Z)
    (l : list A) (l' : list B) :
  map f l = map g l' -> sum_of f l = sum_of g l'.
Proof. intros H. now rewrite !sum_of_map, H. Qed.

Section OrderByFacts.
Context {R : Type}.
Variable before : R -> R -> bool.

Lemma insert_sorted_perm x l :
  Permutation (insert_sorted before x l) (x :: l).
Proof.
  induction l as [|y l IH]; simpl; [reflexivity|].
  destruct (before x y); [reflexivity|].
  rewrite IH. apply perm_swap.
Qed.

(** [ORDER BY] returns the rows it is given. *)
Lemma order_by_perm l : Permutation (order_by before l) l.
Proof.
  induction l as [|x l IH]; simpl; [reflexivity|].
  rewrite insert_sorted_perm. now constructor.
Qed.

Hypothesis before_total : forall a b, before a b = false -> before b a = true.
Hypothesis before_trans :
  forall a b c, before a b = true -> before b c = true -> before a c = true.

Lemma insert_sorted_sorted x l :
  Sorted (fun a b => before a b = true) l ->
  Sorted (fun a b => before a b = true) (insert_sorted before x l).
Proof.
  induction l as [|y l IH]; intros Hs; simpl.
  - repeat constructor.
  - destruct (before x y) eqn:E.
    + constructor; [exact Hs|]. now constructor.
    + inversion Hs as [|? ? Hs' Hhd]; subst.
      constructor; [now apply IH|].
      destruct l as [|z l]; simpl.
      * constructor. now apply before_total.
      * destruct (before x z); constructor.
        -- now apply before_total.
        -- now inversion Hhd.
Qed.

(** [ORDER BY] returns them in the order asked for: every row comes
    before all the rows that follow it. *)
Lemma order_by_sorted l :
  StronglySorted (fun a b => before a b = true) (order_by before l).
Proof.
  apply Sorted_StronglySorted.
  - intros a b c. apply before_trans.
  - induction l as [|x l IH]; simpl; [constructor|].
    now apply insert_sorted_sorted.
Qed.

(** Rows already in order are left as they are. *)
Lemma order_by_of_sorted l :
  Sorted (fun a b => before a b = true) l -> order_by before l = l.
Proof.
  induction l as [|x l IH]; intros Hs; simpl; [reflexivity|].
  inversion Hs as [|? ? Hs' Hhd]; subst.
  rewrite (IH Hs'). destruct l as [|y l]; simpl; [reflexivity|].
  inversion Hhd as [|? ? Hxy]; subst. now rewrite Hxy.
Qed.

Lemma firstn_sorted n l :
  Sorted (fun a b => before a b = true) l ->
  Sorted (fun a b => before a b = true) (firstn n l).
Proof.
  revert l. induction n as [|n IH]; intros l Hs; simpl; [constructor|].
  destruct l as [|x l]; [constructor|].
  inversion Hs as [|? ? Hs' Hhd]; subst.
  constructor; [now apply IH|].
  destruct n; simpl; [constructor|].
  destruct l; [constructor|]. inversion Hhd; subst. now constructor.
Qed.
End OrderByFacts.

Lemma row_number_rows {R : Type} (start : Z) (l : list R) :
  map snd (row_number start l) = l.
Proof.
  revert start. induction l as [|r l IH]; intros start; simpl;
    [reflexivity|now rewrite IH].
Qed.

Lemma row_number_length {R : Type} (start : Z) (l : list R) :
  List.length (row_number start l) = List.length l.
Proof.
  revert start. induction l as [|r l IH]; intros start; simpl;
    [reflexivity|now rewrite IH].
Qed.

(** [ROW_NUMBER()] counts [start], [start + 1], ... *)
Lemma row_number_ranks {R : Type} (start : nat) (l : list R) :
  map fst (row_number (Z.of_nat start) l)
  = map Z.of_nat (seq start (List.length l)).
Proof.
  revert start. induction l as [|r l IH]; intros start; simpl;
    [reflexivity|].
  f_equal. rewrite <- IH. f_equal. f_equal. lia.
Qed.


Lemma firstn_incl {A : Type} (n : nat) (l : list A) (x : A) :
  In x (firstn n l) -> In x l.
Proof.
  revert l. induction n as [|n IH]; intros l; simpl; [intros []|].
  destruct l as [|y l]; [intros []|].
  intros [H|H]; [now left|right; now apply IH].
Qed.

(* ------------------------------------------------------------------ *)
(** ** The in-memory aggregate and its listeners *)

Section GlobalSyncFacts.
Import GlobalSync.

Lemma forEach_returns ls position p log :
  never_throw ls ->
  forEach ls position p log
  = ((log ++ map (fun i => (i, p)) (seq position (List.length ls)))%list,
     None).
Proof.
  revert position log. induction ls as [|l ls IH]; intros position log H;
    simpl.
  - now rewrite app_nil_r.
  - rewrite (H l _ p (or_introl eq_refl)). rewrite IH.
    + now rewrite <- app_assoc.
    + intros l' n' p' Hin. apply H. now right.
Qed.

Lemma forEach_throws ls position p log :
  (exists l, In l ls /\ forall n, throws l n p <> None) ->
  exists log' e, forEach ls position p log = (log', Some e).
Proof.
  revert position log. induction ls as [|l ls IH];
    intros position log (l0 & Hin & Hthrows); [destruct Hin|].
  simpl. destruct (throws l (List.length log) p) as [e|] eqn:E.
  - now do 2 eexists.
  - apply IH. exists l0. split; [|exact Hthrows].
    destruct Hin as [Hin|Hin]; [|exact Hin].
    subst l0. exfalso. now apply (Hthrows (List.length log)).
Qed.

(** With listeners that return, the callback commits, broadcasts once
    and returns the new state. *)
Lemma commit_and_broadcast_returns y s :
  never_throw (listeners s) ->
  commit_and_broadcast y s
  = (aggregated y s, Returned (state (aggregated y s))).
Proof.
  intros H. unfold commit_and_broadcast, broadcast. cbn [listeners calls].
  rewrite forEach_returns by exact H. reflexivity.
Qed.

(** With a listener that throws, the callback has committed when it
    throws. *)
Lemma commit_and_broadcast_throws y s :
  one_always_throws (listeners s) ->
  exists log e,
    commit_and_broadcast y s
    = ({| state :=
            {| totalLbsSaved := (totalLbsSaved (state s) + y)%float;
               actionCount := (actionCount (state s) + 1)%float |};
          listeners := listeners s;
          calls := log |},
       Thrown e).
Proof.
  intros (l & Hin & Hthrows).
  unfold commit_and_broadcast, broadcast. cbn [listeners calls state].
  match goal with
  | |- context [forEach ?ls ?n ?p ?log] =>
      destruct (forEach_throws ls n p log) as (log' & e & E)
  end.
  { exists l. split; [exact Hin|]. intros n. apply Hthrows. }
  rewrite E. now exists log', e.
Qed.

Lemma aggregateVerifiedAction_returns action s :
  never_throw (listeners s) ->
  aggregateVerifiedAction action verified s
  = (aggregated (coalesce (emissionsSavedLbs action) 0%float) s,
     Returned
       (state (aggregated (coalesce (emissionsSavedLbs action) 0%float) s))).
Proof.
  intros H. unfold aggregateVerifiedAction. simpl.
  now rewrite commit_and_broadcast_returns.
Qed.

End GlobalSyncFacts.

(* ------------------------------------------------------------------ *)
(** ** Global consistency (invariant 1) *)

Section AiVerificationConsistency.
Import AiVerification.

Lemma trigger_keeps_user_actions now OLD NEW d :
  user_actions (global_sync_trigger_function now OLD NEW d)
  = user_actions d.
Proof.
  unfold global_sync_trigger_function.
  now destruct (verified NEW && negb (verified OLD)).
Qed.

(** The trigger function adds the same quantity to the user's row and
    to the global row. *)
Lemma trigger_preserves_consistency now OLD NEW d :
  primary_key us_user_id (user_stats d) ->
  ai_consistent d ->
  primary_key us_user_id
    (user_stats (global_sync_trigger_function now OLD NEW d))
  /\ ai_consistent (global_sync_trigger_function now OLD NEW d).
Proof.
  intros Hpk Hc. unfold global_sync_trigger_function.
  destruct (verified NEW && negb (verified OLD)); [|now split].
  unfold ai_consistent in *. simpl. split.
  - now apply primary_key_upsert.
  - rewrite (sum_of_upsert us_user_id total_emissions_lbs _ _ _ _
               (emissions_saved_lbs NEW) Hpk); simpl; [lia|reflexivity|].
    intros r. reflexivity.
Qed.

Lemma update_user_action_preserves_consistency now id set d :
  primary_key us_user_id (user_stats d) ->
  ai_consistent d ->
  primary_key us_user_id (user_stats (update_user_action now id set d))
  /\ ai_consistent (update_user_action now id set d).
Proof.
  intros Hpk Hc. unfold update_user_action.
  set (d0 := set_user_actions _ d).
  assert (H0 : primary_key us_user_id (user_stats d0) /\ ai_consistent d0)
    by (split; assumption).
  clearbody d0. revert d0 H0.
  induction (user_actions d) as [|a l IH]; intros d0 H0; simpl.
  - exact H0.
  - apply IH. destruct (uuid_eqb (action_id a) id); [|exact H0].
    destruct H0 as [H1 H2]. now apply trigger_preserves_consistency.
Qed.

Lemma insert_user_action_keeps_aggregates a d d' :
  insert_user_action a d = Some d' ->
  user_stats d' = user_stats d /\ global_emissions d' = global_emissions d.
Proof.
  unfold insert_user_action.
  destruct (find_row action_id (action_id a) (user_actions d));
    [discriminate|].
  destruct (emissions_saved_lbs a <? 0); [discriminate|].
  intros H. inversion H. now split.
Qed.

Lemma sync_establishes_consistency now d :
  ai_consistent (fst (sync_global_emissions_from_user_stats now d))
  /\ user_stats (fst (sync_global_emissions_from_user_stats now d))
     = user_stats d.
Proof.
  unfold sync_global_emissions_from_user_stats, ai_consistent. simpl.
  destruct (sum_of total_emissions_lbs (user_stats d)
            =? total_lbs_saved (global_emissions d)) eqn:E; simpl.
  - apply Z.eqb_eq in E. now split.
  - now split.
Qed.

(** Every state the AI-verification schema reaches keeps the primary
    key of [user_stats] and the equality of the global total with the
    sum of the user totals. *)
Lemma ai_reachable_consistent registered d :
  ai_reachable registered d ->
  primary_key us_user_id (user_stats d) /\ ai_consistent d.
Proof.
  induction 1 as [|d a d' _ IH Hins|d now id v _ IH|d now _ IH].
  - split; [constructor|reflexivity].
  - destruct (insert_user_action_keeps_aggregates a d d' Hins) as [Hs Hg].
    destruct IH as [Hpk Hc]. unfold ai_consistent in *.
    rewrite Hs, Hg. now split.
  - destruct IH as [Hpk Hc]. unfold verifyAndSyncAction.
    destruct v; now apply update_user_action_preserves_consistency.
  - destruct IH as [Hpk Hc].
    destruct (sync_establishes_consistency now d) as [H1 H2].
    rewrite H2. now split.
Qed.
End AiVerificationConsistency.

Section SimpleSolutionConsistency.
Import SimpleSolution.

Lemma mirror_total_keys sel t :
  map us_user_id (mirror_total sel t) = map us_user_id t.
Proof.
  unfold mirror_total. rewrite map_map. apply map_ext. intros r.
  now destruct (sel r && _).
Qed.

Lemma mirror_total_totals sel t :
  map total_lbs (mirror_total sel t) = map total_lbs t.
Proof.
  unfold mirror_total. rewrite map_map. apply map_ext. intros r.
  now destruct (sel r && _).
Qed.

(** The trigger function adds [v_lbs] to the user's row and to both
    columns of the global row, or does nothing. *)
Lemma update_emission_totals_preserves_consistency now NEW d :
  primary_key us_user_id (user_stats d) ->
  simple_consistent d ->
  primary_key us_user_id (user_stats (update_emission_totals now NEW d))
  /\ simple_consistent (update_emission_totals now NEW d).
Proof.
  intros Hpk [Hc1 Hc2]. unfold update_emission_totals.
  destruct (0 <? v_lbs (action_templates d) NEW); [|now repeat split].
  unfold simple_consistent, primary_key in *. simpl.
  rewrite mirror_total_keys.
  rewrite (sum_of_same_column total_lbs total_lbs _ _
             (mirror_total_totals _ _)).
  rewrite (sum_of_upsert us_user_id total_lbs _ _ _ _
             (v_lbs (action_templates d) NEW) Hpk);
    [|reflexivity|intros r; reflexivity].
  repeat split.
  - now apply primary_key_upsert.
  - lia.
  - rewrite Hc2. simpl. reflexivity.
Qed.

Lemma backfill_upserts_keep_key now uts t :
  primary_key us_user_id t ->
  primary_key us_user_id
    (fold_left
       (fun t ut =>
          upsert us_user_id (fst ut)
            {| us_user_id := fst ut;
               total_lbs := round_div (snd ut) 100000;
               total_emissions_lbs := None; last_updated := now |}
            (fun r =>
               {| us_user_id := us_user_id r;
                  total_lbs := round_div (snd ut) 100000;
                  total_emissions_lbs := total_emissions_lbs r;
                  last_updated := now |})
            t)
       uts t).
Proof.
  revert t. induction uts as [|ut uts IH]; intros t Hpk; simpl;
    [exact Hpk|].
  apply IH. now apply primary_key_upsert.
Qed.

(** [backfill_totals] ends by writing the sum of the user totals into
    both columns of the global row. *)
Lemma backfill_totals_establishes_consistency now d :
  primary_key us_user_id (user_stats d) ->
  primary_key us_user_id (user_stats (backfill_totals now d))
  /\ simple_consistent (backfill_totals now d).
Proof.
  intros Hpk. unfold backfill_totals, simple_consistent, primary_key. simpl.
  rewrite mirror_total_keys. repeat split.
  now apply backfill_upserts_keep_key.
Qed.

(** Whatever the state, [sync_global_from_user_stats] leaves the global
    total equal to the sum of the user totals. *)
Lemma sync_global_from_user_stats_sets_total now d :
  g_total_lbs (global_emissions (fst (sync_global_from_user_stats now d)))
  = sum_of total_lbs (user_stats d)
  /\ user_stats (fst (sync_global_from_user_stats now d)) = user_stats d.
Proof.
  unfold sync_global_from_user_stats. simpl.
  destruct (sum_of total_lbs (user_stats d)
            =? g_total_lbs (global_emissions d)) eqn:E; simpl.
  - apply Z.eqb_eq in E. now split.
  - now split.
Qed.

Lemma sync_global_from_user_stats_preserves_consistency now d :
  simple_consistent d ->
  simple_consistent (fst (sync_global_from_user_stats now d)).
Proof.
  intros [H1 H2]. unfold sync_global_from_user_stats, simple_consistent.
  simpl.
  destruct (sum_of total_lbs (user_stats d)
            =? g_total_lbs (global_emissions d)); simpl; now split.
Qed.

(** Every state [FINAL_SIMPLE_SOLUTION.sql] reaches keeps the primary key
    of [user_stats] and the equality of the global total with the sum of
    the user totals. *)
Lemma simple_reachable_consistent templates people d :
  simple_reachable templates people d ->
  primary_key us_user_id (user_stats d) /\ simple_consistent d.
Proof.
  induction 1 as [|d now a _ IH|d now _ IH|d now _ IH].
  - split; [constructor|now split].
  - destruct IH as [Hpk Hc]. unfold insert_user_action.
    now apply update_emission_totals_preserves_consistency.
  - destruct IH as [Hpk _].
    now apply backfill_totals_establishes_consistency.
  - destruct IH as [Hpk Hc]. split.
    + now rewrite (proj2 (sync_global_from_user_stats_sets_total now d)).
    + now apply sync_global_from_user_stats_preserves_consistency.
Qed.

End SimpleSolutionConsistency.

Section ActionSyncTriggersConsistency.
Import ActionSyncTriggers.

(** With the [user_stats] trigger declared for both row operations, the
    two functions of migration 20251115050327 keep the global total equal
    to the sum of the user totals. *)
Lemma insert_with_both_events_preserves_consistency events now NEW d :
  fires events TG_INSERT = true ->
  fires events TG_UPDATE = true ->
  primary_key us_user_id (user_stats d) ->
  triggers_consistent d ->
  primary_key us_user_id
    (user_stats (insert_user_action_with events now NEW d))
  /\ triggers_consistent (insert_user_action_with events now NEW d).
Proof.
  intros Hi Hu Hpk Hc.
  unfold insert_user_action_with, sync_user_stats_on_action_insert.
  simpl. rewrite Hi, Hu.
  set (v := coalesce (custom_emissions_saved NEW)
                     (coalesce (emissions_saved_lbs NEW) 0)).
  unfold triggers_consistent, primary_key in *.
  destruct (find_row us_user_id (user_id NEW) (user_stats d)) as [old|] eqn:E;
    simpl.
  - split.
    + rewrite map_key_update_rows; [exact Hpk|reflexivity].
    + rewrite (sum_of_update_rows us_user_id total_lbs _ _ _ old Hpk E).
      simpl. lia.
  - split.
    + apply find_row_None in E. rewrite map_app. simpl.
      apply NoDup_rev in Hpk.
      rewrite <- (rev_involutive (map us_user_id (user_stats d) ++ _)).
      apply NoDup_rev. rewrite rev_app_distr. simpl.
      constructor; [now rewrite <- in_rev|exact Hpk].
    + rewrite sum_of_app. simpl. lia.
Qed.

(** As declared ([AFTER UPDATE] only), the insert of a user's first action
    creates the [user_stats] row without running the [user_stats]
    trigger: the global row is left as it was. *)
Lemma first_action_skips_global now NEW d :
  find_row us_user_id (user_id NEW) (user_stats d) = None ->
  global_emissions (insert_user_action now NEW d) = global_emissions d
  /\ sum_of total_lbs (user_stats (insert_user_action now NEW d))
     = sum_of total_lbs (user_stats d)
       + coalesce (custom_emissions_saved NEW)
                  (coalesce (emissions_saved_lbs NEW) 0).
Proof.
  intros E.
  unfold insert_user_action, insert_user_action_with,
    sync_user_stats_on_action_insert. simpl. rewrite E. simpl.
  split; [reflexivity|]. rewrite sum_of_app. simpl. lia.
Qed.

End ActionSyncTriggersConsistency.

(** C1 (code defect).  Under migration 20251115050327 the insert of the
    first action of [user1] (10.2 lb) into the freshly migrated database
    gives [user1] a total of 10.2 while the global total stays 0: the
    global total is not the sum of the user totals. *)
Theorem first_action_breaks_global_consistency :
  let d :=
    ActionSyncTriggers.insert_user_action 1
      {| ActionSyncTriggers.user_id := "user1"%string;
         ActionSyncTriggers.custom_emissions_saved := None;
         ActionSyncTriggers.emissions_saved_lbs := Some 10200000;
         ActionSyncTriggers.verified := true |}
      ActionSyncTriggers.empty_db in
  sum_of ActionSyncTriggers.total_lbs (ActionSyncTriggers.user_stats d)
  = 10200000
  /\ ActionSyncTriggers.total_lbs_saved (ActionSyncTriggers.global_emissions d)
     = 0
  /\ ~ triggers_consistent d.
Proof.
  cbv zeta. repeat split. unfold triggers_consistent. simpl. discriminate.
Qed.

Section CompleteAppSetupConsistency.
Import CompleteAppSetup.

(** The later migrations declare the trigger [AFTER INSERT OR UPDATE]:
    every insert keeps the global total equal to the sum of the user
    totals. *)
Lemma setup_insert_preserves_consistency now NEW d :
  primary_key us_user_id (user_stats d) ->
  setup_consistent d ->
  primary_key us_user_id (user_stats (insert_user_action now NEW d))
  /\ setup_consistent (insert_user_action now NEW d).
Proof.
  intros Hpk Hc.
  unfold insert_user_action, sync_user_stats_on_action_insert. simpl.
  destruct (v_lbs (action_templates d) NEW) as [v|]; [|now split].
  destruct (0 <? v) eqn:Hv; [|now split].
  apply Z.ltb_lt in Hv.
  unfold setup_consistent, primary_key in *.
  destruct (find_row us_user_id (user_id NEW) (user_stats d)) as [old|] eqn:E;
    simpl; unfold sync_global_emissions_on_stats_update; simpl.
  - replace (total_lbs old + v - total_lbs old =? 0) with false
      by (symmetry; apply Z.eqb_neq; lia).
    simpl. split.
    + rewrite map_key_update_rows; [exact Hpk|reflexivity].
    + rewrite (sum_of_update_rows us_user_id total_lbs _ _ _ old Hpk E).
      simpl. lia.
  - replace (v - 0 =? 0) with false by (symmetry; apply Z.eqb_neq; lia).
    simpl. split.
    + apply find_row_None in E. rewrite map_app. simpl.
      apply NoDup_rev in Hpk.
      rewrite <- (rev_involutive (map us_user_id (user_stats d) ++ _)).
      apply NoDup_rev. rewrite rev_app_distr. simpl.
      constructor; [now rewrite <- in_rev|exact Hpk].
    + rewrite sum_of_app. simpl. lia.
Qed.

Lemma setup_reachable_consistent templates d :
  setup_reachable templates d ->
  primary_key us_user_id (user_stats d) /\ setup_consistent d.
Proof.
  induction 1 as [|d now a _ [Hpk Hc]].
  - split; [constructor|reflexivity].
  - now apply setup_insert_preserves_consistency.
Qed.

End CompleteAppSetupConsistency.

Section EmissionLoggingConsistency.
Import EmissionLogging.

(** The logging transaction adds the quantity to the user's row and to
    the global row, or changes nothing. *)
Lemma log_emission_atomic_preserves_consistency now a u q d :
  primary_key us_user_id (user_stats d) ->
  logging_consistent d ->
  primary_key us_user_id
    (user_stats (fst (log_emission_atomic now a u q d)))
  /\ logging_consistent (fst (log_emission_atomic now a u q d)).
Proof.
  intros Hpk Hc. unfold log_emission_atomic, insert_do_nothing.
  destruct (find_row action_id a (user_actions d)) eqn:E; [now split|].
  destruct (q <? 0); [now split|]. simpl. rewrite E. simpl.
  unfold logging_consistent in *. simpl. split.
  - now apply primary_key_upsert.
  - rewrite (sum_of_upsert us_user_id total_emissions_lbs _ _ _ _ q Hpk);
      [lia|reflexivity|intros r; reflexivity].
Qed.

Lemma logging_reachable_consistent d :
  logging_reachable d ->
  primary_key us_user_id (user_stats d) /\ logging_consistent d.
Proof.
  induction 1 as [|d now a u q _ [Hpk Hc]].
  - split; [constructor|reflexivity].
  - now apply log_emission_atomic_preserves_consistency.
Qed.

End EmissionLoggingConsistency.

(* ------------------------------------------------------------------ *)
(** ** Idempotent submission *)

Section Resubmission.
Import EmissionLogging.

Lemma find_row_app_present {R : Type} (key : R -> uuid) k (t t' : list R) :
  find_row key k t <> None -> find_row key k (t ++ t') = find_row key k t.
Proof.
  induction t as [|x t IH]; simpl; [congruence|].
  destruct (uuid_eqb (key x) k); [reflexivity|exact IH].
Qed.

Lemma find_row_app_absent {R : Type} (key : R -> uuid) k (t t' : list R) :
  find_row key k t = None -> find_row key k (t ++ t') = find_row key k t'.
Proof.
  induction t as [|x t IH]; simpl; [reflexivity|].
  destruct (uuid_eqb (key x) k); [discriminate|exact IH].
Qed.

Lemma insert_do_nothing_keeps r t k :
  find_row action_id k t <> None ->
  find_row action_id k (fst (insert_do_nothing r t)) <> None.
Proof.
  intros H. unfold insert_do_nothing.
  destruct (find_row action_id (action_id r) t); simpl; [exact H|].
  now rewrite find_row_app_present.
Qed.

Lemma insert_batch_keeps batch t k :
  find_row action_id k t <> None ->
  find_row action_id k (fst (fst (insert_batch batch t))) <> None.
Proof.
  revert t. induction batch as [|a batch IH]; intros t H; simpl; [exact H|].
  destruct (insert_do_nothing _ t) as [t1 inserted] eqn:E1.
  assert (H1 : find_row action_id k t1 <> None).
  { replace t1 with (fst (insert_do_nothing
        {| action_id := b_action_id a; ua_user_id := b_user_id a;
           emissions_saved_lbs := b_lbs a; verified := b_verified a |} t))
      by now rewrite E1.
    now apply insert_do_nothing_keeps. }
  specialize (IH t1 H1).
  destruct (insert_batch batch t1) as [[t2 ins] skip].
  now destruct inserted.
Qed.

(** A submission whose key is already recorded changes nothing and
    reports the totals as they stand. *)
Lemma duplicate_submission_reads_current_totals now a u q d :
  find_row action_id a (user_actions d) <> None ->
  log_emission_atomic now a u q d
  = (d,
     RpcData
       [ {| success := true; r_action_id := a; r_user_id := u;
            r_emissions_lbs := q;
            user_total_lbs :=
              option_map total_emissions_lbs
                (find_row us_user_id u (user_stats d));
            global_total_lbs := Some (total_lbs_saved (global_emissions d));
            is_duplicate := true |} ]).
Proof.
  intros H. unfold log_emission_atomic.
  destruct (find_row action_id a (user_actions d)); [reflexivity|congruence].
Qed.

(** What a first, accepted submission does. *)
Lemma accepted_submission now a u q d d1 r1 :
  log_emission_atomic now a u q d = (d1, RpcData [r1]) ->
  is_duplicate r1 = false ->
  find_row action_id a (user_actions d1) <> None
  /\ user_total_lbs r1
     = option_map total_emissions_lbs (find_row us_user_id u (user_stats d1))
  /\ global_total_lbs r1 = Some (total_lbs_saved (global_emissions d1))
  /\ total_lbs_saved (global_emissions d1)
     = total_lbs_saved (global_emissions d) + q.
Proof.
  unfold log_emission_atomic, insert_do_nothing.
  destruct (find_row action_id a (user_actions d)) eqn:E.
  - intros H. inversion H; subst. discriminate.
  - destruct (q <? 0); [discriminate|]. simpl. rewrite E. simpl.
    intros H _. inversion H; subst; clear H. simpl. repeat split.
    + rewrite find_row_app_absent by exact E. simpl.
      now rewrite uuid_eqb_refl.
    + rewrite find_row_upsert_same; [|reflexivity|intros r; reflexivity].
      simpl.
      now destruct (find_row us_user_id u (user_stats d)).
Qed.

End Resubmission.

(** Run on its own, [log_emission_atomic] is the idempotency check
    followed by [log_emission_locked]. *)
Lemma log_emission_atomic_steps now a u q d :
  EmissionLogging.log_emission_atomic now a u q d
  = match existing_action a d with
    | Some _ =>
        (d,
         EmissionLogging.RpcData
           [ {| EmissionLogging.success := true;
                EmissionLogging.r_action_id := a;
                EmissionLogging.r_user_id := u;
                EmissionLogging.r_emissions_lbs := q;
                EmissionLogging.user_total_lbs :=
                  option_map EmissionLogging.total_emissions_lbs
                    (find_row EmissionLogging.us_user_id u
                       (EmissionLogging.user_stats d));
                EmissionLogging.global_total_lbs :=
                  Some (EmissionLogging.total_lbs_saved
                          (EmissionLogging.global_emissions d));
                EmissionLogging.is_duplicate := true |} ])
    | None => log_emission_locked now a u q d
    end.
Proof.
  unfold existing_action, log_emission_locked,
    EmissionLogging.log_emission_atomic, EmissionLogging.insert_do_nothing.
  destruct (find_row EmissionLogging.action_id a
              (EmissionLogging.user_actions d)) eqn:E; [reflexivity|].
  destruct (q <? 0); [reflexivity|]. simpl. rewrite E. reflexivity.
Qed.

(** Of two concurrent submissions of one key the first is accepted and
    the second is blocked at the insert: the totals change once, and the
    second reply carries [is_duplicate = true] and no totals. *)
Lemma concurrent_duplicates_change_totals_once now1 now2 a u q d :
  existing_action a d = None ->
  0 <= q ->
  exists d1 r1,
    EmissionLogging.log_emission_atomic now1 a u q d
    = (d1, EmissionLogging.RpcData [r1])
    /\ EmissionLogging.is_duplicate r1 = false
    /\ concurrent_duplicates now1 now2 a u q d
       = Some
           ((d1, EmissionLogging.RpcData [r1]),
            (d1,
             EmissionLogging.RpcData
               [ {| EmissionLogging.success := true;
                    EmissionLogging.r_action_id := a;
                    EmissionLogging.r_user_id := u;
                    EmissionLogging.r_emissions_lbs := q;
                    EmissionLogging.user_total_lbs := None;
                    EmissionLogging.global_total_lbs := None;
                    EmissionLogging.is_duplicate := true |} ])).
Proof.
  intros Hnone Hq. unfold concurrent_duplicates. rewrite Hnone.
  pose proof (log_emission_atomic_steps now1 a u q d) as Hsteps.
  rewrite Hnone in Hsteps. rewrite <- Hsteps. clear Hsteps.
  unfold existing_action in Hnone.
  unfold EmissionLogging.log_emission_atomic at 1 2 3,
    EmissionLogging.insert_do_nothing.
  rewrite Hnone. destruct (q <? 0) eqn:Eq; [apply Z.ltb_lt in Eq; lia|].
  simpl. rewrite Hnone. simpl.
  do 2 eexists. split; [reflexivity|]. split; [reflexivity|].
  unfold log_emission_locked, EmissionLogging.insert_do_nothing.
  rewrite Eq. simpl.
  rewrite find_row_app_absent by exact Hnone. simpl.
  rewrite uuid_eqb_refl. reflexivity.
Qed.

(** C2.  The second submission of a key does not return the totals the
    first returned.  Submitted again after another action of the same
    user has been committed, the key "a1" leaves the state unchanged and
    is answered with [is_duplicate = true] and the totals 34.9 and 34.9
    where the first answer carried 22.5 and 22.5; submitted twice at the
    same time, the second answer carries no totals at all; and the
    in-memory aggregate, given the action a second time, adds its 22.5
    again. *)
Theorem resubmission_returns_other_totals :
  let first :=
    EmissionLogging.log_emission_atomic 1 "a1"%string "user1"%string
      22500000 EmissionLogging.empty_db in
  let between :=
    EmissionLogging.log_emission_atomic 2 "a2"%string "user1"%string
      12400000 (fst first) in
  let second :=
    EmissionLogging.log_emission_atomic 3 "a1"%string "user1"%string
      22500000 (fst between) in
  let totals reply :=
    match reply with
    | EmissionLogging.RpcData [r] =>
        Some (EmissionLogging.is_duplicate r,
              EmissionLogging.user_total_lbs r,
              EmissionLogging.global_total_lbs r)
    | _ => None
    end in
  let once := GlobalSync.aggregateVerifiedAction action_a1
                GlobalSync.verified (GlobalSync.loaded []) in
  let twice := GlobalSync.aggregateVerifiedAction action_a1
                 GlobalSync.verified (fst once) in
  (totals (snd first) = Some (false, Some 22500000, Some 22500000)
   /\ fst second = fst between
   /\ totals (snd second) = Some (true, Some 34900000, Some 34900000))
  /\ option_map (fun runs => (totals (snd (fst runs)), totals (snd (snd runs))))
       (concurrent_duplicates 1 2 "a1"%string "user1"%string 22500000
          EmissionLogging.empty_db)
     = Some (Some (false, Some 22500000, Some 22500000),
             Some (true, None, None))
  /\ (snd once
      = GlobalSync.Returned
          {| GlobalSync.totalLbsSaved := 22.5%float;
             GlobalSync.actionCount := 1%float |}
      /\ snd twice
         = GlobalSync.Returned
             {| GlobalSync.totalLbsSaved := 45%float;
                GlobalSync.actionCount := 2%float |}).
Proof.
  cbv zeta. split; [|split].
  - split; [reflexivity|]. split; reflexivity.
  - reflexivity.
  - split; reflexivity.
Qed.

(* ------------------------------------------------------------------ *)
(** ** Reconciliation *)

(** C3, as amended.  When [hourly_sync_check] finds the sum [S] of the
    user totals different from the global total [G], it sets the global
    total to exactly [S] (there is no switch for the correction), returns
    one result and raises exactly one warning, both carrying [S], [G] and
    [|S - G|] rounded to two decimals; it writes no row to any table other
    than [global_emissions].  When [S = G] it changes nothing and raises
    no warning. *)
Theorem mismatch_is_corrected_and_warned now d :
  let S := sum_of AiVerification.total_emissions_lbs
             (AiVerification.user_stats d) in
  let G := AiVerification.total_lbs_saved
             (AiVerification.global_emissions d) in
  let d' := fst (fst (AiVerification.hourly_sync_check now d)) in
  let json := snd (fst (AiVerification.hourly_sync_check now d)) in
  let warnings := snd (AiVerification.hourly_sync_check now d) in
  (S <> G ->
   AiVerification.total_lbs_saved (AiVerification.global_emissions d') = S
   /\ AiVerification.user_stats d' = AiVerification.user_stats d
   /\ AiVerification.user_actions d' = AiVerification.user_actions d
   /\ AiVerification.sync_check_log d' = AiVerification.sync_check_log d
   /\ AiVerification.j_was_in_sync json = false
   /\ AiVerification.j_fixed json = true
   /\ AiVerification.j_user_stats_sum json = round2 S
   /\ AiVerification.j_global_total json = round2 G
   /\ AiVerification.j_discrepancy json = round2 (Z.abs (S - G))
   /\ warnings
      = [ {| AiVerification.w_user_stats_sum := round2 S;
             AiVerification.w_global_total := round2 G;
             AiVerification.w_discrepancy := round2 (Z.abs (S - G));
             AiVerification.w_fixed := true |} ])
  /\ (S = G ->
      d' = d
      /\ AiVerification.j_was_in_sync json = true
      /\ AiVerification.j_fixed json = false
      /\ warnings = []).
Proof.
  cbv zeta.
  unfold AiVerification.hourly_sync_check,
    AiVerification.sync_global_emissions_from_user_stats.
  split; intros H.
  - apply Z.eqb_neq in H. rewrite H. simpl. repeat split.
  - apply Z.eqb_eq in H. rewrite H. simpl. repeat split.
Qed.

Lemma mismatch_is_corrected_and_warned_witness :
  30900000 <> 30500000
  /\ AiVerification.total_lbs_saved
       (AiVerification.global_emissions
          (fst (fst (AiVerification.hourly_sync_check 9 scenario_D))))
     = 30900000
  /\ snd (AiVerification.hourly_sync_check 9 scenario_D)
     = [ {| AiVerification.w_user_stats_sum := 30900000;
            AiVerification.w_global_total := 30500000;
            AiVerification.w_discrepancy := 400000;
            AiVerification.w_fixed := true |} ].
Proof.
  assert (Hne : 30900000 <> 30500000) by lia.
  split; [exact Hne|].
  destruct (proj1 (mismatch_is_corrected_and_warned 9 scenario_D) Hne)
    as (H1 & _ & _ & _ & _ & _ & _ & _ & _ & H10).
  split; [exact H1|exact H10].
Defined.

(** C3 (counterexample).  On Scenario D the mismatch is detected and
    corrected, and the audit table is as empty afterwards as before: no
    correction record is written. *)
Lemma correction_record_counterexample :
  ~ mismatch_writes_correction_record.
Proof.
  intros H.
  destruct (H 9 scenario_D) as (record & Hlog & _).
  - simpl. lia.
  - simpl in Hlog. discriminate Hlog.
Qed.

(* ------------------------------------------------------------------ *)
(** ** Verified-only aggregation *)

Section VerifiedOnly.
Import AiVerification.

(** Inserting an action, verified or not, leaves both aggregates as they
    were: this schema declares no trigger for [INSERT]. *)
Lemma insert_leaves_aggregates a d d' :
  insert_user_action a d = Some d' ->
  user_stats d' = user_stats d /\ global_emissions d' = global_emissions d.
Proof. apply insert_user_action_keeps_aggregates. Qed.

(** An update that leaves the rows it touches unverified leaves both
    aggregates as they were. *)
Lemma update_to_unverified_leaves_aggregates now id set d :
  (forall r, verified (set r) = false) ->
  user_stats (update_user_action now id set d) = user_stats d
  /\ global_emissions (update_user_action now id set d) = global_emissions d.
Proof.
  intros Hset. unfold update_user_action.
  set (d0 := set_user_actions _ d).
  assert (H0 : user_stats d0 = user_stats d
               /\ global_emissions d0 = global_emissions d) by now split.
  clearbody d0. revert d0 H0.
  induction (user_actions d) as [|a l IH]; intros d0 H0; simpl; [exact H0|].
  apply IH. destruct (uuid_eqb (action_id a) id); [|exact H0].
  unfold global_sync_trigger_function. now rewrite Hset.
Qed.

(** An update of a row that was already verified adds nothing either:
    the trigger counts the transition from unverified to verified. *)
Lemma trigger_counts_the_transition_only now OLD NEW d :
  verified OLD = true -> global_sync_trigger_function now OLD NEW d = d.
Proof.
  intros H. unfold global_sync_trigger_function.
  now rewrite H, andb_false_r.
Qed.

End VerifiedOnly.

(** C4 (code defect).  Under migration 20251115050327 an action inserted
    with [verified = FALSE] is added to its user's total at once, and a
    second unverified action of the same user is added to the user's total
    and to the global total. *)
Theorem unverified_insert_is_aggregated :
  let unverified q :=
    {| ActionSyncTriggers.user_id := "user1"%string;
       ActionSyncTriggers.custom_emissions_saved := None;
       ActionSyncTriggers.emissions_saved_lbs := Some q;
       ActionSyncTriggers.verified := false |} in
  let d1 :=
    ActionSyncTriggers.insert_user_action 1 (unverified 10200000)
      ActionSyncTriggers.empty_db in
  let d2 := ActionSyncTriggers.insert_user_action 2 (unverified 5000000) d1 in
  map ActionSyncTriggers.total_lbs (ActionSyncTriggers.user_stats d1)
  = [10200000]
  /\ map ActionSyncTriggers.total_lbs (ActionSyncTriggers.user_stats d2)
     = [15200000]
  /\ ActionSyncTriggers.total_lbs_saved
       (ActionSyncTriggers.global_emissions d2)
     = 5000000.
Proof. cbv zeta. repeat split. Qed.

(** The trigger function of [FINAL_SIMPLE_SOLUTION.sql] reads no
    verification flag either: every inserted action of positive quantity
    is added. *)
Lemma update_emission_totals_adds_any_action now NEW d :
  0 < SimpleSolution.v_lbs (SimpleSolution.action_templates d) NEW ->
  SimpleSolution.g_total_lbs
    (SimpleSolution.global_emissions
       (SimpleSolution.insert_user_action now NEW d))
  = SimpleSolution.g_total_lbs (SimpleSolution.global_emissions d)
    + SimpleSolution.v_lbs (SimpleSolution.action_templates d) NEW.
Proof.
  intros H. apply Z.ltb_lt in H.
  unfold SimpleSolution.insert_user_action,
    SimpleSolution.update_emission_totals. simpl.
  now rewrite H.
Qed.

(* ------------------------------------------------------------------ *)
(** ** Backfill *)

Lemma uuid_eqb_sym (a b : uuid) : uuid_eqb a b = uuid_eqb b a.
Proof. apply String.eqb_sym. Qed.

Lemma find_row_map {R : Type} (key : R -> uuid) (g : R -> R) k (t : list R) :
  (forall r, key (g r) = key r) ->
  find_row key k (map g t) = option_map g (find_row key k t).
Proof.
  intros Hg. induction t as [|x t IH]; simpl; [reflexivity|].
  rewrite Hg. now destruct (uuid_eqb (key x) k).
Qed.

Lemma find_row_map_key {R S : Type} (key : R -> uuid) (key' : S -> uuid)
    (g : S -> R) k (l : list S) :
  (forall s, key (g s) = key' s) ->
  find_row key k (map g l) = option_map g (find_row key' k l).
Proof.
  intros Hg. induction l as [|x l IH]; simpl; [reflexivity|].
  rewrite Hg. now destruct (uuid_eqb (key' x) k).
Qed.

Lemma find_row_filter {R : Type} (key : R -> uuid) (P : R -> bool) k
    (l : list R) :
  (forall r, key r = k -> P r = true) ->
  find_row key k (filter P l) = find_row key k l.
Proof.
  intros HP. induction l as [|x l IH]; simpl; [reflexivity|].
  destruct (uuid_eqb (key x) k) eqn:E.
  - apply uuid_eqb_eq in E. rewrite (HP x E). simpl.
    apply uuid_eqb_eq in E. now rewrite E.
  - destruct (P x); simpl; [now rewrite E|exact IH].
Qed.

Lemma find_row_In_NoDup {R : Type} (key : R -> uuid) (l : list R) (r : R) :
  NoDup (map key l) -> In r l -> find_row key (key r) l = Some r.
Proof.
  induction l as [|x l IH]; simpl; intros Hnd Hin; [destruct Hin|].
  inversion Hnd as [|? ? Hx Hnd']; subst.
  destruct Hin as [Hin|Hin].
  - subst x. now rewrite uuid_eqb_refl.
  - destruct (uuid_eqb (key x) (key r)) eqn:E.
    + apply uuid_eqb_eq in E. exfalso. apply Hx. rewrite E. now apply in_map.
    + now apply IH.
Qed.

Lemma existsb_key_In {R : Type} (key : R -> uuid) k (t : list R) :
  existsb (fun r => uuid_eqb (key r) k) t = true <-> In k (map key t).
Proof.
  rewrite existsb_exists, in_map_iff. split.
  - intros (r & Hr & E). exists r. split; [now apply uuid_eqb_eq|exact Hr].
  - intros (r & E & Hr). exists r. split; [exact Hr|now apply uuid_eqb_eq].
Qed.

Lemma distinct_In l x : In x (distinct l) <-> In x l.
Proof.
  induction l as [|y l IH]; simpl; [reflexivity|].
  rewrite filter_In, IH. split.
  - intros [H|[H _]]; [now left|now right].
  - intros [H|H]; [now left|].
    destruct (uuid_eqb x y) eqn:E.
    + apply uuid_eqb_eq in E. now left.
    + right. now split.
Qed.

Lemma distinct_NoDup l : NoDup (distinct l).
Proof.
  induction l as [|y l IH]; simpl; [constructor|].
  constructor.
  - rewrite filter_In. intros [_ H]. now rewrite uuid_eqb_refl in H.
  - now apply NoDup_filter.
Qed.

Lemma existsb_on_keys {R : Type} (key : R -> uuid) k (t : list R) :
  existsb (fun r => uuid_eqb (key r) k) t
  = existsb (fun x => uuid_eqb x k) (map key t).
Proof.
  induction t as [|r t IH]; simpl; [reflexivity|now rewrite IH].
Qed.

Section BackfillTotals.
Import SimpleSolution.

Lemma user_totals_keys d :
  map fst (user_totals d)
  = distinct (map user_id (filter contributes (user_actions d))).
Proof.
  unfold user_totals. rewrite map_map. simpl. apply map_id.
Qed.

Lemma user_totals_NoDup d : NoDup (map fst (user_totals d)).
Proof. rewrite user_totals_keys. apply distinct_NoDup. Qed.

(** The rows of [user_totals]: one for every user that has a contributing
    action, holding the sum of the user's contributing actions. *)
Lemma user_totals_spec d u total :
  In (u, total) (user_totals d) <->
  (exists a, In a (user_actions d) /\ contributes a = true /\ user_id a = u)
  /\ total
     = sum_of (case_lbs (action_templates d))
         (filter (fun ua => uuid_eqb (user_id ua) u)
            (filter contributes (user_actions d))).
Proof.
  unfold user_totals. rewrite in_map_iff. split.
  - intros (k & Hk & Hin). inversion Hk; subst; clear Hk.
    apply (proj1 (distinct_In _ _)) in Hin. apply in_map_iff in Hin.
    destruct Hin as (a & Ha & Hin). apply filter_In in Hin.
    split; [|reflexivity]. exists a. now repeat split.
  - intros ((a & Hin & Hc & Ha) & Ht). exists u. split; [now subst total|].
    apply distinct_In. apply in_map_iff. exists a. split; [exact Ha|].
    now apply filter_In.
Qed.

(** An action that does not contribute has [CASE] value 0, so the sum
    over the contributing actions of a user is the sum over all of that
    user's actions. *)
Lemma case_lbs_of_other_actions templates a :
  contributes a = false -> case_lbs templates a = 0.
Proof.
  unfold contributes, case_lbs. intros H.
  apply orb_false_iff in H. destruct H as [Hc Ht].
  destruct (action_template_id a); [discriminate|].
  destruct (custom_emissions_saved a) as [c|]; [|reflexivity].
  now rewrite Hc.
Qed.

Lemma sum_over_contributing templates u acts :
  sum_of (case_lbs templates)
    (filter (fun ua => uuid_eqb (user_id ua) u) (filter contributes acts))
  = sum_of (case_lbs templates)
      (filter (fun ua => uuid_eqb (user_id ua) u) acts).
Proof.
  induction acts as [|a acts IH]; simpl; [reflexivity|].
  destruct (contributes a) eqn:Hc; simpl.
  - destruct (uuid_eqb (user_id a) u); simpl; now rewrite IH.
  - destruct (uuid_eqb (user_id a) u); simpl; [|exact IH].
    rewrite (case_lbs_of_other_actions templates a Hc). lia.
Qed.

Lemma backfilled_row_key now uts r :
  us_user_id (backfilled_row now uts r) = us_user_id r.
Proof.
  unfold backfilled_row.
  now destruct (find_row fst (us_user_id r) uts).
Qed.

Lemma backfilled_row_skip now ut uts r :
  fst ut <> us_user_id r ->
  backfilled_row now (ut :: uts) r = backfilled_row now uts r.
Proof.
  intros H. unfold backfilled_row. simpl.
  apply uuid_eqb_neq in H. now rewrite H.
Qed.

Lemma backfilled_rows_skip now ut uts t :
  ~ In (fst ut) (map us_user_id t) ->
  map (backfilled_row now (ut :: uts)) t = map (backfilled_row now uts) t.
Proof.
  intros H. apply map_ext_in. intros r Hr. apply backfilled_row_skip.
  intros E. apply H. rewrite E. now apply in_map.
Qed.

(** The upserts rewrite the rows of the users they name, in place, and
    append one row for every other user they name. *)
Lemma backfill_upserts_spec now uts t :
  NoDup (map fst uts) ->
  backfill_upserts now uts t
  = (map (backfilled_row now uts) t
     ++ map (inserted_row now) (filter (absent_from t) uts))%list.
Proof.
  unfold backfill_upserts.
  revert t. induction uts as [|ut uts IH]; intros t Hnd; simpl.
  - rewrite app_nil_r. symmetry. rewrite <- (map_id t) at 2.
    apply map_ext. reflexivity.
  - inversion Hnd as [|? ? Hut Hnd']; subst.
    rewrite (IH _ Hnd'). unfold upsert.
    destruct (find_row us_user_id (fst ut) t) as [r0|] eqn:E.
    + assert (Hin : In (fst ut) (map us_user_id t)).
      { destruct (find_row_Some _ _ _ _ E) as [Hr0 Hk].
        rewrite <- Hk. now apply in_map. }
      assert (Habs : absent_from t ut = false).
      { unfold absent_from. apply negb_false_iff.
        now apply existsb_key_In. }
      rewrite Habs. f_equal.
      * clear E Hin Habs. induction t as [|r t IHt]; simpl; [reflexivity|].
        rewrite IHt. f_equal.
        unfold backfilled_row at 2. simpl.
        rewrite (uuid_eqb_sym (fst ut) (us_user_id r)).
        destruct (uuid_eqb (us_user_id r) (fst ut)) eqn:Er.
        -- unfold backfilled_row. simpl.
           apply uuid_eqb_eq in Er. rewrite Er.
           assert (Hn : find_row fst (fst ut) uts = None)
             by now apply find_row_None.
           now rewrite Hn.
        -- reflexivity.
      * f_equal. apply filter_ext_in. intros ut' Hut'.
        unfold absent_from. f_equal.
        rewrite !(existsb_on_keys us_user_id).
        rewrite map_key_update_rows; [reflexivity|intros r; reflexivity].
    + assert (Hnin : ~ In (fst ut) (map us_user_id t))
        by now apply find_row_None.
      assert (Habs : absent_from t ut = true).
      { unfold absent_from. apply negb_true_iff.
        apply not_true_iff_false. intros H. apply Hnin.
        now apply existsb_key_In. }
      rewrite Habs, map_app. simpl. rewrite <- app_assoc. simpl.
      rewrite (backfilled_rows_skip now ut uts t Hnin). f_equal. f_equal.
      * unfold backfilled_row, inserted_row. simpl.
        assert (Hn : find_row fst (fst ut) uts = None)
          by now apply find_row_None.
        now rewrite Hn.
      * f_equal. apply filter_ext_in. intros ut' Hut'.
        unfold absent_from. rewrite existsb_app. simpl.
        assert (Hne : uuid_eqb (fst ut) (fst ut') = false).
        { apply uuid_eqb_neq. intros Heq. apply Hut. rewrite Heq.
          now apply in_map. }
        now rewrite Hne, !orb_false_r.
Qed.

End BackfillTotals.

Section BackfillTotalsResult.
Import SimpleSolution.

Lemma mirror_total_all t : mirror_total (fun _ => true) t = map in_line t.
Proof.
  unfold mirror_total. apply map_ext. intros r. simpl.
  destruct r as [k total tel lu]. unfold in_line. simpl.
  destruct tel as [e|]; [|reflexivity].
  destruct (e =? total) eqn:E; simpl; [|reflexivity].
  apply Z.eqb_eq in E. now subst e.
Qed.

(** The [user_stats] table [backfill_totals] leaves. *)
Lemma backfill_totals_user_stats now d :
  user_stats (backfill_totals now d)
  = map in_line
      (map (backfilled_row now (user_totals d)) (user_stats d)
       ++ map (inserted_row now)
            (filter (absent_from (user_stats d)) (user_totals d)))%list.
Proof.
  unfold backfill_totals. simpl. rewrite mirror_total_all.
  fold (backfill_upserts now (user_totals d) (user_stats d)).
  now rewrite (backfill_upserts_spec now _ _ (user_totals_NoDup d)).
Qed.

Lemma backfill_totals_keeps_actions now d :
  user_actions (backfill_totals now d) = user_actions d
  /\ action_templates (backfill_totals now d) = action_templates d
  /\ profiles (backfill_totals now d) = profiles d.
Proof. now repeat split. Qed.

Lemma user_totals_after_backfill now d :
  user_totals (backfill_totals now d) = user_totals d.
Proof. reflexivity. Qed.

(** Every user with a contributing action gets the sum of that user's
    actions, rounded once to six decimals. *)
Lemma backfill_totals_sets_user_total now d u total :
  In (u, total) (user_totals d) ->
  exists r,
    find_row us_user_id u (user_stats (backfill_totals now d)) = Some r
    /\ total_lbs r = round_div total 100000.
Proof.
  intros Hin. rewrite backfill_totals_user_stats.
  pose proof (find_row_In_NoDup fst (user_totals d) (u, total)
                (user_totals_NoDup d) Hin) as Hfind. simpl in Hfind.
  rewrite find_row_map by reflexivity.
  destruct (find_row us_user_id u (user_stats d)) as [r0|] eqn:E.
  - rewrite find_row_app_present.
    2:{ rewrite find_row_map by (intros r; apply backfilled_row_key).
        now rewrite E. }
    rewrite find_row_map by (intros r; apply backfilled_row_key).
    rewrite E. simpl. eexists. split; [reflexivity|]. simpl.
    unfold backfilled_row.
    destruct (find_row_Some _ _ _ _ E) as [_ Hk]. rewrite Hk, Hfind.
    reflexivity.
  - rewrite find_row_app_absent.
    2:{ rewrite find_row_map by (intros r; apply backfilled_row_key).
        now rewrite E. }
    rewrite (find_row_map_key us_user_id fst (inserted_row now))
      by reflexivity.
    rewrite find_row_filter.
    + rewrite Hfind. simpl. eexists. split; reflexivity.
    + intros ut Hut. unfold absent_from. apply negb_true_iff.
      apply not_true_iff_false. intros H.
      apply existsb_key_In in H. rewrite Hut in H.
      now apply find_row_None in E.
Qed.

(** The rows of the other users keep their totals. *)
Lemma backfill_totals_keeps_other_users now d u :
  find_row fst u (user_totals d) = None ->
  find_row us_user_id u (user_stats (backfill_totals now d))
  = option_map in_line (find_row us_user_id u (user_stats d)).
Proof.
  intros Hnone. rewrite backfill_totals_user_stats.
  rewrite find_row_map by reflexivity.
  destruct (find_row us_user_id u (user_stats d)) as [r0|] eqn:E.
  - rewrite find_row_app_present.
    2:{ rewrite find_row_map by (intros r; apply backfilled_row_key).
        now rewrite E. }
    rewrite find_row_map by (intros r; apply backfilled_row_key).
    rewrite E. simpl. unfold backfilled_row.
    destruct (find_row_Some _ _ _ _ E) as [_ Hk]. now rewrite Hk, Hnone.
  - rewrite find_row_app_absent.
    2:{ rewrite find_row_map by (intros r; apply backfilled_row_key).
        now rewrite E. }
    rewrite (find_row_map_key us_user_id fst (inserted_row now))
      by reflexivity.
    assert (Hf : find_row fst u
                   (filter (absent_from (user_stats d)) (user_totals d))
                 = None).
    { apply find_row_None. apply find_row_None in Hnone.
      intros H. apply Hnone. apply in_map_iff in H.
      destruct H as (ut & Hk & Hin). apply filter_In in Hin.
      apply in_map_iff. exists ut. now split. }
    now rewrite Hf.
Qed.

Lemma backfilled_twice now now' uts r :
  in_line (backfilled_row now uts (in_line (backfilled_row now' uts r)))
  = in_line (backfilled_row now uts r).
Proof.
  unfold backfilled_row at 2.
  destruct (find_row fst (us_user_id r) uts) as [ut|] eqn:E;
    unfold backfilled_row, in_line; simpl; now rewrite E.
Qed.

Lemma inserted_then_backfilled now now' uts ut :
  NoDup (map fst uts) ->
  In ut uts ->
  in_line (backfilled_row now uts (in_line (inserted_row now' ut)))
  = in_line (inserted_row now ut).
Proof.
  intros Hnd Hin. unfold backfilled_row, in_line, inserted_row. simpl.
  now rewrite (find_row_In_NoDup fst uts ut Hnd Hin).
Qed.

Lemma filter_none {A : Type} (P : A -> bool) (l : list A) :
  (forall x, In x l -> P x = false) -> filter P l = [].
Proof.
  induction l as [|x l IH]; intros H; simpl; [reflexivity|].
  rewrite (H x (or_introl eq_refl)). apply IH.
  intros y Hy. apply H. now right.
Qed.

(** After a first pass every user named by the totals has a row. *)
Lemma none_absent_after_backfill now uts t ut :
  In ut uts ->
  absent_from
    (map in_line
       (map (backfilled_row now uts) t
        ++ map (inserted_row now) (filter (absent_from t) uts)))
    ut
  = false.
Proof.
  intros Hin. unfold absent_from at 1. apply negb_false_iff.
  apply existsb_key_In.
  rewrite map_map, map_app, !map_map. simpl.
  apply in_or_app.
  destruct (absent_from t ut) eqn:E.
  - right. apply in_map_iff. exists ut. split; [reflexivity|].
    now apply filter_In.
  - left. unfold absent_from in E. apply negb_false_iff in E.
    apply existsb_key_In in E.
    erewrite map_ext; [exact E|]. intros r. apply backfilled_row_key.
Qed.

(** Running [backfill_totals] on the state it has produced changes
    nothing more. *)
Lemma backfill_totals_idempotent now now' d :
  backfill_totals now (backfill_totals now' d) = backfill_totals now d.
Proof.
  assert (Hstats :
    user_stats (backfill_totals now (backfill_totals now' d))
    = user_stats (backfill_totals now d)).
  { rewrite (backfill_totals_user_stats now (backfill_totals now' d)).
    rewrite user_totals_after_backfill.
    rewrite (backfill_totals_user_stats now' d).
    rewrite (backfill_totals_user_stats now d).
    set (uts := user_totals d). set (t := user_stats d).
    assert (Hnd : NoDup (map fst uts)) by apply user_totals_NoDup.
    rewrite (filter_none
               (absent_from
                  (map in_line
                     (map (backfilled_row now' uts) t
                      ++ map (inserted_row now')
                           (filter (absent_from t) uts))))
               uts)
      by (intros ut Hut; now apply none_absent_after_backfill).
    simpl. rewrite app_nil_r.
    rewrite !map_app, !map_map. f_equal.
    - apply map_ext. intros r. apply backfilled_twice.
    - apply map_ext_in. intros ut Hut. apply filter_In in Hut.
      now apply inserted_then_backfilled. }
  unfold backfill_totals in *. simpl in *. now rewrite Hstats.
Qed.

End BackfillTotalsResult.

Section BulkBackfill.
Import EmissionLogging.

Lemma insert_do_nothing_spec r t :
  insert_do_nothing r t
  = match find_row action_id (action_id r) t with
    | Some _ => (t, false)
    | None => ((t ++ [r])%list, true)
    end.
Proof. reflexivity. Qed.

Lemma insert_do_nothing_present r t :
  find_row action_id (action_id r) (fst (insert_do_nothing r t)) <> None.
Proof.
  unfold insert_do_nothing.
  destruct (find_row action_id (action_id r) t) eqn:E; simpl.
  - congruence.
  - rewrite find_row_app_absent by exact E. simpl.
    now rewrite uuid_eqb_refl.
Qed.

(** After the bulk insert every action of the batch is in the table. *)
Lemma insert_batch_all_present batch t a :
  In a batch ->
  find_row action_id (b_action_id a) (fst (fst (insert_batch batch t)))
  <> None.
Proof.
  revert t. induction batch as [|b batch IH]; intros t Hin; [destruct Hin|].
  simpl.
  pose proof (insert_do_nothing_present
                {| action_id := b_action_id b; ua_user_id := b_user_id b;
                   emissions_saved_lbs := b_lbs b;
                   verified := b_verified b |} t) as Hb.
  destruct (insert_do_nothing _ t) as [t1 inserted]. simpl in Hb.
  destruct Hin as [Hin|Hin].
  - subst b.
    pose proof (insert_batch_keeps batch t1 (b_action_id a) Hb) as Hk.
    destruct (insert_batch batch t1) as [[t2 ins] skip].
    now destruct inserted.
  - specialize (IH t1 Hin).
    destruct (insert_batch batch t1) as [[t2 ins] skip].
    now destruct inserted.
Qed.

(** A batch whose actions are all in the table already is skipped row by
    row, and is no error. *)
Lemma insert_batch_all_duplicates batch t :
  (forall a, In a batch -> find_row action_id (b_action_id a) t <> None) ->
  insert_batch batch t = (t, 0, Z.of_nat (List.length batch)).
Proof.
  induction batch as [|b batch IH]; intros H; [reflexivity|].
  cbn [insert_batch]. rewrite insert_do_nothing_spec. cbn [action_id].
  destruct (find_row action_id (b_action_id b) t) eqn:E.
  - rewrite IH by (intros a Ha; apply H; now right).
    f_equal. cbn [List.length]. lia.
  - exfalso. now apply (H b (or_introl eq_refl)).
Qed.

(** The bulk insert only appends: it counts every row of the batch as
    inserted or skipped, and the rows already there stay. *)
Lemma insert_batch_appends batch t :
  exists added,
    fst (fst (insert_batch batch t)) = (t ++ added)%list
    /\ snd (fst (insert_batch batch t)) + snd (insert_batch batch t)
       = Z.of_nat (List.length batch)
    /\ snd (fst (insert_batch batch t)) = Z.of_nat (List.length added).
Proof.
  revert t. induction batch as [|b batch IH]; intros t.
  - exists []. simpl. now rewrite app_nil_r.
  - cbn [insert_batch]. rewrite insert_do_nothing_spec. cbn [action_id].
    destruct (find_row action_id (b_action_id b) t) eqn:E.
    + destruct (IH t) as (added & H1 & H2 & H3).
      destruct (insert_batch batch t) as [[t2 ins] skip]. simpl in *.
      exists added. repeat split; [exact H1| |exact H3].
      rewrite Zpos_P_of_succ_nat. lia.
    + match goal with |- context [insert_batch batch ?t1] =>
        destruct (IH t1) as (added & H1 & H2 & H3);
        destruct (insert_batch batch t1) as [[t2 ins] skip]
      end.
      simpl in *. eexists (_ :: added). repeat split.
      * rewrite H1, <- app_assoc. reflexivity.
      * rewrite Zpos_P_of_succ_nat. lia.
      * cbn [List.length]. lia.
Qed.

Lemma find_user_sums users t u :
  In u users ->
  verified_rows_of u t <> [] ->
  find_row fst u (user_sums users t)
  = Some (u, (sum_of emissions_saved_lbs (verified_rows_of u t),
              Z.of_nat (List.length (verified_rows_of u t)))).
Proof.
  intros Hin Hrows. induction users as [|x users IH]; [destruct Hin|].
  unfold user_sums. cbn [flat_map]. fold (user_sums users t).
  destruct (uuid_eqb x u) eqn:E.
  - apply uuid_eqb_eq in E. subst x.
    destruct (verified_rows_of u t) as [|r rows] eqn:Er; [congruence|].
    cbn [app find_row fst]. now rewrite uuid_eqb_refl.
  - assert (Hin' : In u users).
    { destruct Hin as [Hin|Hin]; [|exact Hin].
      apply uuid_eqb_neq in E. congruence. }
    destruct (verified_rows_of x t) as [|r rows]; cbn [app].
    + now apply IH.
    + cbn [find_row fst]. rewrite E. now apply IH.
Qed.

Lemma no_user_sums users t u :
  ~ In u users -> find_row fst u (user_sums users t) = None.
Proof.
  intros Hnin. apply find_row_None. intros H. apply Hnin.
  apply in_map_iff in H. destruct H as (s & Hk & Hs).
  unfold user_sums in Hs. apply in_flat_map in Hs.
  destruct Hs as (x & Hx & Hs).
  destruct (verified_rows_of x t); [destruct Hs|].
  destruct Hs as [Hs|[]]. subst s. simpl in Hk. now subst x.
Qed.

Lemma update_from_sums_twice now now' sums t :
  update_from_sums now sums (update_from_sums now' sums t)
  = update_from_sums now sums t.
Proof.
  unfold update_from_sums. rewrite map_map. apply map_ext. intros r.
  destruct (find_row fst (us_user_id r) sums) as [s|] eqn:E; simpl;
    now rewrite E.
Qed.

Lemma find_row_update_from_sums now sums t u :
  find_row us_user_id u (update_from_sums now sums t)
  = option_map
      (fun r =>
         match find_row fst u sums with
         | Some s =>
             {| us_user_id := us_user_id r;
                total_emissions_lbs := fst (snd s);
                action_count := snd (snd s);
                last_updated := now |}
         | None => r
         end)
      (find_row us_user_id u t).
Proof.
  unfold update_from_sums.
  induction t as [|r t IH]; simpl; [reflexivity|].
  assert (Hk : us_user_id
                 match find_row fst (us_user_id r) sums with
                 | Some s =>
                     {| us_user_id := us_user_id r;
                        total_emissions_lbs := fst (snd s);
                        action_count := snd (snd s);
                        last_updated := now |}
                 | None => r
                 end = us_user_id r)
    by now destruct (find_row fst (us_user_id r) sums).
  rewrite Hk. destruct (uuid_eqb (us_user_id r) u) eqn:E; [|exact IH].
  apply uuid_eqb_eq in E. subst u. reflexivity.
Qed.

End BulkBackfill.

Section BulkBackfillResult.
Import EmissionLogging.

Lemma bulk_backfill_actions_state now batch d :
  fst (bulk_backfill_actions now batch d)
  = let actions' := fst (fst (insert_batch batch (user_actions d))) in
    {| user_actions := actions';
       user_stats :=
         update_from_sums now
           (user_sums (affected batch actions') actions') (user_stats d);
       global_emissions :=
         {| total_lbs_saved :=
              sum_of emissions_saved_lbs (filter verified actions');
            total_actions := total_actions (global_emissions d);
            ge_last_updated := now |};
       emission_events := emission_events d |}.
Proof.
  unfold bulk_backfill_actions.
  now destruct (insert_batch batch (user_actions d)) as [[t ins] skip].
Qed.

Lemma bulk_backfill_actions_result now batch d :
  snd (bulk_backfill_actions now batch d)
  = let actions' := fst (fst (insert_batch batch (user_actions d))) in
    {| bf_success := true;
       inserted_count := snd (fst (insert_batch batch (user_actions d)));
       skipped_count := snd (insert_batch batch (user_actions d));
       bf_global_total_lbs :=
         sum_of emissions_saved_lbs (filter verified actions');
       affected_users :=
         Z.of_nat (List.length (affected batch actions')) |}.
Proof.
  unfold bulk_backfill_actions.
  now destruct (insert_batch batch (user_actions d)) as [[t ins] skip].
Qed.

(** Every action of the batch has a row afterwards, and the user of that
    row is one of the affected users. *)
Lemma batch_users_are_affected batch t a :
  In a batch ->
  exists row,
    find_row action_id (b_action_id a) (fst (fst (insert_batch batch t)))
    = Some row
    /\ In (ua_user_id row)
          (affected batch (fst (fst (insert_batch batch t)))).
Proof.
  intros Hin.
  pose proof (insert_batch_all_present batch t a Hin) as Hp.
  destruct (find_row action_id (b_action_id a)
              (fst (fst (insert_batch batch t)))) as [row|] eqn:E;
    [|congruence].
  exists row. split; [reflexivity|].
  destruct (find_row_Some _ _ _ _ E) as [Hrow Hid].
  unfold affected. apply distinct_In. apply in_map. apply filter_In.
  split; [exact Hrow|]. apply existsb_exists. exists a.
  split; [exact Hin|]. rewrite Hid. apply uuid_eqb_refl.
Qed.

(** Re-running the identical batch: nothing is inserted, every row is
    skipped, and the state is the one a single run leaves. *)
Lemma bulk_backfill_actions_idempotent now now' batch d :
  fst (bulk_backfill_actions now batch
         (fst (bulk_backfill_actions now' batch d)))
  = fst (bulk_backfill_actions now batch d)
  /\ inserted_count
       (snd (bulk_backfill_actions now batch
               (fst (bulk_backfill_actions now' batch d))))
     = 0
  /\ skipped_count
       (snd (bulk_backfill_actions now batch
               (fst (bulk_backfill_actions now' batch d))))
     = Z.of_nat (List.length batch).
Proof.
  rewrite !bulk_backfill_actions_result, !bulk_backfill_actions_state.
  cbv zeta. cbn [user_actions user_stats global_emissions emission_events].
  rewrite (insert_batch_all_duplicates batch
             (fst (fst (insert_batch batch (user_actions d)))))
    by (intros a Ha; now apply insert_batch_all_present).
  cbn [fst snd]. rewrite update_from_sums_twice. now repeat split.
Qed.

End BulkBackfillResult.

Section BulkBackfillService.
Variable DB : Type.
Variable rpc :
  list Services.action_jsonb -> option string -> DB
  -> DB * Services.rpc_reply Services.backfill_row.

(** [bulkBackfillActions] hands the database function the verified
    actions only, and does not call it when there is none. *)
Lemma bulkBackfillActions_sends_verified_only request d :
  fst (Services.bulkBackfillActions DB rpc request d)
  = match filter Services.log_verified
            (coalesce (Services.actions request) []) with
    | [] => d
    | verifiedActions =>
        fst (rpc (map Services.to_jsonb verifiedActions)
               (if Services.missing (Services.idempotency_key request)
                then None else Services.idempotency_key request)
               d)
    end.
Proof.
  unfold Services.bulkBackfillActions, Services.bulkBackfillActions_try.
  destruct (Services.actions request) as [[|a given]|];
    [reflexivity| |reflexivity].
  cbn [coalesce].
  destruct (filter Services.log_verified (a :: given)) as [|v vs];
    [reflexivity|].
  destruct (rpc _ _ d) as [d' [[|result rest]|m]]; reflexivity.
Qed.
End BulkBackfillService.

(** C5.  [backfill_totals] does not set a user's total to the sum of
    that user's committed events.  Three actions of 0.01 kg are committed
    by the insert trigger as 0.022046 lb each, which leaves the user total
    and the global total at 0.066138; [backfill_totals] then stores
    0.066139, the rounding of the unrounded sum 0.0661386, as the user
    total and as the global total, with no action added or removed. *)
Theorem backfill_moves_committed_totals :
  let d := three_small_actions in
  let d' := SimpleSolution.backfill_totals 9 d in
  map (SimpleSolution.v_lbs small_template) (SimpleSolution.user_actions d)
  = [22046; 22046; 22046]
  /\ SimpleSolution.get_user_total "user1"%string d = 66138
  /\ SimpleSolution.get_global_total d = 66138
  /\ SimpleSolution.user_actions d' = SimpleSolution.user_actions d
  /\ SimpleSolution.get_user_total "user1"%string d' = 66139
  /\ SimpleSolution.get_global_total d' = 66139.
Proof. cbv zeta. repeat split; reflexivity. Qed.

(* ------------------------------------------------------------------ *)
(** ** Leaderboard *)

Lemma StronglySorted_weaken {A : Type} (P Q : A -> A -> Prop) (l : list A) :
  (forall a b, P a b -> Q a b) -> StronglySorted P l -> StronglySorted Q l.
Proof.
  intros HPQ. induction 1 as [|a l _ IH Hall]; constructor; [exact IH|].
  eapply Forall_impl; [|exact Hall]. intros b. apply HPQ.
Qed.

Lemma leaderboard_before_spec a b :
  AiVerification.leaderboard_before a b = true <-> ranked_not_after a b.
Proof.
  unfold AiVerification.leaderboard_before, ranked_not_after.
  rewrite orb_true_iff, andb_true_iff, Z.ltb_lt, Z.eqb_eq, Z.leb_le.
  reflexivity.
Qed.

Lemma leaderboard_before_total a b :
  AiVerification.leaderboard_before a b = false ->
  AiVerification.leaderboard_before b a = true.
Proof.
  intros H. apply leaderboard_before_spec.
  assert (Hn : ~ ranked_not_after a b).
  { intros H1. apply leaderboard_before_spec in H1. congruence. }
  unfold ranked_not_after in *. lia.
Qed.

Lemma leaderboard_before_trans a b c :
  AiVerification.leaderboard_before a b = true ->
  AiVerification.leaderboard_before b c = true ->
  AiVerification.leaderboard_before a c = true.
Proof.
  rewrite !leaderboard_before_spec. unfold ranked_not_after. lia.
Qed.


Lemma simple_before_total a b :
  SimpleSolution.simple_before a b = false ->
  SimpleSolution.simple_before b a = true.
Proof.
  unfold SimpleSolution.simple_before. rewrite Z.leb_gt, Z.leb_le. lia.
Qed.

Lemma simple_before_trans a b c :
  SimpleSolution.simple_before a b = true ->
  SimpleSolution.simple_before b c = true ->
  SimpleSolution.simple_before a c = true.
Proof. unfold SimpleSolution.simple_before. rewrite !Z.leb_le. lia. Qed.

(** The rows [get_leaderboard] ranks are the users of [users] that have a
    [user_stats] row with a positive total. *)
Lemma ranked_users_spec d r :
  In r (AiVerification.ranked_users d) <->
  exists us u,
    In us (AiVerification.user_stats d)
    /\ 0 < AiVerification.total_emissions_lbs us
    /\ In u (AiVerification.users d)
    /\ AiVerification.u_user_id u = AiVerification.us_user_id us
    /\ AiVerification.ru_user_id r = AiVerification.us_user_id us
    /\ AiVerification.ru_total_emissions_lbs r
       = AiVerification.total_emissions_lbs us
    /\ AiVerification.last_verified_action_at r
       = coalesce
           (AiVerification.max_verified_at (AiVerification.us_user_id us)
              (AiVerification.user_actions d))
           (AiVerification.last_updated us)
    /\ r = {| AiVerification.ru_user_id := AiVerification.us_user_id us;
              AiVerification.ru_username := AiVerification.username u;
              AiVerification.ru_total_emissions_lbs :=
                AiVerification.total_emissions_lbs us;
              AiVerification.ru_action_count :=
                AiVerification.action_count us;
              AiVerification.ru_last_update_timestamp :=
                AiVerification.last_updated us;
              AiVerification.last_verified_action_at :=
                coalesce
                  (AiVerification.max_verified_at
                     (AiVerification.us_user_id us)
                     (AiVerification.user_actions d))
                  (AiVerification.last_updated us) |}.
Proof.
  unfold AiVerification.ranked_users. rewrite in_flat_map. split.
  - intros (us & Hus & Hr). apply filter_In in Hus. destruct Hus as [Hus Hpos].
    apply in_map_iff in Hr. destruct Hr as (u & Hr & Hu).
    apply filter_In in Hu. destruct Hu as [Hu Hid].
    exists us, u. subst r. simpl.
    apply Z.ltb_lt in Hpos. apply uuid_eqb_eq in Hid. now repeat split.
  - intros (us & u & Hus & Hpos & Hu & Hid & _ & _ & _ & Hr).
    exists us. split.
    + apply filter_In. split; [exact Hus|now apply Z.ltb_lt].
    + apply in_map_iff. exists u. split; [now symmetry|].
      apply filter_In. split; [exact Hu|now apply uuid_eqb_eq].
Qed.

Lemma get_leaderboard_users limit d :
  map AiVerification.lb_user_id (AiVerification.get_leaderboard limit d)
  = firstn limit
      (map AiVerification.ru_user_id
         (order_by AiVerification.leaderboard_before
            (AiVerification.ranked_users d))).
Proof.
  unfold AiVerification.get_leaderboard.
  rewrite <- !firstn_map, !map_map. simpl.
  rewrite <- (map_map snd AiVerification.ru_user_id), row_number_rows.
  reflexivity.
Qed.


Lemma get_leaderboard_simple_users limit d :
  map SimpleSolution.lb_user_id (SimpleSolution.get_leaderboard_simple limit d)
  = firstn limit
      (map SimpleSolution.ru_user_id
         (order_by SimpleSolution.simple_before (simple_candidates d))).
Proof.
  unfold SimpleSolution.get_leaderboard_simple, SimpleSolution.ranked_users.
  fold (simple_candidates d).
  rewrite map_map. simpl.
  rewrite <- (map_map snd SimpleSolution.ru_user_id), row_number_rows.
  rewrite order_by_of_sorted; [now rewrite firstn_map|].
  apply firstn_sorted. apply StronglySorted_Sorted.
  apply order_by_sorted;
    [exact simple_before_total|exact simple_before_trans].
Qed.




(** *** Orders that respect the keys *)

Section OrderedBy.
Context {R : Type}.
Variable before : R -> R -> bool.

Lemma StronglySorted_In_cases (P : R -> R -> Prop) (l : list R) x y :
  StronglySorted P l -> In x l -> In y l -> x = y \/ P x y \/ P y x.
Proof.
  induction 1 as [|a l _ IH Hall]; intros Hx Hy; [destruct Hx|].
  rewrite Forall_forall in Hall.
  destruct Hx as [Hx|Hx], Hy as [Hy|Hy]; subst.
  - now left.
  - right. left. now apply Hall.
  - right. right. now apply Hall.
  - now apply IH.
Qed.

(** Rows without ties have one order that respects the keys. *)
Lemma sorted_permutation_unique (o1 o2 : list R) :
  (forall a b,
     In a o1 -> In b o1 ->
     before a b = true -> before b a = true -> a = b) ->
  Permutation o1 o2 ->
  StronglySorted (fun a b => before a b = true) o1 ->
  StronglySorted (fun a b => before a b = true) o2 ->
  o1 = o2.
Proof.
  revert o2. induction o1 as [|a o1 IH]; intros o2 Hanti Hperm Hs1 Hs2.
  - apply Permutation_nil in Hperm. now subst.
  - destruct o2 as [|b o2].
    { apply Permutation_sym, Permutation_nil in Hperm. discriminate. }
    inversion Hs1 as [|? ? Hs1' Hall1]; subst.
    inversion Hs2 as [|? ? Hs2' Hall2]; subst.
    rewrite Forall_forall in Hall1, Hall2.
    assert (Hab : a = b).
    { assert (Ha : In a (b :: o2))
        by (apply (Permutation_in _ Hperm); now left).
      assert (Hb : In b (a :: o1))
        by (apply (Permutation_in _ (Permutation_sym Hperm)); now left).
      destruct Ha as [Ha|Ha]; [now symmetry|].
      destruct Hb as [Hb|Hb]; [exact Hb|].
      apply Hanti; [now left|now right|now apply Hall1|now apply Hall2]. }
    subst b. f_equal. apply IH.
    + intros x y Hx Hy. apply Hanti; now right.
    + now apply Permutation_cons_inv with a.
    + exact Hs1'.
    + exact Hs2'.
Qed.

Lemma ordered_by_unique (rows o1 o2 : list R) :
  no_ties before rows ->
  ordered_by before rows o1 -> ordered_by before rows o2 -> o1 = o2.
Proof.
  intros [_ Hanti] [Hp1 Hs1] [Hp2 Hs2].
  apply sorted_permutation_unique; try assumption.
  - intros a b Ha Hb.
    apply Hanti; apply (Permutation_in _ (Permutation_sym Hp1)); assumption.
  - now rewrite <- Hp1.
Qed.

Lemma no_ties_permutation (rows rows' : list R) :
  Permutation rows rows' -> no_ties before rows -> no_ties before rows'.
Proof.
  intros Hp [Hnd Hanti]. split.
  - now apply (Permutation_NoDup Hp).
  - intros a b Ha Hb.
    apply Hanti; apply (Permutation_in _ (Permutation_sym Hp)); assumption.
Qed.

Lemma NoDup_firstn_of (n : nat) (l : list R) : NoDup l -> NoDup (firstn n l).
Proof.
  revert l. induction n as [|n IH]; intros l Hnd; simpl; [constructor|].
  destruct l as [|x l]; [constructor|].
  inversion Hnd as [|? ? Hx Hnd']; subst. constructor; [|now apply IH].
  intros Hin. apply Hx. now apply firstn_incl in Hin.
Qed.

Lemma no_ties_firstn (n : nat) (rows : list R) :
  no_ties before rows -> no_ties before (firstn n rows).
Proof.
  intros [Hnd Hanti]. split.
  - now apply NoDup_firstn_of.
  - intros a b Ha Hb. apply Hanti; now apply firstn_incl with n.
Qed.

Hypothesis before_total : forall a b, before a b = false -> before b a = true.
Hypothesis before_trans :
  forall a b c, before a b = true -> before b c = true -> before a c = true.

(** [order_by] gives one of the orders a query may return. *)
Lemma ordered_by_order_by (rows : list R) :
  ordered_by before rows (order_by before rows).
Proof.
  split.
  - apply Permutation_sym, order_by_perm.
  - now apply order_by_sorted.
Qed.

End OrderedBy.

Lemma StronglySorted_under_map {A B : Type} (f : A -> B)
    (P : B -> B -> Prop) (l : list A) :
  StronglySorted (fun x y => P (f x) (f y)) l <->
  StronglySorted P (map f l).
Proof.
  induction l as [|a l IH]; simpl.
  - split; constructor.
  - split; intros H; inversion H as [|? ? Hs Hall]; subst;
      (constructor; [now apply IH|]).
    + rewrite Forall_forall in *. intros y Hy.
      apply in_map_iff in Hy. destruct Hy as (x & <- & Hx). now apply Hall.
    + rewrite Forall_forall in *. intros x Hx. apply Hall. now apply in_map.
Qed.

(** [ROW_NUMBER()] numbers the rows upward in the order it is given. *)
Lemma row_number_sorted {R : Type} (P : R -> R -> Prop) (start : Z)
    (l : list R) :
  StronglySorted P l ->
  StronglySorted (fun x y => fst x < fst y /\ P (snd x) (snd y))
    (row_number start l).
Proof.
  intros Hs. revert start.
  induction Hs as [|a l _ IH Hall]; intros start; simpl; constructor.
  - apply IH.
  - rewrite Forall_forall in *. intros [n r] Hin. simpl. split.
    + clear -Hin. revert start Hin.
      induction l as [|b l IHl]; intros start Hin; [destruct Hin|].
      simpl in Hin. destruct Hin as [Hin|Hin].
      * inversion Hin. lia.
      * specialize (IHl (start + 1) Hin). lia.
    + apply Hall. rewrite <- (row_number_rows (start + 1) l).
      now apply (in_map snd) in Hin.
Qed.

Lemma row_number_same_row {R : Type} (start : Z) (l : list R) x y :
  NoDup l ->
  In x (row_number start l) -> In y (row_number start l) ->
  snd x = snd y -> x = y.
Proof.
  revert start. induction l as [|r l IH]; intros start Hnd Hx Hy Heq;
    [destruct Hx|].
  inversion Hnd as [|? ? Hr Hnd']; subst. simpl in Hx, Hy.
  assert (Hin : forall z, In z (row_number (start + 1) l) -> In (snd z) l).
  { intros z Hz. rewrite <- (row_number_rows (start + 1) l).
    now apply in_map. }
  destruct Hx as [Hx|Hx], Hy as [Hy|Hy].
  - congruence.
  - exfalso. apply Hr. subst x. simpl in Heq. rewrite Heq. now apply Hin.
  - exfalso. apply Hr. subst y. simpl in Heq. rewrite <- Heq. now apply Hin.
  - now apply (IH (start + 1)).
Qed.

(** *** The results of the two leaderboard functions *)

Lemma ranked_above_spec a b :
  ranked_above a b <->
  AiVerification.leaderboard_before a b = true
  /\ AiVerification.leaderboard_before b a = false.
Proof.
  unfold ranked_above, AiVerification.leaderboard_before.
  rewrite orb_true_iff, orb_false_iff, !andb_true_iff, andb_false_iff.
  rewrite !Z.ltb_lt, !Z.eqb_eq, Z.leb_le, Z.ltb_ge, Z.eqb_neq, Z.leb_gt.
  lia.
Qed.



(** The function [AiVerification.get_leaderboard] computes one of the
    results the query may return. *)
Lemma get_leaderboard_is_a_result limit d :
  get_leaderboard_returns limit d (AiVerification.get_leaderboard limit d).
Proof.
  exists (order_by AiVerification.leaderboard_before
            (AiVerification.ranked_users d)),
         (row_number 1
            (order_by AiVerification.leaderboard_before
               (AiVerification.ranked_users d))).
  split; [|split].
  - apply ordered_by_order_by;
      [exact leaderboard_before_total|exact leaderboard_before_trans].
  - split; [reflexivity|].
    eapply StronglySorted_weaken;
      [|apply (row_number_sorted
                 (fun a b => AiVerification.leaderboard_before a b = true))].
    + intros x y [_ H]. exact H.
    + apply order_by_sorted;
        [exact leaderboard_before_total|exact leaderboard_before_trans].
  - reflexivity.
Qed.

(** Without ties the query has one result. *)
Lemma get_leaderboard_returns_unique limit d board :
  no_ties AiVerification.leaderboard_before (AiVerification.ranked_users d) ->
  get_leaderboard_returns limit d board ->
  board = AiVerification.get_leaderboard limit d.
Proof.
  intros Hno (numbered & returned & Hn & Hr & Hboard).
  pose proof (ordered_by_order_by AiVerification.leaderboard_before
                leaderboard_before_total leaderboard_before_trans
                (AiVerification.ranked_users d)) as Hf.
  assert (Hnum : numbered
                 = order_by AiVerification.leaderboard_before
                     (AiVerification.ranked_users d))
    by (eapply ordered_by_unique; eassumption).
  subst numbered.
  assert (Hret : returned
                 = row_number 1
                     (order_by AiVerification.leaderboard_before
                        (AiVerification.ranked_users d))).
  { destruct Hr as [Hp Hs]. symmetry.
    apply (sorted_permutation_unique
             (fun x y => AiVerification.leaderboard_before (snd x) (snd y)));
      [|exact Hp| |exact Hs].
    - intros x y Hx Hy Hxy Hyx.
      destruct (no_ties_permutation _ _ _ (proj1 Hf) Hno) as [Hnd Hanti].
      apply (row_number_same_row 1 _ x y Hnd Hx Hy).
      apply Hanti; try assumption.
      + rewrite <- (row_number_rows 1 (order_by _ _)). now apply in_map.
      + rewrite <- (row_number_rows 1 (order_by _ _)). now apply in_map.
    - eapply StronglySorted_weaken;
        [|apply (row_number_sorted
                   (fun a b =>
                      AiVerification.leaderboard_before a b = true))].
      + intros x y [_ H]. exact H.
      + apply order_by_sorted;
          [exact leaderboard_before_total|exact leaderboard_before_trans]. }
  subst returned board. reflexivity.
Qed.

(** Candidates with different totals do not tie. *)
Lemma no_ties_of_distinct_totals (rows : list AiVerification.ranked_user) :
  NoDup (map AiVerification.ru_total_emissions_lbs rows) ->
  no_ties AiVerification.leaderboard_before rows.
Proof.
  intros Hnd. split.
  - now apply NoDup_map_inv in Hnd.
  - intros a b Ha Hb Hab Hba.
    apply leaderboard_before_spec in Hab, Hba.
    unfold ranked_not_after in *.
    assert (Heq : AiVerification.ru_total_emissions_lbs a
                  = AiVerification.ru_total_emissions_lbs b) by lia.
    clear Hab Hba. induction rows as [|r rows IH]; [destruct Ha|].
    simpl in Hnd. inversion Hnd as [|? ? Hr Hnd']; subst.
    destruct Ha as [Ha|Ha], Hb as [Hb|Hb]; subst.
    + reflexivity.
    + exfalso. apply Hr. rewrite Heq. now apply in_map.
    + exfalso. apply Hr. rewrite <- Heq. now apply in_map.
    + now apply IH.
Qed.


Lemma get_leaderboard_result_shape limit d board :
  get_leaderboard_returns limit d board ->
  exists returned,
    board = firstn limit (map leaderboard_row_of returned)
    /\ Permutation (map snd returned) (AiVerification.ranked_users d)
    /\ StronglySorted ranked_not_after (map snd returned)
    /\ Permutation (map fst returned)
         (map Z.of_nat
            (seq 1 (List.length (AiVerification.ranked_users d))))
    /\ forall x y,
         In x returned -> In y returned ->
         ranked_above (snd x) (snd y) -> fst x < fst y.
Proof.
  intros (numbered & returned & [Hpn Hsn] & [Hpr Hsr] & Hb).
  exists returned. split; [exact Hb|]. split; [|split; [|split]].
  - rewrite <- (Permutation_map snd Hpr), row_number_rows.
    now apply Permutation_sym.
  - apply StronglySorted_under_map
      with (P := fun a b => AiVerification.leaderboard_before a b = true)
      in Hsr.
    eapply StronglySorted_weaken; [|exact Hsr].
    intros a b. apply leaderboard_before_spec.
  - rewrite <- (Permutation_map fst Hpr).
    change 1 with (Z.of_nat 1). rewrite row_number_ranks.
    now rewrite (Permutation_length Hpn).
  - intros x y Hx Hy Habove.
    apply (Permutation_in _ (Permutation_sym Hpr)) in Hx, Hy.
    apply ranked_above_spec in Habove. destruct Habove as [Hxy Hyx].
    destruct (StronglySorted_In_cases _ _ x y
                (row_number_sorted _ 1 numbered Hsn) Hx Hy)
      as [Heq|[[Hlt _]|[_ Hbefore]]].
    + subst y. congruence.
    + exact Hlt.
    + congruence.
Qed.

(** The function [SimpleSolution.get_leaderboard_simple] computes one of
    the results the query may return. *)
Lemma get_leaderboard_simple_is_a_result limit d :
  get_leaderboard_simple_returns limit d
    (SimpleSolution.get_leaderboard_simple limit d).
Proof.
  pose proof (ordered_by_order_by SimpleSolution.simple_before
                simple_before_total simple_before_trans) as Hord.
  exists (order_by SimpleSolution.simple_before (simple_candidates d)),
         (order_by SimpleSolution.simple_before
            (firstn limit
               (order_by SimpleSolution.simple_before
                  (simple_candidates d)))),
         (row_number 1
            (order_by SimpleSolution.simple_before
               (firstn limit
                  (order_by SimpleSolution.simple_before
                     (simple_candidates d))))).
  split; [apply Hord|]. split; [apply Hord|]. split; [|reflexivity].
  split; [reflexivity|].
  eapply StronglySorted_weaken;
    [|apply (row_number_sorted
               (fun a b => SimpleSolution.simple_before a b = true))].
  - intros x y [_ H]. exact H.
  - apply order_by_sorted;
      [exact simple_before_total|exact simple_before_trans].
Qed.

Lemma get_leaderboard_simple_returns_unique limit d board :
  no_ties SimpleSolution.simple_before (simple_candidates d) ->
  get_leaderboard_simple_returns limit d board ->
  board = SimpleSolution.get_leaderboard_simple limit d.
Proof.
  intros Hno (sorted & numbered & returned & Hs & Hn & Hr & Hboard).
  pose proof (ordered_by_order_by SimpleSolution.simple_before
                simple_before_total simple_before_trans) as Hord.
  assert (Hsorted : sorted
                    = order_by SimpleSolution.simple_before
                        (simple_candidates d))
    by (eapply ordered_by_unique; [exact Hno|exact Hs|apply Hord]).
  subst sorted.
  set (limited := firstn limit
                    (order_by SimpleSolution.simple_before
                       (simple_candidates d))) in *.
  assert (Hno' : no_ties SimpleSolution.simple_before limited).
  { apply no_ties_firstn.
    apply (no_ties_permutation _ _ _ (proj1 (Hord (simple_candidates d)))
             Hno). }
  assert (Hnum : numbered = order_by SimpleSolution.simple_before limited)
    by (eapply ordered_by_unique; [exact Hno'|exact Hn|apply Hord]).
  subst numbered.
  assert (Hret : returned
                 = row_number 1
                     (order_by SimpleSolution.simple_before limited)).
  { destruct Hr as [Hp Hsr]. symmetry.
    apply (sorted_permutation_unique
             (fun x y => SimpleSolution.simple_before (snd x) (snd y)));
      [|exact Hp| |exact Hsr].
    - intros x y Hx Hy Hxy Hyx.
      destruct (no_ties_permutation _ _ _ (proj1 (Hord limited)) Hno')
        as [Hnd Hanti].
      apply (row_number_same_row 1 _ x y Hnd Hx Hy).
      apply Hanti; try assumption.
      + rewrite <- (row_number_rows 1 (order_by _ _)). now apply in_map.
      + rewrite <- (row_number_rows 1 (order_by _ _)). now apply in_map.
    - eapply StronglySorted_weaken;
        [|apply (row_number_sorted
                   (fun a b => SimpleSolution.simple_before a b = true))].
      + intros x y [_ H]. exact H.
      + apply order_by_sorted;
          [exact simple_before_total|exact simple_before_trans]. }
  subst returned board. reflexivity.
Qed.





(* ------------------------------------------------------------------ *)
(** ** Totals at the interfaces *)

(** [ROUND(x, 2)] moves a value by at most half a hundredth, and leaves
    it alone exactly when it has no more than two decimals. *)
Lemma round2_error (x : numeric) : Z.abs (round2 x - x) <= 5000.
Proof.
  unfold round2, round_div.
  pose proof (Z.div_mod (2 * Z.abs x + 10000) 20000 ltac:(lia)) as Hdm.
  pose proof (Z.mod_pos_bound (2 * Z.abs x + 10000) 20000 ltac:(lia)) as Hb.
  change (2 * 10000) with 20000.
  destruct x as [|p|p]; simpl Z.sgn; cbn [Z.abs] in *; lia.
Qed.

Lemma round2_exact (x : numeric) : round2 x = x <-> x mod 10000 = 0.
Proof.
  unfold round2, round_div.
  pose proof (Z.div_mod (2 * Z.abs x + 10000) 20000 ltac:(lia)) as Hdm.
  pose proof (Z.mod_pos_bound (2 * Z.abs x + 10000) 20000 ltac:(lia)) as Hb.
  pose proof (Z.div_mod x 10000 ltac:(lia)) as Hx.
  pose proof (Z.mod_pos_bound x 10000 ltac:(lia)) as Hxb.
  change (2 * 10000) with 20000.
  destruct x as [|p|p]; simpl Z.sgn; cbn [Z.abs] in *; lia.
Qed.

Lemma round2_idempotent (x : numeric) : round2 (round2 x) = round2 x.
Proof.
  apply round2_exact. unfold round2. apply Z.mod_mul. lia.
Qed.

Lemma row_number_In {R : Type} (start : Z) (l : list R) (nr : Z * R) :
  In nr (row_number start l) -> In (snd nr) l.
Proof.
  intros H. rewrite <- (row_number_rows start l). now apply in_map.
Qed.

(** What [get_leaderboard] returns for a user is the stored total rounded
    to two decimals. *)
Lemma get_leaderboard_rounds limit d row :
  In row (AiVerification.get_leaderboard limit d) ->
  exists us,
    In us (AiVerification.user_stats d)
    /\ AiVerification.us_user_id us = AiVerification.lb_user_id row
    /\ AiVerification.lb_total_emissions_lbs row
       = round2 (AiVerification.total_emissions_lbs us).
Proof.
  unfold AiVerification.get_leaderboard. intros H.
  apply firstn_incl in H. apply in_map_iff in H.
  destruct H as (nr & Hrow & Hnr). apply row_number_In in Hnr.
  apply (Permutation_in _ (order_by_perm _ _)) in Hnr.
  apply ranked_users_spec in Hnr.
  destruct Hnr as (us & u & Hus & _ & _ & _ & Hid & Htot & _).
  exists us. subst row. simpl. rewrite Hid, Htot. now repeat split.
Qed.

(** *** Binary64 numbers near decimals *)

(** The binary64 nearest to a quotient below [2^40] has at least twelve
    binary places and is off by half a unit of its last place at most. *)
Lemma nearest_positive_spec a b :
  0 < a -> 0 < b -> a < 2 ^ 40 * b ->
  let x := Binary64.nearest_positive a b in
  12 <= Binary64.shift x
  /\ 0 < Binary64.num x
  /\ 2 * Z.abs (Binary64.num x * b - a * 2 ^ Binary64.shift x) <= b.
Proof.
  intros Ha Hb Hab.
  destruct (Z.log2_spec a Ha) as [Hla1 Hla2].
  destruct (Z.log2_spec b Hb) as [Hlb1 Hlb2].
  pose proof (Z.log2_nonneg a) as Hla0.
  pose proof (Z.log2_nonneg b) as Hlb0.
  set (la := Z.log2 a) in *. set (lb := Z.log2 b) in *.
  assert (Hdiff : la - lb <= 40).
  { destruct (Z.le_gt_cases (la - lb) 40) as [H|H]; [exact H|exfalso].
    assert (H0 : 2 ^ (41 + lb) <= 2 ^ la) by (apply Z.pow_le_mono_r; lia).
    rewrite Z.pow_add_r in H0 by lia.
    replace (Z.succ lb) with (lb + 1) in Hlb2 by lia.
    rewrite Z.pow_add_r in Hlb2 by lia.
    change (2 ^ 41) with (2 * 2 ^ 40) in H0. change (2 ^ 1) with 2 in Hlb2.
    nia. }
  unfold Binary64.nearest_positive. fold la lb.
  set (k0 := 52 - la + lb).
  assert (Hk0 : 12 <= k0) by (unfold k0; lia).
  replace (Z.max k0 0) with k0 by lia.
  replace (Z.max (- k0) 0) with 0 by lia.
  rewrite Z.pow_0_r, Z.mul_1_r.
  assert (Hpow : a * 2 ^ k0 < b * 2 ^ 53 /\ b * 2 ^ 52 <= a * 2 ^ (k0 + 1)).
  { replace (Z.succ la) with (la + 1) in Hla2 by lia.
    replace (Z.succ lb) with (lb + 1) in Hlb2 by lia.
    rewrite Z.pow_add_r in Hla2, Hlb2 by lia.
    change (2 ^ 1) with 2 in Hla2, Hlb2.
    assert (E : 2 ^ la * 2 ^ k0 = 2 ^ lb * 2 ^ 52).
    { rewrite <- !Z.pow_add_r by lia. f_equal. unfold k0. lia. }
    rewrite (Z.pow_add_r 2 k0 1) by lia. change (2 ^ 1) with 2.
    change (2 ^ 53) with (2 * 2 ^ 52).
    assert (0 < 2 ^ k0) by (apply Z.pow_pos_nonneg; lia).
    assert (0 < 2 ^ 52) by reflexivity.
    set (P := 2 ^ k0) in *. set (Q := 2 ^ 52) in *.
    set (A := 2 ^ la) in *. set (B := 2 ^ lb) in *.
    split; nia. }
  destruct Hpow as [Hup Hlow].
  set (k := if a * 2 ^ k0 <? b * 2 ^ 52 then k0 + 1 else k0).
  assert (Hk : 12 <= k /\ b * 2 ^ 52 <= a * 2 ^ k /\ a * 2 ^ k < b * 2 ^ 53).
  { unfold k. destruct (a * 2 ^ k0 <? b * 2 ^ 52) eqn:E.
    - apply Z.ltb_lt in E. split; [lia|]. split; [exact Hlow|].
      rewrite (Z.pow_add_r 2 k0 1) by lia. change (2 ^ 1) with 2.
      change (2 ^ 53) with (2 * 2 ^ 52). lia.
    - apply Z.ltb_ge in E. split; [lia|]. split; [exact E|exact Hup]. }
  clearbody k. destruct Hk as (Hk12 & Hklow & Hkup).
  assert (Hk13 : 13 <= k).
  { destruct (Z.le_gt_cases 13 k) as [H|H]; [exact H|exfalso].
    assert (Hk : k = 12) by lia. subst k.
    change (2 ^ 12) with 4096 in Hklow.
    change (2 ^ 52) with (4096 * 2 ^ 40) in Hklow. lia. }
  replace (Z.max k 0) with k by lia.
  replace (Z.max (- k) 0) with 0 by lia.
  rewrite Z.pow_0_r, Z.mul_1_r.
  set (n := a * 2 ^ k) in *.
  pose proof (Z.div_mod n b ltac:(lia)) as Hdm.
  pose proof (Z.mod_pos_bound n b Hb) as Hr.
  set (q0 := n / b) in *. set (r := n mod b) in *.
  assert (Hq0 : 2 ^ 52 <= q0 < 2 ^ 53).
  { split.
    - apply Z.div_le_lower_bound; [exact Hb|lia].
    - apply Z.div_lt_upper_bound; [exact Hb|lia]. }
  assert (Hn : n = a * 2 ^ k) by reflexivity.
  clearbody q0 r n.
  set (q := if 2 * r <? b then q0
            else if (2 * r =? b) && Z.even q0 then q0 else q0 + 1).
  assert (Hq : (q = q0 \/ q = q0 + 1) /\ 2 * Z.abs (q * b - n) <= b).
  { unfold q. destruct (2 * r <? b) eqn:E1.
    - apply Z.ltb_lt in E1. split; [now left|]. lia.
    - apply Z.ltb_ge in E1.
      destruct ((2 * r =? b) && Z.even q0) eqn:E2.
      + apply andb_true_iff in E2. destruct E2 as [E2 _].
        apply Z.eqb_eq in E2. split; [now left|]. lia.
      + split; [now right|]. lia. }
  clearbody q. destruct Hq as [Hq Herr].
  destruct (q =? 2 ^ 53) eqn:E; cbn [Binary64.num Binary64.shift].
  - apply Z.eqb_eq in E. split; [lia|]. split; [reflexivity|].
    subst q. rewrite Hn in Herr.
    assert (E2 : 2 ^ k = 2 * 2 ^ (k - 1)).
    { rewrite <- (Z.pow_succ_r 2 (k - 1)) by lia. f_equal. lia. }
    rewrite E2 in Herr. change (2 ^ 53) with (2 * 2 ^ 52) in Herr.
    lia.
  - split; [lia|]. split; [lia|]. rewrite <- Hn. exact Herr.
Qed.

(** [toFixed(2)] of a number with at least twelve binary places is the
    nearest number of hundredths, the larger of two. *)
Lemma toFixed2_bounds x :
  0 < Binary64.num x -> 12 <= Binary64.shift x ->
  let n := Readers.toFixed2 x in
  2 * 2 ^ Binary64.shift x * n
  <= 200 * Binary64.num x + 2 ^ Binary64.shift x
  < 2 * 2 ^ Binary64.shift x * n + 2 * 2 ^ Binary64.shift x.
Proof.
  intros Hnum Hshift. unfold Readers.toFixed2.
  replace (0 <=? Binary64.shift x) with true
    by (symmetry; apply Z.leb_le; lia).
  rewrite Z.abs_eq by lia. rewrite Z.sgn_pos by exact Hnum.
  rewrite Z.mul_1_l.
  assert (HP : 0 < 2 ^ Binary64.shift x) by (apply Z.pow_pos_nonneg; lia).
  set (P := 2 ^ Binary64.shift x) in *.
  pose proof (Z.div_mod (200 * Binary64.num x + P) (2 * P) ltac:(lia)) as Hdm.
  pose proof (Z.mod_pos_bound (200 * Binary64.num x + P) (2 * P) ltac:(lia))
    as Hr.
  cbv zeta. lia.
Qed.

Lemma pow2_at_least_4096 s : 12 <= s -> 4096 <= 2 ^ s.
Proof.
  intros H. change 4096 with (2 ^ 12). apply Z.pow_le_mono_r; lia.
Qed.

(** Printing the binary64 nearest to a number of hundredths with
    [toFixed(2)] gives the hundredths back. *)
Lemma toFixed2_of_hundredths a b A :
  0 < a -> 0 < b -> a < 2 ^ 40 * b -> 100 * a = A * b ->
  Readers.toFixed2 (Binary64.nearest_positive a b) = A.
Proof.
  intros Ha Hb Hab HA.
  destruct (nearest_positive_spec a b Ha Hb Hab) as (Hs & Hnum & Herr).
  pose proof (toFixed2_bounds _ Hnum Hs) as Hn. cbv zeta in Hn.
  pose proof (pow2_at_least_4096 _ Hs) as HP.
  set (x := Binary64.nearest_positive a b) in *.
  set (P := 2 ^ Binary64.shift x) in *.
  set (n := Readers.toFixed2 x) in *.
  set (m := Binary64.num x) in *.
  clearbody n m P. clear Hs x.
  assert (Hlow : A * (2 * P) <= 200 * m + P) by nia.
  assert (Hup : 200 * m + P < (A + 1) * (2 * P)) by nia.
  nia.
Qed.

(** What [getLeaderboard] makes of a total that [get_leaderboard] has
    rounded to two decimals: the binary64 nearest to the rounded total,
    which is within 0.005123 of the stored one. *)
Lemma delivered_through_function t :
  0 < t < 10 ^ 18 ->
  let y := Readers.parseFloat
             (Readers.toFixed2 (Binary64.of_numeric (round2 t))) in
  y = Binary64.nearest (round_div t 10000) 100
  /\ Binary64.within y t 5123.
Proof.
  intros [Hpos Hmax]. cbv zeta.
  pose proof (round2_error t) as Hround.
  assert (HA : 0 <= round_div t 10000).
  { unfold round_div. rewrite Z.sgn_pos, Z.mul_1_l by exact Hpos.
    apply Z.div_pos; lia. }
  unfold round2 in *. set (A := round_div t 10000) in *. clearbody A.
  assert (Hfixed : Readers.toFixed2 (Binary64.of_numeric (A * 10000)) = A).
  { unfold Binary64.of_numeric, Binary64.nearest.
    destruct (A * 10000) as [|p|p] eqn:E; try lia.
    - assert (A = 0) by lia. subst A. reflexivity.
    - rewrite <- E. apply toFixed2_of_hundredths; lia. }
  rewrite Hfixed. split; [reflexivity|].
  unfold Readers.parseFloat, Binary64.nearest, Binary64.within.
  destruct A as [|p|p]; try lia.
  - cbn [Binary64.zero Binary64.num Binary64.shift]. simpl. lia.
  - destruct (nearest_positive_spec (Zpos p) 100 ltac:(lia) ltac:(lia)
                ltac:(lia)) as (Hs & Hnum & Herr).
    pose proof (pow2_at_least_4096 _ Hs) as HP.
    set (x := Binary64.nearest_positive (Zpos p) 100) in *.
    replace (Z.max (- Binary64.shift x) 0) with 0 by lia.
    replace (Z.max (Binary64.shift x) 0) with (Binary64.shift x) by lia.
    rewrite Z.pow_0_r, Z.mul_1_r.
    set (P := 2 ^ Binary64.shift x) in *. set (m := Binary64.num x) in *.
    clearbody m P. clear Hs x. nia.
Qed.

(** What [getLeaderboardDirect] makes of a total: [toFixed(2)] rounds
    the binary64 it holds, to a number of hundredths within 0.005123 of
    the stored total, and the binary64 nearest to that is delivered. *)
Lemma delivered_directly t :
  0 < t < 10 ^ 18 ->
  let n := Readers.toFixed2 (Binary64.of_numeric t) in
  Z.abs (n * 10000 - t) <= 5123
  /\ Binary64.within (Readers.parseFloat n) t 5250.
Proof.
  intros [Hpos Hmax]. cbv zeta.
  unfold Binary64.of_numeric, Binary64.nearest.
  destruct t as [|p|p]; try lia.
  destruct (nearest_positive_spec (Zpos p) 1000000 ltac:(lia) ltac:(lia)
              ltac:(lia)) as (Hs & Hnum & Herr).
  pose proof (toFixed2_bounds _ Hnum Hs) as Hn. cbv zeta in Hn.
  pose proof (pow2_at_least_4096 _ Hs) as HP.
  set (x := Binary64.nearest_positive (Zpos p) 1000000) in *.
  set (n := Readers.toFixed2 x) in *.
  set (P := 2 ^ Binary64.shift x) in *. set (m := Binary64.num x) in *.
  set (t := Zpos p) in *.
  clearbody n m P t. clear Hs x.
  assert (Hn0 : 0 <= n) by nia.
  assert (Hclose : Z.abs (n * 10000 - t) <= 5123) by nia.
  split; [exact Hclose|].
  unfold Readers.parseFloat, Binary64.nearest, Binary64.within.
  destruct n as [|q|q]; try lia.
  - cbn [Binary64.zero Binary64.num Binary64.shift]. simpl. lia.
  - destruct (nearest_positive_spec (Zpos q) 100 ltac:(lia) ltac:(lia)
                ltac:(lia)) as (Hs' & Hnum' & Herr').
    pose proof (pow2_at_least_4096 _ Hs') as HP'.
    set (y := Binary64.nearest_positive (Zpos q) 100) in *.
    replace (Z.max (- Binary64.shift y) 0) with 0 by lia.
    replace (Z.max (Binary64.shift y) 0) with (Binary64.shift y) by lia.
    rewrite Z.pow_0_r, Z.mul_1_r.
    set (P' := 2 ^ Binary64.shift y) in *. set (m' := Binary64.num y) in *.
    clearbody m' P'. clear Hs' y. nia.
Qed.

(** The fractions agree with the primitive floats: the decimals of the
    examples are the floats Rocq reads them as, a decimal half way
    between two floats goes to the even one, [1.005] prints as [1.00]
    and [0.125] as [0.13]. *)
Lemma binary64_examples :
  map Binary64.to_float
    [ Binary64.of_numeric 10200000; Binary64.of_numeric 30900000;
      Binary64.nearest 1023 100; Binary64.of_numeric 900000000000000200;
      Binary64.of_numeric 1005000 ]
  = [ 10.2%float; 30.9%float; 10.23%float; 900000000000.0002%float;
      1.005%float ]
  /\ map Binary64.of_float
       [ 10.2%float; 30.9%float; 10.23%float; 900000000000.0003%float ]
     = map Some
         [ Binary64.of_numeric 10200000; Binary64.of_numeric 30900000;
           Binary64.nearest 1023 100;
           Binary64.of_numeric 900000000000000300 ]
  /\ map Binary64.to_float
       [ Binary64.nearest 9007199254740993 1;
         Binary64.nearest 9007199254740995 1 ]
     = [ 9007199254740992%float; 9007199254740996%float ]
  /\ Readers.toFixed2 (Binary64.of_numeric 1005000) = 100
  /\ Readers.toFixed2 (Binary64.of_numeric (round2 1005000)) = 101
  /\ Readers.toFixed2 (Binary64.of_numeric 125000) = 13
  /\ Readers.toFixed2 (Binary64.of_numeric (-125000)) = -13.
Proof. repeat split; reflexivity. Qed.

Lemma board_rows_are_rounded_totals limit d board row :
  get_leaderboard_returns limit d board ->
  In row board ->
  exists us,
    In us (AiVerification.user_stats d)
    /\ AiVerification.us_user_id us = AiVerification.lb_user_id row
    /\ 0 < AiVerification.total_emissions_lbs us
    /\ AiVerification.lb_total_emissions_lbs row
       = round2 (AiVerification.total_emissions_lbs us).
Proof.
  intros Hboard Hrow.
  destruct (get_leaderboard_result_shape limit d board Hboard)
    as (returned & Hb & Hperm & _).
  subst board. apply firstn_incl in Hrow. apply in_map_iff in Hrow.
  destruct Hrow as (nr & Hrow & Hnr).
  apply (in_map snd) in Hnr. apply (Permutation_in _ Hperm) in Hnr.
  apply ranked_users_spec in Hnr.
  destruct Hnr as (us & u & Hus & Hpos & _ & _ & Hid & Htot & _).
  exists us. subst row. simpl. rewrite Hid, Htot. now repeat split.
Qed.

Lemma stats_rows_are_totals d row :
  In row (stats_rows d) ->
  exists us,
    In us (AiVerification.user_stats d)
    /\ AiVerification.us_user_id us = Readers.s_user_id row
    /\ 0 < AiVerification.total_emissions_lbs us
    /\ Readers.s_total_emissions_lbs row
       = Binary64.of_numeric (AiVerification.total_emissions_lbs us).
Proof.
  unfold stats_rows. rewrite in_flat_map. intros (us & Hus & Hrow).
  apply filter_In in Hus. destruct Hus as [Hus Hpos].
  apply Z.ltb_lt in Hpos.
  destruct (find_row _ _ _) as [u|]; [|destruct Hrow].
  destruct Hrow as [Hrow|[]]. subst row. exists us. now repeat split.
Qed.

(** C7, as amended.  A leaderboard entry carries its total as a number,
    rounded to two decimals.  When [get_leaderboard] answers, the entry
    holds the binary64 nearest to the stored total rounded to two
    decimals, ties away from zero, which is within 0.005123 of the stored
    total.  When it fails and [getLeaderboardDirect] answers, the entry
    holds the binary64 nearest to what [toFixed(2)] makes of the binary64
    nearest to the stored total, which is within 0.00525 of the stored
    total.  Stored totals are positive and below 10^12. *)
Theorem totals_at_the_interfaces getTime limit d board statsData
    actionsData reason :
  get_leaderboard_returns limit d board ->
  stats_query_returns d statsData ->
  (forall us,
     In us (AiVerification.user_stats d) ->
     AiVerification.total_emissions_lbs us < 10 ^ 18) ->
  (forall entry,
     In entry
        (Readers.getLeaderboard getTime limit (Services.RpcData board)
           (Services.RpcData statsData) actionsData) ->
     exists us,
       In us (AiVerification.user_stats d)
       /\ AiVerification.us_user_id us = Readers.user_id entry
       /\ Readers.total_emissions_lbs entry
          = Binary64.nearest
              (round_div (AiVerification.total_emissions_lbs us) 10000) 100
       /\ Binary64.within (Readers.total_emissions_lbs entry)
            (AiVerification.total_emissions_lbs us) 5123)
  /\ (forall entry,
        In entry
           (Readers.getLeaderboard getTime limit (Services.RpcError reason)
              (Services.RpcData statsData) actionsData) ->
        exists us,
          In us (AiVerification.user_stats d)
          /\ AiVerification.us_user_id us = Readers.user_id entry
          /\ Readers.total_emissions_lbs entry
             = Binary64.nearest
                 (Readers.toFixed2
                    (Binary64.of_numeric
                       (AiVerification.total_emissions_lbs us))) 100
          /\ Z.abs (Readers.toFixed2
                      (Binary64.of_numeric
                         (AiVerification.total_emissions_lbs us)) * 10000
                    - AiVerification.total_emissions_lbs us) <= 5123
          /\ Binary64.within (Readers.total_emissions_lbs entry)
               (AiVerification.total_emissions_lbs us) 5250).
Proof.
  intros Hboard Hstats Hmax. split.
  - simpl. intros entry Hentry. apply in_map_iff in Hentry.
    destruct Hentry as (row & Hrow & Hin).
    destruct (board_rows_are_rounded_totals limit d board row Hboard Hin)
      as (us & Hus & Hid & Hpos & Htotal).
    exists us. split; [exact Hus|]. subst entry.
    cbn [Readers.to_entry Readers.user_id Readers.total_emissions_lbs].
    split; [exact Hid|]. rewrite Htotal.
    apply delivered_through_function. split; [exact Hpos|now apply Hmax].
  - simpl. intros entry Hentry. apply in_map_iff in Hentry.
    destruct Hentry as (ie & Hie & Hin).
    apply row_number_In in Hin. apply firstn_incl in Hin.
    apply (Permutation_in _ (order_by_perm _ _)) in Hin.
    apply Hstats in Hin.
    destruct (stats_rows_are_totals d (snd ie) Hin)
      as (us & Hus & Hid & Hpos & Htotal).
    exists us. split; [exact Hus|]. subst entry.
    cbn [Readers.user_id Readers.total_emissions_lbs].
    split; [exact Hid|]. rewrite Htotal. split; [reflexivity|].
    apply delivered_directly. split; [exact Hpos|now apply Hmax].
Qed.

(** The amended statement where the stored total is 10.2345: on both
    paths the entry carries the binary64 nearest to 10.23. *)
Lemma totals_at_the_interfaces_witness :
  get_leaderboard_returns 100 four_decimals
    (AiVerification.get_leaderboard 100 four_decimals)
  /\ stats_query_returns four_decimals (stats_rows four_decimals)
  /\ exists us,
       In us (AiVerification.user_stats four_decimals)
       /\ Binary64.nearest 1023 100
          = Binary64.nearest
              (round_div (AiVerification.total_emissions_lbs us) 10000) 100
       /\ Binary64.within (Binary64.nearest 1023 100)
            (AiVerification.total_emissions_lbs us) 5123.
Proof.
  pose proof (get_leaderboard_is_a_result 100 four_decimals) as Hboard.
  assert (Hstats : stats_query_returns four_decimals
                     (stats_rows four_decimals))
    by (intros row Hrow; exact Hrow).
  split; [exact Hboard|]. split; [exact Hstats|].
  assert (Hmax : forall us,
             In us (AiVerification.user_stats four_decimals) ->
             AiVerification.total_emissions_lbs us < 10 ^ 18).
  { intros us [<-|[]]. reflexivity. }
  destruct (proj1 (totals_at_the_interfaces (fun t => t) 100 four_decimals
                     _ _ [] EmptyString Hboard Hstats Hmax)
              (Readers.to_entry
                 {| AiVerification.rank := 1;
                    AiVerification.lb_user_id := "user1"%string;
                    AiVerification.lb_username := Some "User1"%string;
                    AiVerification.lb_total_emissions_lbs := 10230000;
                    AiVerification.lb_action_count := 1;
                    AiVerification.lb_last_update_timestamp := 1 |})
              (or_introl eq_refl))
    as (us & Hus & _ & Heq & Hwithin).
  exists us. split; [exact Hus|]. split; [exact Heq|exact Hwithin].
Defined.

(** C7 (counterexample).  A stored total of 10.2345 reaches the caller of
    the leaderboard as the binary64 nearest to 10.23, which is not the
    stored decimal.  And [getUserTotalEmissions] and
    [getGlobalTotalEmissionsExact] return one and the same text for the
    stored totals 900000000000.0002 and 900000000000.0003: both pass
    through the same binary64. *)
Lemma leaderboard_rounding_counterexample :
  ~ leaderboard_delivers_stored_totals
  /\ ~ getter_delivers_stored_total
  /\ ~ global_getter_delivers_stored_total.
Proof.
  split; [|split].
  - intros H.
    destruct (H (fun t => t) 100%nat four_decimals _
                (Services.RpcData []) []
                (Readers.to_entry
                   {| AiVerification.rank := 1;
                      AiVerification.lb_user_id := "user1"%string;
                      AiVerification.lb_username := Some "User1"%string;
                      AiVerification.lb_total_emissions_lbs := 10230000;
                      AiVerification.lb_action_count := 1;
                      AiVerification.lb_last_update_timestamp := 1 |})
                (get_leaderboard_is_a_result 100 four_decimals)
                (or_introl eq_refl))
      as (us & Hus & _ & Hexact).
    destruct Hus as [Hus|[]]. subst us. vm_compute in Hexact.
    discriminate Hexact.
  - intros H.
    specialize (H "user1"%string (holding 900000000000000200)
                  (holding 900000000000000300) eq_refl eq_refl eq_refl).
    discriminate H.
  - intros H.
    specialize (H {| EmissionLogging.total_lbs_saved := 900000000000000200;
                     EmissionLogging.total_actions := 1;
                     EmissionLogging.ge_last_updated := 1 |}
                  {| EmissionLogging.total_lbs_saved := 900000000000000300;
                     EmissionLogging.total_actions := 1;
                     EmissionLogging.ge_last_updated := 1 |}
                  eq_refl).
    discriminate H.
Qed.

(* ------------------------------------------------------------------ *)
(** ** Validation *)

Section LogEmissionValidation.
Variable DB : Type.
Variable rpc :
  Services.log_emission_args -> DB -> DB * Services.rpc_reply Services.log_row.

(** Malformed input never reaches the database function. *)
Lemma logEmission_malformed_writes_nothing request d :
  malformed_emission request = true ->
  fst (Services.logEmission DB rpc request d) = d.
Proof.
  unfold malformed_emission, Services.logEmission, Services.logEmission_try.
  destruct (Services.missing (Services.action_id request)); simpl;
    [reflexivity|].
  destruct (Services.missing (Services.user_id request)); simpl;
    [reflexivity|].
  destruct (Services.emissions_lbs request) as [n|]; simpl; [|reflexivity].
  intros H. now rewrite H.
Qed.

(** With the quantity present, malformed input is answered by a response
    with [success = false]. *)
Lemma logEmission_malformed_fails request d n :
  Services.emissions_lbs request = Some n ->
  malformed_emission request = true ->
  exists response,
    Services.logEmission DB rpc request d = (d, Services.Resolved response)
    /\ Services.success response = false
    /\ Services.is_duplicate response = false.
Proof.
  unfold malformed_emission, Services.logEmission, Services.logEmission_try.
  intros Hn. rewrite Hn.
  destruct (Services.missing (Services.action_id request)); simpl;
    [intros _; eexists; now repeat split|].
  destruct (Services.missing (Services.user_id request)); simpl;
    [intros _; eexists; now repeat split|].
  intros H. rewrite H. eexists. now repeat split.
Qed.

(** With the quantity missing, the [catch] handler itself throws: the
    promise is rejected. *)
Lemma logEmission_missing_quantity request d :
  Services.emissions_lbs request = None ->
  Services.logEmission DB rpc request d
  = (d, Services.Rejected
          (Services.TypeError "Cannot read properties of undefined"%string)).
Proof.
  unfold Services.logEmission, Services.logEmission_try.
  intros Hn. rewrite Hn. simpl.
  now rewrite !orb_true_r.
Qed.
End LogEmissionValidation.

Section LogActionValidation.
Variable DB : Type.
Variable rpc :
  Services.log_action_args -> DB -> DB * Services.rpc_reply Services.log_row.
Variable ToNumber : string -> option numeric.

(** [logActionFullSpec] answers every malformed request with an error
    response, the database function not having been called. *)
Lemma logActionFullSpec_malformed_fails now request d :
  malformed_action ToNumber request = true ->
  exists response,
    Services.logActionFullSpec DB rpc ToNumber now request d
    = (d, Services.Resolved response)
    /\ Services.status_success response = false
    /\ Services.alr_is_duplicate response = false.
Proof.
  unfold malformed_action, Services.logActionFullSpec,
    Services.logActionFullSpec_try.
  destruct (Services.missing (Services.al_action_id request)); simpl;
    [intros _; eexists; now repeat split|].
  destruct (Services.missing (Services.al_user_id request)); simpl;
    [intros _; eexists; now repeat split|].
  destruct (Services.al_lbs request) as [lbs|] eqn:Hlbs; simpl;
    [|intros _; eexists; now repeat split].
  intros Hneg.
  destruct (Services.missing (Services.al_logged_at request)); simpl;
    [eexists; now repeat split|].
  destruct (Services.al_verified request) as [[|]|]; simpl;
    try (eexists; now repeat split).
  rewrite Hneg. eexists. now repeat split.
Qed.
End LogActionValidation.

(** C8 (code defect).  [logEmission], given a request with no quantity,
    writes nothing, but does not return a failure result: its [catch]
    handler evaluates [request.emissions_lbs.toString()] and throws, so
    the promise is rejected with a [TypeError]. *)
Theorem logEmission_without_quantity_throws
    (DB : Type)
    (rpc : Services.log_emission_args -> DB
           -> DB * Services.rpc_reply Services.log_row)
    (d : DB) :
  malformed_emission no_quantity = true
  /\ Services.logEmission DB rpc no_quantity d
     = (d, Services.Rejected
             (Services.TypeError
                "Cannot read properties of undefined"%string)).
Proof. split; reflexivity. Qed.

(* ------------------------------------------------------------------ *)
(** ** Scenario A *)







(* ------------------------------------------------------------------ *)
(** ** Actions of quantity zero *)

Section ZeroQuantity.
Import SimpleSolution.

(** The trigger function does nothing for an action whose quantity is not
    positive. *)
Lemma update_emission_totals_skips_zero now NEW d :
  v_lbs (action_templates d) NEW <= 0 ->
  update_emission_totals now NEW d = d.
Proof.
  intros H. unfold update_emission_totals.
  replace (0 <? v_lbs (action_templates d) NEW) with false; [reflexivity|].
  symmetry. apply Z.ltb_ge. exact H.
Qed.

Lemma insert_keeps_templates now NEW d :
  action_templates (insert_user_action now NEW d) = action_templates d.
Proof.
  unfold insert_user_action, update_emission_totals. simpl.
  now destruct (0 <? v_lbs (action_templates d) NEW).
Qed.

Lemma insert_appends_action now NEW d :
  user_actions (insert_user_action now NEW d)
  = (user_actions d ++ [NEW])%list.
Proof.
  unfold insert_user_action, update_emission_totals. simpl.
  now destruct (0 <? v_lbs (action_templates d) NEW).
Qed.

Lemma upsert_keys {R : Type} (key : R -> uuid) k (fresh : R) (set : R -> R)
    (t : list R) u :
  key fresh = k ->
  (forall r, key (set r) = key r) ->
  In u (map key (upsert key k fresh set t)) ->
  u = k \/ In u (map key t).
Proof.
  intros Hfresh Hset. unfold upsert.
  destruct (find_row key k t).
  - rewrite map_key_update_rows by exact Hset. now right.
  - rewrite map_app. simpl. intros H. apply in_app_or in H.
    destruct H as [H|[H|[]]]; [now right|left]. congruence.
Qed.

(** In a state reached by inserts alone, every [user_stats] row belongs
    to a user with an action of positive quantity. *)
Lemma inserted_rows_have_positive_action templates people d :
  simple_inserted templates people d ->
  action_templates d = templates
  /\ forall u,
       In u (map us_user_id (user_stats d)) ->
       exists a,
         In a (user_actions d) /\ user_id a = u /\ 0 < v_lbs templates a.
Proof.
  induction 1 as [|d now NEW _ [Ht IH]].
  - split; [reflexivity|intros u []].
  - split; [now rewrite insert_keeps_templates|].
    intros u Hu. rewrite insert_appends_action.
    unfold insert_user_action, update_emission_totals in Hu. simpl in Hu.
    rewrite Ht in Hu.
    destruct (0 <? v_lbs templates NEW) eqn:Hv; simpl in Hu.
    + rewrite mirror_total_keys in Hu.
      apply upsert_keys in Hu; [|reflexivity|intros r; reflexivity].
      destruct Hu as [Hu|Hu].
      * exists NEW. split; [apply in_or_app; right; now left|].
        split; [now symmetry|now apply Z.ltb_lt].
      * destruct (IH u Hu) as (a & Ha & Hid & Hpos).
        exists a. split; [apply in_or_app; now left|now split].
    + destruct (IH u Hu) as (a & Ha & Hid & Hpos).
      exists a. split; [apply in_or_app; now left|now split].
Qed.

End ZeroQuantity.

(** C10, as amended.  For an inserted action whose quantity is 0 the
    trigger function leaves the whole state as it is: no [user_stats] row
    is created and no total is modified; so in a state reached by inserts
    alone, a user whose actions all have quantity 0 has no [user_stats]
    row.  [backfill_totals] creates no row for a user without a
    contributing action (positive custom quantity, or a template), and
    gives a row of total 0 to a user whose contributing actions sum to
    0. *)
Theorem zero_quantity_actions_are_not_counted templates people now NEW d u :
  (SimpleSolution.v_lbs (SimpleSolution.action_templates d) NEW = 0 ->
   SimpleSolution.update_emission_totals now NEW d = d
   /\ SimpleSolution.user_stats (SimpleSolution.insert_user_action now NEW d)
      = SimpleSolution.user_stats d
   /\ SimpleSolution.global_emissions
        (SimpleSolution.insert_user_action now NEW d)
      = SimpleSolution.global_emissions d)
  /\ (simple_inserted templates people d ->
      (forall a,
         In a (SimpleSolution.user_actions d) ->
         SimpleSolution.user_id a = u ->
         SimpleSolution.v_lbs templates a = 0) ->
      find_row SimpleSolution.us_user_id u (SimpleSolution.user_stats d)
      = None)
  /\ ((forall a,
         In a (SimpleSolution.user_actions d) ->
         SimpleSolution.user_id a = u ->
         SimpleSolution.contributes a = false) ->
      find_row SimpleSolution.us_user_id u (SimpleSolution.user_stats d)
      = None ->
      find_row SimpleSolution.us_user_id u
        (SimpleSolution.user_stats (SimpleSolution.backfill_totals now d))
      = None)
  /\ (In (u, 0) (SimpleSolution.user_totals d) ->
      exists r,
        find_row SimpleSolution.us_user_id u
          (SimpleSolution.user_stats (SimpleSolution.backfill_totals now d))
        = Some r
        /\ SimpleSolution.total_lbs r = 0).
Proof.
  split; [|split; [|split]].
  - intros Hv.
    assert (Hskip : SimpleSolution.update_emission_totals now NEW d = d)
      by (apply update_emission_totals_skips_zero; lia).
    split; [exact Hskip|].
    unfold SimpleSolution.insert_user_action,
      SimpleSolution.update_emission_totals. simpl.
    rewrite Hv. now split.
  - intros Hins Hzero.
    destruct (inserted_rows_have_positive_action templates people d Hins)
      as [_ Hrows].
    apply find_row_None. intros Hin.
    destruct (Hrows u Hin) as (a & Ha & Hid & Hpos).
    specialize (Hzero a Ha Hid). lia.
  - intros Hnone Hrow.
    rewrite backfill_totals_keeps_other_users, Hrow; [reflexivity|].
    apply find_row_None. intros Hin. apply in_map_iff in Hin.
    destruct Hin as ([k total] & Hk & Hin). simpl in Hk. subst k.
    apply user_totals_spec in Hin.
    destruct Hin as ((a & Ha & Hc & Hid) & _).
    specialize (Hnone a Ha Hid). congruence.
  - intros Hin.
    destruct (backfill_totals_sets_user_total now d u 0 Hin) as (r & Hr & Ht).
    exists r. split; [exact Hr|]. now rewrite Ht.
Qed.

(** The amended statement on one action of user1 on a template that
    saves nothing: the insert creates no row, the backfill creates a row
    of total 0. *)
Lemma zero_quantity_actions_are_not_counted_witness :
  SimpleSolution.v_lbs zero_template zero_action = 0
  /\ SimpleSolution.user_stats
       (SimpleSolution.insert_user_action 1 zero_action
          (SimpleSolution.empty_db zero_template []))
     = []
  /\ simple_inserted zero_template []
       (SimpleSolution.insert_user_action 1 zero_action
          (SimpleSolution.empty_db zero_template []))
  /\ find_row SimpleSolution.us_user_id "user1"%string
       (SimpleSolution.user_stats
          (SimpleSolution.insert_user_action 1 zero_action
             (SimpleSolution.empty_db zero_template [])))
     = None
  /\ exists r,
       find_row SimpleSolution.us_user_id "user1"%string
         (SimpleSolution.user_stats
            (SimpleSolution.backfill_totals 2
               (SimpleSolution.insert_user_action 1 zero_action
                  (SimpleSolution.empty_db zero_template []))))
       = Some r
       /\ SimpleSolution.total_lbs r = 0.
Proof.
  assert (Hv : SimpleSolution.v_lbs zero_template zero_action = 0)
    by reflexivity.
  assert (Hins : simple_inserted zero_template []
                   (SimpleSolution.insert_user_action 1 zero_action
                      (SimpleSolution.empty_db zero_template [])))
    by (apply inserted_insert; apply inserted_initial).
  assert (Hzero : forall a,
             In a (SimpleSolution.user_actions
                     (SimpleSolution.insert_user_action 1 zero_action
                        (SimpleSolution.empty_db zero_template []))) ->
             SimpleSolution.user_id a = "user1"%string ->
             SimpleSolution.v_lbs zero_template a = 0).
  { intros a [Ha|[]] _. now subst a. }
  destruct (zero_quantity_actions_are_not_counted zero_template [] 1
              zero_action (SimpleSolution.empty_db zero_template [])
              "user1"%string)
    as (H1 & _).
  destruct (zero_quantity_actions_are_not_counted zero_template [] 2
              zero_action
              (SimpleSolution.insert_user_action 1 zero_action
                 (SimpleSolution.empty_db zero_template []))
              "user1"%string)
    as (_ & H2 & _ & H4).
  split; [exact Hv|].
  split; [exact (proj1 (proj2 (H1 Hv)))|].
  split; [exact Hins|].
  split; [exact (H2 Hins Hzero)|].
  apply H4. left. reflexivity.
Defined.

(** C10 (counterexample).  After [backfill_totals], user1, whose only
    action has quantity 0 (a template that saves nothing), has a
    [user_stats] row. *)
Lemma zero_quantity_counterexample :
  ~ zero_quantity_users_have_no_aggregate.
Proof.
  intros H.
  specialize (H zero_template []
                (SimpleSolution.backfill_totals 2
                   (SimpleSolution.insert_user_action 1 zero_action
                      (SimpleSolution.empty_db zero_template [])))
                "user1"%string).
  assert (Hreach : simple_reachable zero_template []
            (SimpleSolution.backfill_totals 2
               (SimpleSolution.insert_user_action 1 zero_action
                  (SimpleSolution.empty_db zero_template []))))
    by (apply simple_backfill; apply simple_insert; apply simple_initial).
  assert (Hzero : forall a,
             In a (SimpleSolution.user_actions
                     (SimpleSolution.backfill_totals 2
                        (SimpleSolution.insert_user_action 1 zero_action
                           (SimpleSolution.empty_db zero_template [])))) ->
             SimpleSolution.user_id a = "user1"%string ->
             SimpleSolution.v_lbs zero_template a = 0).
  { intros a [Ha|[]] _. now subst a. }
  specialize (H Hreach Hzero). vm_compute in H. discriminate H.
Qed.

(* ================================================================== *)
(** * Part III.  Further properties of the code                         *)
(* ================================================================== *)

(** ** Generic facts about tables *)

Lemma find_row_update_rows {R : Type} (key : R -> uuid) k k'
    (set : R -> R) (t : list R) :
  (forall r, key (set r) = key r) ->
  find_row key k' (update_rows key k set t)
  = if uuid_eqb k k' then option_map set (find_row key k' t)
    else find_row key k' t.
Proof.
  intros Hkey. induction t as [|r t IH]; simpl.
  - now destruct (uuid_eqb k k').
  - destruct (uuid_eqb (key r) k) eqn:E.
    + rewrite Hkey. apply uuid_eqb_eq in E. subst k.
      destruct (uuid_eqb (key r) k') eqn:E'; [reflexivity|exact IH].
    + destruct (uuid_eqb (key r) k') eqn:E'; [|exact IH].
      apply uuid_eqb_eq in E'. subst k'.
      rewrite uuid_eqb_sym, E. reflexivity.
Qed.

Lemma find_row_upsert_other {R : Type} (key : R -> uuid) k k'
    (fresh : R) (set : R -> R) (t : list R) :
  k <> k' ->
  key fresh = k ->
  (forall r, key (set r) = key r) ->
  find_row key k' (upsert key k fresh set t) = find_row key k' t.
Proof.
  intros Hne Hfresh Hkey. unfold upsert.
  apply uuid_eqb_neq in Hne.
  destruct (find_row key k t) eqn:E.
  - rewrite find_row_update_rows by exact Hkey. now rewrite Hne.
  - destruct (find_row key k' t) eqn:E'.
    + rewrite find_row_app_present; [exact E'|congruence].
    + rewrite find_row_app_absent by exact E'. simpl.
      rewrite Hfresh, Hne. reflexivity.
Qed.

(** A row found under a primary key splits the table around it, and an
    [UPDATE] by that key rewrites that row alone. *)
Lemma update_rows_split {R : Type} (key : R -> uuid) k (set : R -> R)
    (t : list R) (r : R) :
  primary_key key t ->
  find_row key k t = Some r ->
  exists t1 t2,
    t = (t1 ++ r :: t2)%list
    /\ key r = k
    /\ ~ In k (map key t1)
    /\ ~ In k (map key t2)
    /\ update_rows key k set t = (t1 ++ set r :: t2)%list.
Proof.
  unfold primary_key. induction t as [|x t IH]; simpl; [discriminate|].
  intros Hpk Hfind. inversion Hpk as [|? ? Hx Hpk']; subst.
  destruct (uuid_eqb (key x) k) eqn:E.
  - inversion Hfind; subst x. apply uuid_eqb_eq in E.
    exists [], t. simpl. rewrite <- E.
    repeat split; auto.
    now rewrite update_rows_absent.
  - destruct (IH Hpk' Hfind) as (t1 & t2 & Ht & Hk & H1 & H2 & Hup).
    exists (x :: t1), t2. simpl. rewrite Hup, Ht.
    repeat split; auto.
    apply uuid_eqb_neq in E. intros [H|H]; [now apply E|now apply H1].
Qed.

(* ------------------------------------------------------------------ *)
(** ** The AI-verification schema *)

Section AiHistories.
Import AiVerification.

Lemma set_user_actions_same d : set_user_actions (user_actions d) d = d.
Proof. now destruct d. Qed.

Lemma trigger_fold_absent now id set l acc :
  ~ In id (map action_id l) ->
  fold_left
    (fun acc OLD =>
       if uuid_eqb (action_id OLD) id
       then global_sync_trigger_function now OLD (set OLD) acc
       else acc)
    l acc
  = acc.
Proof.
  revert acc. induction l as [|r l IH]; simpl; intros acc Hn; [reflexivity|].
  destruct (uuid_eqb (action_id r) id) eqn:E.
  - apply uuid_eqb_eq in E. exfalso. apply Hn. now left.
  - apply IH. intros H. apply Hn. now right.
Qed.

Lemma trigger_fold_unique now id set l a acc :
  NoDup (map action_id l) ->
  find_row action_id id l = Some a ->
  fold_left
    (fun acc OLD =>
       if uuid_eqb (action_id OLD) id
       then global_sync_trigger_function now OLD (set OLD) acc
       else acc)
    l acc
  = global_sync_trigger_function now a (set a) acc.
Proof.
  revert acc. induction l as [|r l IH]; simpl; intros acc Hpk Hfind;
    [discriminate|].
  inversion Hpk as [|? ? Hr Hpk']; subst.
  destruct (uuid_eqb (action_id r) id) eqn:E.
  - inversion Hfind; subst r. apply uuid_eqb_eq in E. subst id.
    now apply trigger_fold_absent.
  - now apply IH.
Qed.

(** An update by [action_id] runs the trigger once, for the row of that
    identifier. *)
Lemma update_user_action_unique now id set d a :
  primary_key action_id (user_actions d) ->
  find_row action_id id (user_actions d) = Some a ->
  update_user_action now id set d
  = global_sync_trigger_function now a (set a)
      (set_user_actions (update_rows action_id id set (user_actions d)) d).
Proof.
  intros Hpk Hfind. unfold update_user_action.
  now apply trigger_fold_unique.
Qed.

Lemma update_user_action_absent now id set d :
  find_row action_id id (user_actions d) = None ->
  update_user_action now id set d = d.
Proof.
  intros Hfind. unfold update_user_action.
  apply find_row_None in Hfind.
  rewrite trigger_fold_absent by exact Hfind.
  rewrite update_rows_absent by exact Hfind.
  apply set_user_actions_same.
Qed.

Lemma update_user_action_keeps (P : db -> Prop) now id set d :
  (forall t d0, P d0 -> P (set_user_actions t d0)) ->
  (forall OLD NEW d0,
     P d0 -> P (global_sync_trigger_function now OLD NEW d0)) ->
  P d -> P (update_user_action now id set d).
Proof.
  intros Hset Htrigger Hd. unfold update_user_action.
  assert (Hacc : P (set_user_actions
                      (update_rows action_id id set (user_actions d)) d))
    by now apply Hset.
  revert Hacc. generalize (set_user_actions
                             (update_rows action_id id set (user_actions d)) d).
  induction (user_actions d) as [|r l IH]; simpl; intros acc Hacc;
    [exact Hacc|].
  apply IH.
  destruct (uuid_eqb (action_id r) id); [now apply Htrigger|exact Hacc].
Qed.

Lemma trigger_keeps_counts now OLD NEW d :
  primary_key us_user_id (user_stats d) ->
  ai_counted d ->
  ai_counted (global_sync_trigger_function now OLD NEW d).
Proof.
  intros Hpk Hc. unfold ai_counted, global_sync_trigger_function in *.
  destruct (verified NEW && negb (verified OLD)); [|exact Hc].
  simpl. rewrite (sum_of_upsert us_user_id action_count _ _ _ _ 1 Hpk);
    [lia|reflexivity|reflexivity].
Qed.

Lemma ai_reachable_counted registered d :
  ai_reachable registered d -> ai_counted d.
Proof.
  intros H.
  enough (Hall : primary_key us_user_id (user_stats d)
                 /\ ai_consistent d /\ ai_counted d) by tauto.
  induction H as [|d a d' _ IH Hins|d now id v _ IH|d now _ IH].
  - repeat split. constructor.
  - destruct (insert_user_action_keeps_aggregates a d d' Hins) as [Hs Hg].
    unfold ai_consistent, ai_counted in *. now rewrite Hs, Hg.
  - unfold verifyAndSyncAction.
    destruct v;
      apply (update_user_action_keeps
               (fun d0 => primary_key us_user_id (user_stats d0)
                          /\ ai_consistent d0 /\ ai_counted d0));
      try exact IH; try (intros t d0 H0; exact H0);
      intros OLD NEW d0 (Hpk & Hc & Hn);
      destruct (trigger_preserves_consistency now OLD NEW d0 Hpk Hc);
      repeat split; try assumption; now apply trigger_keeps_counts.
  - destruct IH as (Hpk & Hc & Hn).
    destruct (sync_establishes_consistency now d) as [Hc' Hs].
    unfold ai_counted, ai_consistent in *. rewrite Hs.
    repeat split; try assumption.
    + rewrite <- Hs. exact Hc'.
    + unfold sync_global_emissions_from_user_stats. simpl.
      now destruct (sum_of total_emissions_lbs (user_stats d)
                    =? total_lbs_saved (global_emissions d)).
Qed.

End AiHistories.

(** X1.  In every state the AI-verification schema reaches from the
    freshly created tables (by inserting actions, by updating an action's
    verification flag either way, and by the reconciliation function),
    the global total is the sum of the user totals and the global action
    count is the sum of the users' action counts. *)
Theorem ai_reachable_totals_and_counts registered d :
  ai_reachable registered d ->
  primary_key AiVerification.us_user_id (AiVerification.user_stats d)
  /\ AiVerification.total_lbs_saved (AiVerification.global_emissions d)
     = sum_of AiVerification.total_emissions_lbs (AiVerification.user_stats d)
  /\ AiVerification.total_actions (AiVerification.global_emissions d)
     = sum_of AiVerification.action_count (AiVerification.user_stats d).
Proof.
  intros H. destruct (ai_reachable_consistent registered d H) as [Hpk Hc].
  split; [exact Hpk|]. split; [exact Hc|].
  now apply (ai_reachable_counted registered).
Qed.

Lemma ai_reachable_totals_and_counts_witness :
  ai_reachable three_users
    (AiVerification.verifyAndSyncAction 5 "a1"%string true one_saved_action)
  /\ AiVerification.total_actions
       (AiVerification.global_emissions
          (AiVerification.verifyAndSyncAction 5 "a1"%string true
             one_saved_action))
     = sum_of AiVerification.action_count
         (AiVerification.user_stats
            (AiVerification.verifyAndSyncAction 5 "a1"%string true
               one_saved_action)).
Proof.
  assert (Hreach : ai_reachable three_users
            (AiVerification.verifyAndSyncAction 5 "a1"%string true
               one_saved_action)).
  { apply ai_verify.
    apply (ai_insert three_users (AiVerification.empty_db three_users)
             {| AiVerification.action_id := "a1"%string;
                AiVerification.ua_user_id := "user1"%string;
                AiVerification.emissions_saved_lbs := 10200000;
                AiVerification.verified := false;
                AiVerification.verified_at := None |});
      [apply ai_initial|reflexivity]. }
  split; [exact Hreach|].
  exact (proj2 (proj2 (ai_reachable_totals_and_counts _ _ Hreach))).
Defined.

Lemma primary_key_app_fresh {R : Type} (key : R -> uuid) (t : list R)
    (r : R) :
  primary_key key t ->
  find_row key (key r) t = None ->
  primary_key key (t ++ [r]).
Proof.
  unfold primary_key. intros Hpk Hnone. apply find_row_None in Hnone.
  rewrite map_app. simpl.
  apply NoDup_rev in Hpk.
  rewrite <- (rev_involutive (map key t ++ [key r])).
  apply NoDup_rev. rewrite rev_app_distr. simpl.
  constructor; [now rewrite <- in_rev|exact Hpk].
Qed.

Section VerifiedHistories.
Import AiVerification.

Lemma verified_actions_of_split u l1 x l2 :
  verified_actions_of u (l1 ++ x :: l2)
  = (verified_actions_of u l1
     ++ (if verified x && uuid_eqb (ua_user_id x) u then [x] else [])
     ++ verified_actions_of u l2)%list.
Proof.
  unfold verified_actions_of. rewrite filter_app. simpl.
  now destruct (verified x && uuid_eqb (ua_user_id x) u).
Qed.

Lemma verified_split l1 x l2 :
  filter verified (l1 ++ x :: l2)
  = (filter verified l1 ++ (if verified x then [x] else [])
     ++ filter verified l2)%list.
Proof. rewrite filter_app. simpl. now destruct (verified x). Qed.

(** The invariant of the verified histories. *)
Lemma verified_history_invariant registered d :
  ai_verified_history registered d ->
  primary_key action_id (user_actions d)
  /\ primary_key us_user_id (user_stats d)
  /\ (forall u, ai_user_exact d u)
  /\ ai_global_exact d.
Proof.
  induction 1 as [|d new_id userId lbs d' _ IH Hsave|d now id _ IH].
  - split; [constructor|]. split; [constructor|].
    split; [intros u; reflexivity|split; reflexivity].
  - destruct IH as (Hka & Hks & Hu & Hg).
    unfold saveUserAction, insert_user_action in Hsave. simpl in Hsave.
    destruct (find_row action_id new_id (user_actions d)) eqn:E;
      [discriminate|].
    destruct (lbs <? 0); [discriminate|].
    inversion Hsave; subst d'; clear Hsave. simpl.
    split; [now apply primary_key_app_fresh|]. split; [exact Hks|].
    split.
    + intros u. specialize (Hu u). unfold ai_user_exact in *. simpl.
      unfold verified_actions_of in *. rewrite filter_app. simpl.
      now rewrite app_nil_r.
    + unfold ai_global_exact in *. simpl. rewrite filter_app. simpl.
      now rewrite app_nil_r.
  - destruct IH as (Hka & Hks & Hu & Hg).
    unfold verifyAndSyncAction.
    destruct (find_row action_id id (user_actions d)) as [a|] eqn:E.
    2:{ rewrite update_user_action_absent by exact E.
        split; [exact Hka|]. split; [exact Hks|]. split; [exact Hu|exact Hg]. }
    rewrite (update_user_action_unique now id _ d a Hka E).
    destruct (update_rows_split action_id id (set_verified_true now)
                (user_actions d) a Hka E)
      as (l1 & l2 & Hacts & Hid & _ & _ & Hup).
    rewrite Hup. unfold global_sync_trigger_function. simpl.
    destruct (verified a) eqn:Hv; simpl.
    + (* already verified: the trigger does nothing *)
      split.
      { unfold primary_key in *. rewrite Hacts in Hka.
        rewrite map_app in *. exact Hka. }
      split; [exact Hks|]. split.
      * intros u. specialize (Hu u). unfold ai_user_exact in *. simpl.
        rewrite Hacts in Hu. rewrite verified_actions_of_split in *.
        simpl. rewrite Hv in Hu. simpl in Hu.
        destruct (find_row us_user_id u (user_stats d)) as [r|];
          destruct (uuid_eqb (ua_user_id a) u); simpl in *;
          rewrite ?sum_of_app, ?length_app in *; simpl in *;
          try exact Hu.
        -- destruct Hu as (_ & Ht & Hc).
           split; [now destruct (verified_actions_of u l1)|].
           now split.
        -- now destruct (verified_actions_of u l1).
      * unfold ai_global_exact in *. simpl. rewrite Hacts in Hg.
        rewrite verified_split in *. simpl. rewrite Hv in Hg.
        rewrite ?sum_of_app, ?length_app in *. simpl in *.
        destruct Hg as [Ht Hc]. split; lia.
    + (* the transition: the trigger adds the action *)
      split.
      { unfold primary_key in *. rewrite Hacts in Hka.
        rewrite map_app in *. exact Hka. }
      split.
      { apply primary_key_upsert; [exact Hks|reflexivity|reflexivity]. }
      split.
      * intros u. specialize (Hu u). unfold ai_user_exact in *. simpl.
        rewrite Hacts in Hu. rewrite verified_actions_of_split in *.
        simpl. rewrite Hv in Hu. simpl in Hu.
        destruct (uuid_eqb (ua_user_id a) u) eqn:Eu.
        -- apply uuid_eqb_eq in Eu. subst u.
           rewrite find_row_upsert_same by reflexivity.
           rewrite sum_of_app, length_app. simpl.
           destruct (find_row us_user_id (ua_user_id a) (user_stats d))
             as [r|]; simpl.
           ++ destruct Hu as (_ & Ht & Hc). rewrite sum_of_app in Ht.
              rewrite length_app in Hc.
              split; [now destruct (verified_actions_of (ua_user_id a) l1)|].
              split; lia.
           ++ apply app_eq_nil in Hu. destruct Hu as [H1 H2].
              rewrite H1, H2. simpl.
              split; [discriminate|]. split; lia.
        -- apply uuid_eqb_neq in Eu.
           rewrite find_row_upsert_other by (try reflexivity; exact Eu).
           exact Hu.
      * unfold ai_global_exact in *. simpl. rewrite Hacts in Hg.
        rewrite verified_split in *. simpl. rewrite Hv in Hg.
        rewrite ?sum_of_app, ?length_app in *. simpl in *.
        destruct Hg as [Ht Hc]. split; lia.
Qed.

End VerifiedHistories.

(** X2.  In a history of saved actions and successful verifications, a
    user has a [user_stats] row exactly when the user has a verified
    action; the row's total is the sum of the user's verified actions and
    its count their number; and the global row holds the sum and the
    number of all verified actions. *)
Theorem verified_history_totals registered d u :
  ai_verified_history registered d ->
  let mine := verified_actions_of u (AiVerification.user_actions d) in
  let all :=
    filter AiVerification.verified (AiVerification.user_actions d) in
  (mine = [] ->
   find_row AiVerification.us_user_id u (AiVerification.user_stats d) = None)
  /\ (mine <> [] ->
      exists r,
        find_row AiVerification.us_user_id u (AiVerification.user_stats d)
        = Some r
        /\ AiVerification.total_emissions_lbs r
           = sum_of AiVerification.emissions_saved_lbs mine
        /\ AiVerification.action_count r = Z.of_nat (List.length mine))
  /\ AiVerification.total_lbs_saved (AiVerification.global_emissions d)
     = sum_of AiVerification.emissions_saved_lbs all
  /\ AiVerification.total_actions (AiVerification.global_emissions d)
     = Z.of_nat (List.length all).
Proof.
  intros H. cbv zeta.
  destruct (verified_history_invariant registered d H)
    as (_ & _ & Hu & Hg).
  specialize (Hu u). unfold ai_user_exact in Hu. cbv zeta in Hu.
  destruct Hg as [Ht Hc].
  split; [|split; [|split; [exact Ht|exact Hc]]].
  - intros Hnil.
    destruct (find_row AiVerification.us_user_id u
                (AiVerification.user_stats d)); [|reflexivity].
    now destruct Hu.
  - intros Hsome.
    destruct (find_row AiVerification.us_user_id u
                (AiVerification.user_stats d)) as [r|]; [|contradiction].
    exists r. split; [reflexivity|]. now destruct Hu.
Qed.

Lemma verified_history_totals_witness :
  ai_verified_history three_users
    (AiVerification.verifyAndSyncAction 5 "a1"%string true one_saved_action)
  /\ exists r,
       find_row AiVerification.us_user_id "user1"%string
         (AiVerification.user_stats
            (AiVerification.verifyAndSyncAction 5 "a1"%string true
               one_saved_action))
       = Some r
       /\ AiVerification.total_emissions_lbs r = 10200000.
Proof.
  assert (Hh : ai_verified_history three_users
            (AiVerification.verifyAndSyncAction 5 "a1"%string true
               one_saved_action)).
  { apply history_verify.
    apply (history_save three_users (AiVerification.empty_db three_users)
             "a1"%string "user1"%string 10200000);
      [apply history_initial|reflexivity]. }
  split; [exact Hh|].
  destruct (proj1 (proj2 (verified_history_totals _ _ "user1"%string Hh)))
    as (r & Hr & Ht & _); [discriminate|].
  exists r. split; [exact Hr|exact Ht].
Defined.

Section ActiveUsers.
Import AiVerification.

Lemma in_verified_actions_of u acts :
  verified_actions_of u acts <> []
  <-> In u (map ua_user_id (filter verified acts)).
Proof.
  unfold verified_actions_of. induction acts as [|a acts IH]; simpl.
  - split; [congruence|intros []].
  - destruct (verified a) eqn:Hv; simpl; [|exact IH].
    destruct (uuid_eqb (ua_user_id a) u) eqn:E.
    + apply uuid_eqb_eq in E. split; [now left|discriminate].
    + apply uuid_eqb_neq in E. rewrite IH. split; [now right|].
      now intros [H|H].
Qed.

Lemma filter_length_le {A : Type} (P : A -> bool) (l : list A) :
  (List.length (filter P l) <= List.length l)%nat.
Proof.
  induction l as [|x l IH]; simpl; [lia|].
  destruct (P x); simpl; lia.
Qed.

Lemma filter_length_all {A : Type} (P : A -> bool) (l : list A) :
  List.length (filter P l) = List.length l ->
  forall x, In x l -> P x = true.
Proof.
  induction l as [|y l IH]; simpl; intros Hlen x Hin; [contradiction|].
  pose proof (filter_length_le P l) as Hle.
  destruct (P y) eqn:E; simpl in Hlen; [|lia].
  destruct Hin as [Hin|Hin]; [now subst|]. apply IH; [lia|exact Hin].
Qed.

Lemma distinct_length_le l :
  (List.length (distinct l) <= List.length l)%nat.
Proof.
  induction l as [|x l IH]; simpl; [lia|].
  pose proof (filter_length_le (fun y => negb (uuid_eqb y x)) (distinct l)).
  lia.
Qed.

Lemma filter_others_absent x l :
  ~ In x l -> filter (fun y => negb (uuid_eqb y x)) l = l.
Proof.
  induction l as [|y l IH]; simpl; intros Hx; [reflexivity|].
  destruct (uuid_eqb y x) eqn:E.
  - apply uuid_eqb_eq in E. exfalso. apply Hx. now left.
  - simpl. f_equal. apply IH. intros H. apply Hx. now right.
Qed.

Lemma distinct_of_NoDup l : NoDup l -> distinct l = l.
Proof.
  induction 1 as [|x l Hx _ IH]; simpl; [reflexivity|].
  rewrite IH. f_equal. now apply filter_others_absent.
Qed.

Lemma distinct_full_length l :
  List.length (distinct l) = List.length l -> NoDup l.
Proof.
  induction l as [|x l IH]; simpl; intros Hlen; [constructor|].
  pose proof (filter_length_le (fun y => negb (uuid_eqb y x)) (distinct l))
    as H1.
  pose proof (distinct_length_le l) as H2.
  constructor.
  - intros Hin. apply (proj2 (distinct_In l x)) in Hin.
    assert (Hfull : List.length
                      (filter (fun y => negb (uuid_eqb y x)) (distinct l))
                    = List.length (distinct l)) by lia.
    pose proof (filter_length_all _ _ Hfull x Hin) as Hall.
    simpl in Hall. now rewrite uuid_eqb_refl in Hall.
  - apply IH. lia.
Qed.

End ActiveUsers.

(** X3.  In a history of saved actions and successful verifications the
    number of active users, as [get_active_users_count] and
    [getActiveUsersCount] report it, is the number of [user_stats]
    rows. *)
Theorem active_users_have_the_totals registered d query_fails :
  ai_verified_history registered d ->
  get_active_users_count d
  = Z.of_nat (List.length (AiVerification.user_stats d))
  /\ getActiveUsersCount false query_fails d
     = Z.of_nat (List.length (AiVerification.user_stats d)).
Proof.
  intros H.
  destruct (verified_history_invariant registered d H)
    as (_ & Hks & Hu & _).
  assert (Hcount : get_active_users_count d
                   = Z.of_nat (List.length (AiVerification.user_stats d))).
  { unfold get_active_users_count. f_equal.
    rewrite <- (length_map AiVerification.us_user_id
                  (AiVerification.user_stats d)).
    apply Permutation_length. apply NoDup_Permutation.
    - apply distinct_NoDup.
    - exact Hks.
    - intros u. rewrite distinct_In, <- in_verified_actions_of.
      specialize (Hu u). unfold ai_user_exact in Hu. cbv zeta in Hu.
      destruct (find_row AiVerification.us_user_id u
                  (AiVerification.user_stats d)) as [r|] eqn:E.
      + apply find_row_Some in E. destruct E as [Hin Hid].
        split; [intros _|intros _; now destruct Hu].
        subst u. now apply in_map.
      + apply find_row_None in E. rewrite Hu. split; [congruence|].
        intros Hin. contradiction. }
  split; [exact Hcount|exact Hcount].
Qed.

Lemma active_users_have_the_totals_witness :
  ai_verified_history three_users
    (AiVerification.verifyAndSyncAction 5 "a1"%string true one_saved_action)
  /\ get_active_users_count
       (AiVerification.verifyAndSyncAction 5 "a1"%string true
          one_saved_action)
     = 1.
Proof.
  assert (Hh : ai_verified_history three_users
            (AiVerification.verifyAndSyncAction 5 "a1"%string true
               one_saved_action)).
  { apply history_verify.
    apply (history_save three_users (AiVerification.empty_db three_users)
             "a1"%string "user1"%string 10200000);
      [apply history_initial|reflexivity]. }
  split; [exact Hh|].
  exact (proj1 (active_users_have_the_totals _ _ false Hh)).
Defined.

(** X4.  The direct query that [getActiveUsersCount] falls back to
    counts verified actions, not users: it never reports fewer active
    users than [get_active_users_count], and it reports the same number
    exactly when no user has two verified actions. *)
Theorem direct_count_counts_actions d :
  get_active_users_count d <= getActiveUsersCountDirect false d
  /\ (get_active_users_count d = getActiveUsersCountDirect false d
      <-> NoDup
            (map AiVerification.ua_user_id
               (filter AiVerification.verified
                       (AiVerification.user_actions d))))
  /\ getActiveUsersCount true false d = getActiveUsersCountDirect false d.
Proof.
  unfold get_active_users_count, getActiveUsersCount,
    getActiveUsersCountDirect.
  set (l := map AiVerification.ua_user_id
              (filter AiVerification.verified
                      (AiVerification.user_actions d))).
  rewrite <- (length_map AiVerification.ua_user_id
                (filter AiVerification.verified
                        (AiVerification.user_actions d))).
  fold l. pose proof (distinct_length_le l) as Hle.
  split; [lia|]. split; [|reflexivity].
  split.
  - intros H. apply distinct_full_length. lia.
  - intros H. now rewrite distinct_of_NoDup.
Qed.

Lemma update_rows_twice {R : Type} (key : R -> uuid) k (f g : R -> R)
    (t : list R) :
  (forall r, key (g r) = key r) ->
  update_rows key k f (update_rows key k g t)
  = update_rows key k (fun r => f (g r)) t.
Proof.
  intros Hkey. induction t as [|r t IH]; simpl; [reflexivity|].
  rewrite IH. f_equal.
  destruct (uuid_eqb (key r) k) eqn:E; [|now rewrite E].
  now rewrite Hkey, E.
Qed.

Section Reverification.
Import AiVerification.

Lemma update_user_action_aggregates now id set d a :
  primary_key action_id (user_actions d) ->
  find_row action_id id (user_actions d) = Some a ->
  (forall r, action_id (set r) = action_id r) ->
  let d' := update_user_action now id set d in
  user_actions d' = update_rows action_id id set (user_actions d)
  /\ primary_key action_id (user_actions d')
  /\ find_row action_id id (user_actions d') = Some (set a)
  /\ global_emissions d'
     = if verified (set a) && negb (verified a)
       then {| total_lbs_saved :=
                 total_lbs_saved (global_emissions d)
                 + emissions_saved_lbs (set a);
               total_actions := total_actions (global_emissions d) + 1;
               ge_last_updated := now |}
       else global_emissions d.
Proof.
  intros Hpk Hfind Hkey. cbv zeta.
  rewrite (update_user_action_unique now id set d a Hpk Hfind).
  rewrite trigger_keeps_user_actions. simpl.
  split; [reflexivity|]. split.
  { unfold primary_key. now rewrite map_key_update_rows. }
  split.
  { rewrite find_row_update_rows by exact Hkey.
    now rewrite uuid_eqb_refl, Hfind. }
  unfold global_sync_trigger_function.
  now destruct (verified (set a) && negb (verified a)).
Qed.

End Reverification.

(** X5.  The trigger counts every transition of an action from
    unverified to verified: an action that is verified, put back to
    unverified and verified again is added to the global total twice and
    counted twice, while the verified actions hold it once. *)
Theorem reverification_counts_again now1 now2 now3 id a d :
  primary_key AiVerification.action_id (AiVerification.user_actions d) ->
  find_row AiVerification.action_id id (AiVerification.user_actions d)
  = Some a ->
  AiVerification.verified a = false ->
  let d3 :=
    AiVerification.verifyAndSyncAction now3 id true
      (AiVerification.verifyAndSyncAction now2 id false
         (AiVerification.verifyAndSyncAction now1 id true d)) in
  AiVerification.total_lbs_saved (AiVerification.global_emissions d3)
  = AiVerification.total_lbs_saved (AiVerification.global_emissions d)
    + 2 * AiVerification.emissions_saved_lbs a
  /\ AiVerification.total_actions (AiVerification.global_emissions d3)
     = AiVerification.total_actions (AiVerification.global_emissions d) + 2
  /\ sum_of AiVerification.emissions_saved_lbs
       (filter AiVerification.verified (AiVerification.user_actions d3))
     = sum_of AiVerification.emissions_saved_lbs
         (filter AiVerification.verified (AiVerification.user_actions d))
       + AiVerification.emissions_saved_lbs a.
Proof.
  intros Hpk Hfind Hv. cbv zeta. unfold AiVerification.verifyAndSyncAction.
  destruct (update_user_action_aggregates now1 id
              (AiVerification.set_verified_true now1) d a Hpk Hfind
              (fun r => eq_refl))
    as (Ha1 & Hpk1 & Hf1 & Hg1).
  set (d1 := AiVerification.update_user_action now1 id
               (AiVerification.set_verified_true now1) d) in *.
  destruct (update_user_action_aggregates now2 id
              AiVerification.set_verified_false d1 _ Hpk1 Hf1
              (fun r => eq_refl))
    as (Ha2 & Hpk2 & Hf2 & Hg2).
  set (d2 := AiVerification.update_user_action now2 id
               AiVerification.set_verified_false d1) in *.
  destruct (update_user_action_aggregates now3 id
              (AiVerification.set_verified_true now3) d2 _ Hpk2 Hf2
              (fun r => eq_refl))
    as (Ha3 & _ & _ & Hg3).
  set (d3 := AiVerification.update_user_action now3 id
               (AiVerification.set_verified_true now3) d2) in *.
  simpl in Hg1, Hg2, Hg3. rewrite Hv in Hg1. simpl in Hg1.
  rewrite Hg3, Hg2, Hg1.
  cbn [AiVerification.total_lbs_saved AiVerification.total_actions].
  split; [lia|]. split; [lia|].
  rewrite Ha3, Ha2, Ha1.
  rewrite !update_rows_twice by reflexivity.
  destruct (update_rows_split AiVerification.action_id id
              (fun r =>
                 AiVerification.set_verified_true now3
                   (AiVerification.set_verified_false
                      (AiVerification.set_verified_true now1 r)))
              (AiVerification.user_actions d) a Hpk Hfind)
    as (l1 & l2 & Hacts & _ & _ & _ & Hup).
  rewrite Hup, Hacts, !filter_app. simpl. rewrite Hv.
  rewrite !sum_of_app. simpl. lia.
Qed.

Lemma reverification_counts_again_witness :
  AiVerification.total_lbs_saved
    (AiVerification.global_emissions
       (AiVerification.verifyAndSyncAction 3 "a1"%string true
          (AiVerification.verifyAndSyncAction 2 "a1"%string false
             (AiVerification.verifyAndSyncAction 1 "a1"%string true
                one_saved_action))))
  = 0 + 2 * 10200000.
Proof.
  refine (proj1 (reverification_counts_again 1 2 3 "a1"%string
                   {| AiVerification.action_id := "a1"%string;
                      AiVerification.ua_user_id := "user1"%string;
                      AiVerification.emissions_saved_lbs := 10200000;
                      AiVerification.verified := false;
                      AiVerification.verified_at := None |}
                   one_saved_action _ eq_refl eq_refl)).
  repeat constructor. simpl. tauto.
Defined.

(* ------------------------------------------------------------------ *)
(** ** Reconciliation and leaderboard of the AI-verification schema *)

(** X6.  A second run of [hourly_sync_check] after a first finds the
    totals in sync whatever the first found: it changes nothing, raises no
    warning and reports no discrepancy. *)
Theorem second_sync_check_finds_nothing now1 now2 d :
  let d1 := fst (fst (AiVerification.hourly_sync_check now1 d)) in
  let run := AiVerification.hourly_sync_check now2 d1 in
  fst (fst run) = d1
  /\ snd run = []
  /\ AiVerification.j_was_in_sync (snd (fst run)) = true
  /\ AiVerification.j_fixed (snd (fst run)) = false
  /\ AiVerification.j_discrepancy (snd (fst run)) = 0
  /\ AiVerification.j_in_sync (snd (fst run)) = true.
Proof.
  cbv zeta.
  assert (Hfirst : fst (fst (AiVerification.hourly_sync_check now1 d))
                   = fst (AiVerification.sync_global_emissions_from_user_stats
                            now1 d)).
  { unfold AiVerification.hourly_sync_check.
    now destruct (AiVerification.sync_global_emissions_from_user_stats
                    now1 d). }
  rewrite Hfirst.
  destruct (sync_establishes_consistency now1 d) as [Hc _].
  set (d1 := fst (AiVerification.sync_global_emissions_from_user_stats
                    now1 d)) in *.
  unfold ai_consistent in Hc.
  unfold AiVerification.hourly_sync_check,
    AiVerification.sync_global_emissions_from_user_stats.
  rewrite <- Hc, Z.eqb_refl. simpl.
  rewrite Z.sub_diag, Z.eqb_refl. repeat split.
Qed.

Section ShownTotals.

Lemma round_div_monotone n m d :
  0 < d -> n <= m -> round_div n d <= round_div m d.
Proof.
  intros Hd Hle. unfold round_div.
  assert (Hpos : forall x, 0 <= (2 * Z.abs x + d) / (2 * d))
    by (intros x; apply Z.div_pos; lia).
  assert (Hmono : forall a b,
             a <= b -> (2 * a + d) / (2 * d) <= (2 * b + d) / (2 * d))
    by (intros a b Hab; apply Z.div_le_mono; lia).
  pose proof (Hpos n) as Hn0. pose proof (Hpos m) as Hm0.
  pose proof (Hmono (Z.abs n) (Z.abs m)) as Hnm.
  pose proof (Hmono (Z.abs m) (Z.abs n)) as Hmn.
  destruct (Z.sgn_spec n) as [[Hn Hsn]|[[Hn Hsn]|[Hn Hsn]]];
    destruct (Z.sgn_spec m) as [[Hm Hsm]|[[Hm Hsm]|[Hm Hsm]]];
    rewrite Hsn, Hsm; lia.
Qed.

Lemma round2_monotone x y : x <= y -> round2 x <= round2 y.
Proof.
  intros H. unfold round2.
  pose proof (round_div_monotone x y 10000 ltac:(lia) H). lia.
Qed.

Lemma StronglySorted_map {A B : Type} (f : A -> B)
    (P : A -> A -> Prop) (Q : B -> B -> Prop) (l : list A) :
  (forall a b, P a b -> Q (f a) (f b)) ->
  StronglySorted P l -> StronglySorted Q (map f l).
Proof.
  intros HPQ. induction 1 as [|a l _ IH Hall]; simpl; constructor;
    [exact IH|].
  apply Forall_map. eapply Forall_impl; [|exact Hall]. intros b. apply HPQ.
Qed.

Lemma StronglySorted_firstn {A : Type} (P : A -> A -> Prop) n (l : list A) :
  StronglySorted P l -> StronglySorted P (firstn n l).
Proof.
  intros H. revert n. induction H as [|a l _ IH Hall]; intros [|n]; simpl;
    try constructor.
  - apply IH.
  - apply Forall_forall. intros x Hx. apply firstn_incl in Hx.
    rewrite Forall_forall in Hall. now apply Hall.
Qed.

Lemma StronglySorted_row_number {A : Type} (P : A -> A -> Prop) start
    (l : list A) :
  StronglySorted P l ->
  StronglySorted (fun x y => P (snd x) (snd y)) (row_number start l).
Proof.
  intros H. revert start. induction H as [|a l _ IH Hall]; intros start;
    simpl; constructor; [apply IH|].
  apply Forall_forall. intros x Hx. apply row_number_In in Hx.
  rewrite Forall_forall in Hall. simpl. now apply Hall.
Qed.

End ShownTotals.

(** X7.  Down the board that [get_leaderboard] returns, the totals shown
    (rounded to two decimals) never increase. *)
Theorem leaderboard_shows_descending_totals limit d :
  StronglySorted shown_not_above (AiVerification.get_leaderboard limit d).
Proof.
  unfold AiVerification.get_leaderboard.
  apply StronglySorted_firstn.
  apply (StronglySorted_map _
           (fun x y => ranked_not_after (snd x) (snd y))).
  - intros x y H. unfold shown_not_above, ranked_not_after in *. simpl.
    apply round2_monotone. lia.
  - apply StronglySorted_row_number.
    eapply StronglySorted_weaken;
      [intros a b; apply leaderboard_before_spec|].
    apply order_by_sorted;
      [exact leaderboard_before_total|exact leaderboard_before_trans].
Qed.

Lemma firstn_row_number {A : Type} n start (l : list A) :
  firstn n (row_number start l) = row_number start (firstn n l).
Proof.
  revert start l. induction n as [|n IH]; intros start [|x l]; simpl;
    try reflexivity.
  now rewrite IH.
Qed.

(** The boards the functions compute for a limit are the first rows of
    those they compute for a larger limit. *)
Lemma computed_board_prefix n m d ds :
  (n <= m)%nat ->
  AiVerification.get_leaderboard n d
  = firstn n (AiVerification.get_leaderboard m d)
  /\ List.length (AiVerification.get_leaderboard n d)
     = Nat.min n (List.length (AiVerification.ranked_users d))
  /\ SimpleSolution.get_leaderboard_simple n ds
     = firstn n (SimpleSolution.get_leaderboard_simple m ds).
Proof.
  intros Hle. split; [|split].
  - unfold AiVerification.get_leaderboard.
    rewrite firstn_firstn. now rewrite Nat.min_l.
  - unfold AiVerification.get_leaderboard.
    rewrite length_firstn, length_map, row_number_length.
    now rewrite (Permutation_length (order_by_perm _ _)).
  - unfold SimpleSolution.get_leaderboard_simple,
      SimpleSolution.ranked_users.
    assert (Hsorted : forall k,
               order_by SimpleSolution.simple_before
                 (firstn k
                    (order_by SimpleSolution.simple_before
                       (flat_map
                          (SimpleSolution.left_join_profiles
                             (SimpleSolution.profiles ds))
                          (filter
                             (fun us => 0 <? SimpleSolution.total_lbs us)
                             (SimpleSolution.user_stats ds)))))
               = firstn k
                   (order_by SimpleSolution.simple_before
                      (flat_map
                         (SimpleSolution.left_join_profiles
                            (SimpleSolution.profiles ds))
                         (filter
                            (fun us => 0 <? SimpleSolution.total_lbs us)
                            (SimpleSolution.user_stats ds))))).
    { intros k. apply order_by_of_sorted. apply firstn_sorted.
      apply StronglySorted_Sorted.
      apply order_by_sorted;
        [exact simple_before_total|exact simple_before_trans]. }
    rewrite !Hsorted.
    rewrite firstn_map, firstn_row_number, firstn_firstn.
    now rewrite Nat.min_l.
Qed.

(** X8.  Raising the limit of a leaderboard only appends rows.  When no
    two users tie on the keys, every result for a limit is the first
    rows of every result for a larger limit, with the same ranks, for
    [get_leaderboard] and for [get_leaderboard_simple].  With ties, a
    result of [get_leaderboard] for a limit is still the first rows of
    some result for the larger limit; and a result has as many rows as
    the limit allows and the ranked users provide. *)
Theorem leaderboard_limit_is_a_prefix n m d ds board_n board_m bs_n bs_m :
  (n <= m)%nat ->
  get_leaderboard_returns n d board_n ->
  get_leaderboard_returns m d board_m ->
  get_leaderboard_simple_returns n ds bs_n ->
  get_leaderboard_simple_returns m ds bs_m ->
  (no_ties AiVerification.leaderboard_before (AiVerification.ranked_users d)
   -> board_n = firstn n board_m)
  /\ (no_ties SimpleSolution.simple_before (simple_candidates ds) ->
      bs_n = firstn n bs_m)
  /\ (exists board,
        get_leaderboard_returns m d board /\ board_n = firstn n board)
  /\ List.length board_n
     = Nat.min n (List.length (AiVerification.ranked_users d)).
Proof.
  intros Hle Hn Hm Hsn Hsm.
  destruct (computed_board_prefix n m d ds Hle) as (Hai & _ & Hsimple).
  split; [|split; [|split]].
  - intros Hno.
    rewrite (get_leaderboard_returns_unique n d board_n Hno Hn).
    rewrite (get_leaderboard_returns_unique m d board_m Hno Hm).
    exact Hai.
  - intros Hno.
    rewrite (get_leaderboard_simple_returns_unique n ds bs_n Hno Hsn).
    rewrite (get_leaderboard_simple_returns_unique m ds bs_m Hno Hsm).
    exact Hsimple.
  - destruct Hn as (numbered & returned & Hnum & Hret & Hb).
    exists (firstn m (map leaderboard_row_of returned)). split.
    + now exists numbered, returned.
    + rewrite firstn_firstn, Nat.min_l by exact Hle. exact Hb.
  - destruct Hn as (numbered & returned & [Hpn _] & [Hpr _] & Hb).
    subst board_n. rewrite length_firstn, length_map.
    rewrite <- (Permutation_length Hpr), row_number_length.
    now rewrite <- (Permutation_length Hpn).
Qed.

(** On the board of two users with totals 10.2 and 10.3, which do not
    tie. *)
Lemma leaderboard_limit_is_a_prefix_witness :
  no_ties AiVerification.leaderboard_before
    (AiVerification.ranked_users two_on_board)
  /\ AiVerification.get_leaderboard 1 two_on_board
     = firstn 1 (AiVerification.get_leaderboard 2 two_on_board).
Proof.
  assert (Hno : no_ties AiVerification.leaderboard_before
                  (AiVerification.ranked_users two_on_board)).
  { apply no_ties_of_distinct_totals. vm_compute.
    apply NoDup_cons; [intros [H|[]]; discriminate H|].
    apply NoDup_cons; [intros []|apply NoDup_nil]. }
  split; [exact Hno|].
  exact (proj1 (leaderboard_limit_is_a_prefix 1 2 two_on_board
                  three_small_actions _ _ _ _ ltac:(lia)
                  (get_leaderboard_is_a_result 1 two_on_board)
                  (get_leaderboard_is_a_result 2 two_on_board)
                  (get_leaderboard_simple_is_a_result 1 three_small_actions)
                  (get_leaderboard_simple_is_a_result 2 three_small_actions))
           Hno).
Defined.

(* ------------------------------------------------------------------ *)
(** ** FINAL_SIMPLE_SOLUTION.sql *)

Section SimpleTotals.
Import SimpleSolution.

Lemma find_row_mirror_total sel u t :
  option_map total_lbs (find_row us_user_id u (mirror_total sel t))
  = option_map total_lbs (find_row us_user_id u t).
Proof.
  unfold mirror_total. rewrite find_row_map.
  - destruct (find_row us_user_id u t) as [r|]; [|reflexivity]. simpl.
    now destruct (sel r && _).
  - intros r. now destruct (sel r && _).
Qed.

Lemma get_user_total_after_insert now a d u :
  get_user_total u (insert_user_action now a d)
  = get_user_total u d
    + (if uuid_eqb (user_id a) u then counted (action_templates d) a else 0).
Proof.
  unfold get_user_total, insert_user_action, update_emission_totals, counted.
  simpl. destruct (0 <? v_lbs (action_templates d) a) eqn:Hv; simpl.
  - rewrite find_row_mirror_total.
    destruct (uuid_eqb (user_id a) u) eqn:E.
    + apply uuid_eqb_eq in E. subst u.
      rewrite find_row_upsert_same by reflexivity.
      destruct (find_row us_user_id (user_id a) (user_stats d)); simpl; lia.
    + apply uuid_eqb_neq in E.
      rewrite find_row_upsert_other by (try reflexivity; exact E). lia.
  - destruct (uuid_eqb (user_id a) u); lia.
Qed.

Lemma get_global_total_after_insert now a d :
  get_global_total (insert_user_action now a d)
  = get_global_total d + counted (action_templates d) a.
Proof.
  unfold get_global_total, insert_user_action, update_emission_totals, counted.
  simpl. destruct (0 <? v_lbs (action_templates d) a); simpl; lia.
Qed.

End SimpleTotals.

(** X9.  Inserting an action whose quantity is positive raises the total
    of its user and the global total by exactly that quantity; an action
    of any other quantity raises nothing; and no insert changes what
    [get_user_total] returns for another user. *)
Theorem insert_adds_to_user_and_global now a d u :
  let v := SimpleSolution.v_lbs (SimpleSolution.action_templates d) a in
  let d' := SimpleSolution.insert_user_action now a d in
  SimpleSolution.get_user_total u d'
  = SimpleSolution.get_user_total u d
    + (if uuid_eqb (SimpleSolution.user_id a) u && (0 <? v) then v else 0)
  /\ SimpleSolution.get_global_total d'
     = SimpleSolution.get_global_total d + (if 0 <? v then v else 0).
Proof.
  cbv zeta. rewrite get_user_total_after_insert, get_global_total_after_insert.
  unfold counted.
  destruct (uuid_eqb (SimpleSolution.user_id a) u); simpl; split; reflexivity.
Qed.

(** X10.  Two inserts commute on the totals: in either order the total of
    every user and the global total come out the same. *)
Theorem inserts_commute_on_totals n1 n2 n3 n4 a b d u :
  SimpleSolution.get_user_total u
    (SimpleSolution.insert_user_action n1 a
       (SimpleSolution.insert_user_action n2 b d))
  = SimpleSolution.get_user_total u
      (SimpleSolution.insert_user_action n3 b
         (SimpleSolution.insert_user_action n4 a d))
  /\ SimpleSolution.get_global_total
       (SimpleSolution.insert_user_action n1 a
          (SimpleSolution.insert_user_action n2 b d))
     = SimpleSolution.get_global_total
         (SimpleSolution.insert_user_action n3 b
            (SimpleSolution.insert_user_action n4 a d)).
Proof.
  rewrite !get_user_total_after_insert, !get_global_total_after_insert.
  rewrite !insert_keeps_templates. split; lia.
Qed.

Lemma upsert_In_other {R : Type} (key : R -> uuid) k (fresh : R)
    (set : R -> R) (t : list R) (r : R) :
  key fresh = k ->
  (forall x, key (set x) = key x) ->
  In r (upsert key k fresh set t) ->
  key r <> k ->
  In r t.
Proof.
  intros Hfresh Hkey Hin Hne. unfold upsert in Hin.
  destruct (find_row key k t).
  - clear - Hkey Hin Hne. induction t as [|x t IH]; simpl in *; [exact Hin|].
    destruct Hin as [Hin|Hin]; [|right; now apply IH].
    destruct (uuid_eqb (key x) k) eqn:E; [|now left].
    apply uuid_eqb_eq in E. subst r. rewrite Hkey in Hne. contradiction.
  - apply in_app_or in Hin. destruct Hin as [Hin|[Hin|[]]]; [exact Hin|].
    subst r. contradiction.
Qed.

Section SimpleColumns.
Import SimpleSolution.

Lemma mirror_total_In sel t r' :
  In r' (mirror_total sel t) ->
  total_emissions_lbs r' = Some (total_lbs r')
  \/ (In r' t /\ sel r' = false).
Proof.
  unfold mirror_total. intros Hin. apply in_map_iff in Hin.
  destruct Hin as (r & Hr & Hin).
  destruct (sel r) eqn:Hsel; simpl in Hr.
  - left. destruct (total_emissions_lbs r) as [e|] eqn:He.
    + destruct (e =? total_lbs r) eqn:Heq; simpl in Hr; subst r';
        [|reflexivity].
      apply Z.eqb_eq in Heq. now rewrite He, Heq.
    + now subst r'.
  - right. subst r'. now split.
Qed.

Lemma update_emission_totals_keeps_columns now NEW d :
  simple_columns_agree d ->
  simple_columns_agree (update_emission_totals now NEW d).
Proof.
  intros Hd. unfold update_emission_totals.
  destruct (0 <? v_lbs (action_templates d) NEW); [|exact Hd].
  intros r Hin. simpl in Hin.
  apply mirror_total_In in Hin. destruct Hin as [Hin|[Hin Hsel]];
    [exact Hin|].
  apply Hd. apply uuid_eqb_neq in Hsel.
  eapply upsert_In_other; try exact Hin; try reflexivity. exact Hsel.
Qed.

Lemma simple_reachable_columns templates people d :
  simple_reachable templates people d -> simple_columns_agree d.
Proof.
  induction 1 as [|d now a _ IH|d now _ IH|d now _ IH].
  - intros r [].
  - unfold insert_user_action.
    apply update_emission_totals_keeps_columns. exact IH.
  - intros r Hin. rewrite backfill_totals_user_stats in Hin.
    apply in_map_iff in Hin. destruct Hin as (r0 & Hr & _). now subst r.
  - intros r Hin.
    rewrite (proj2 (sync_global_from_user_stats_sets_total now d)) in Hin.
    now apply IH.
Qed.

End SimpleColumns.

(** X11.  In every state that the inserts, the backfill and the
    reconciliation of [FINAL_SIMPLE_SOLUTION.sql] reach, both columns of
    the global row hold the sum of the user totals, and the legacy column
    [total_emissions_lbs] of every user row mirrors [total_lbs]. *)
Theorem simple_reachable_columns_agree templates people d :
  simple_reachable templates people d ->
  primary_key SimpleSolution.us_user_id (SimpleSolution.user_stats d)
  /\ SimpleSolution.get_global_total d
     = sum_of SimpleSolution.total_lbs (SimpleSolution.user_stats d)
  /\ SimpleSolution.total_lbs_saved (SimpleSolution.global_emissions d)
     = Some (SimpleSolution.get_global_total d)
  /\ forall r,
       In r (SimpleSolution.user_stats d) ->
       SimpleSolution.total_emissions_lbs r
       = Some (SimpleSolution.total_lbs r).
Proof.
  intros H.
  destruct (simple_reachable_consistent templates people d H)
    as (Hpk & Hg & Hs).
  split; [exact Hpk|]. split; [exact Hg|]. split.
  - unfold SimpleSolution.get_global_total. now rewrite Hg.
  - exact (simple_reachable_columns templates people d H).
Qed.

Lemma simple_reachable_columns_agree_witness :
  simple_reachable [] [] two_custom_actions
  /\ SimpleSolution.get_global_total two_custom_actions
     = sum_of SimpleSolution.total_lbs
         (SimpleSolution.user_stats two_custom_actions).
Proof.
  assert (H : simple_reachable [] [] two_custom_actions)
    by (apply simple_insert; apply simple_insert; apply simple_initial).
  split; [exact H|].
  exact (proj1 (proj2 (simple_reachable_columns_agree _ _ _ H))).
Defined.

Section InsertedTotals.
Import SimpleSolution.

Lemma actions_of_app u l1 l2 :
  actions_of u (l1 ++ l2) = (actions_of u l1 ++ actions_of u l2)%list.
Proof. apply filter_app. Qed.

Lemma simple_inserted_reachable templates people d :
  simple_inserted templates people d -> simple_reachable templates people d.
Proof.
  induction 1; [apply simple_initial|now apply simple_insert].
Qed.

Lemma inserted_user_sums templates people d :
  simple_inserted templates people d ->
  action_templates d = templates
  /\ (forall u,
        get_user_total u d
        = sum_of (counted templates) (actions_of u (user_actions d)))
  /\ get_global_total d = sum_of (counted templates) (user_actions d).
Proof.
  induction 1 as [|d now a _ (Ht & Hu & Hg)].
  - repeat split.
  - rewrite insert_keeps_templates, insert_appends_action.
    split; [exact Ht|]. split.
    + intros u. rewrite get_user_total_after_insert, Hu, Ht, actions_of_app,
        sum_of_app.
      unfold actions_of at 3. simpl.
      destruct (uuid_eqb (user_id a) u); simpl; lia.
    + rewrite get_global_total_after_insert, Hg, Ht, sum_of_app. simpl. lia.
Qed.

Lemma counted_nonnegative templates a : 0 <= counted templates a.
Proof.
  unfold counted. destruct (0 <? v_lbs templates a) eqn:E; [|lia].
  apply Z.ltb_lt in E. lia.
Qed.

Lemma sum_of_bounds_a_row {A : Type} (f : A -> Z) (l : list A) (a : A) :
  (forall x, 0 <= f x) -> In a l -> f a <= sum_of f l.
Proof.
  intros Hf. induction l as [|x l IH]; simpl; intros Hin; [contradiction|].
  assert (0 <= sum_of f l).
  { clear - Hf. induction l as [|y l IHl]; simpl; [lia|].
    specialize (Hf y). lia. }
  destruct Hin as [Hin|Hin]; [subst; lia|].
  specialize (IH Hin). specialize (Hf x). lia.
Qed.

Lemma round_div_of_multiple k d : 0 < d -> round_div (k * d) d = k.
Proof.
  intros Hd. unfold round_div.
  assert (Habs : Z.abs (k * d) = Z.abs k * d)
    by (rewrite Z.abs_mul; f_equal; lia).
  rewrite Habs.
  replace (2 * (Z.abs k * d) + d) with (Z.abs k * (2 * d) + d) by lia.
  rewrite Z.div_add_l by lia.
  rewrite (Z.div_small d (2 * d)) by lia.
  assert (Hsgn : Z.sgn (k * d) = Z.sgn k)
    by (rewrite Z.sgn_mul, (Z.sgn_pos d) by lia; lia).
  rewrite Hsgn.
  destruct (Z.sgn_spec k) as [[Hk Hs]|[[Hk Hs]|[Hk Hs]]]; rewrite Hs; lia.
Qed.

Lemma custom_case_lbs templates a :
  action_template_id a = None ->
  case_lbs templates a = counted templates a * 100000
  /\ (contributes a = true -> 0 < counted templates a).
Proof.
  intros Hnone. unfold case_lbs, counted, v_lbs, contributes.
  rewrite Hnone.
  destruct (custom_emissions_saved a) as [c|]; simpl.
  - destruct (0 <? c) eqn:E; rewrite ?E; simpl.
    + apply Z.ltb_lt in E. split; [lia|intros _; exact E].
    + split; [reflexivity|discriminate].
  - split; [reflexivity|discriminate].
Qed.

Lemma custom_user_totals d u total :
  custom_only d ->
  In (u, total) (user_totals d) ->
  total
  = sum_of (counted (action_templates d)) (actions_of u (user_actions d))
    * 100000
  /\ 0 < sum_of (counted (action_templates d))
           (actions_of u (user_actions d)).
Proof.
  intros Hcustom Hin. apply user_totals_spec in Hin.
  destruct Hin as ((a & Ha & Hc & Hid) & Htotal).
  rewrite sum_over_contributing in Htotal. subst total. split.
  - unfold actions_of.
    assert (Hsub : forall x,
               In x (filter (fun ua => uuid_eqb (user_id ua) u)
                            (user_actions d)) ->
               action_template_id x = None).
    { intros x Hx. apply filter_In in Hx. now apply Hcustom. }
    induction (filter (fun ua => uuid_eqb (user_id ua) u) (user_actions d))
      as [|x l IH]; simpl; [reflexivity|].
    rewrite IH by (intros y Hy; apply Hsub; now right).
    rewrite (proj1 (custom_case_lbs (action_templates d) x
                      (Hsub x (or_introl eq_refl)))).
    lia.
  - pose proof (proj2 (custom_case_lbs (action_templates d) a
                         (Hcustom a Ha)) Hc) as Hpos.
    assert (Hmine : In a (actions_of u (user_actions d))).
    { apply filter_In. split; [exact Ha|]. now apply uuid_eqb_eq. }
    pose proof (sum_of_bounds_a_row (counted (action_templates d)) _ a
                  (counted_nonnegative _) Hmine).
    lia.
Qed.

Lemma backfill_keeps_custom_user_total templates people now d u :
  simple_inserted templates people d ->
  custom_only d ->
  get_user_total u (backfill_totals now d) = get_user_total u d.
Proof.
  intros Hins Hcustom.
  destruct (inserted_user_sums templates people d Hins) as (Ht & Hu & _).
  destruct (find_row fst u (user_totals d)) as [[u' total]|] eqn:E.
  - apply find_row_Some in E. destruct E as [Hin Hid]. simpl in Hid.
    subst u'.
    destruct (backfill_totals_sets_user_total now d u total Hin)
      as (r & Hr & Htot).
    destruct (custom_user_totals d u total Hcustom Hin) as [Hsum _].
    unfold get_user_total at 1. rewrite Hr. simpl.
    rewrite Htot, Hsum, round_div_of_multiple by lia.
    now rewrite Hu, Ht.
  - unfold get_user_total.
    rewrite (backfill_totals_keeps_other_users now d u E).
    now destruct (find_row us_user_id u (user_stats d)).
Qed.

End InsertedTotals.

(** X12.  After inserts alone, the total of every user is the sum of the
    positive quantities of that user's actions, and the global total is
    the sum of the positive quantities of all actions. *)
Theorem inserted_totals_are_sums templates people d u :
  simple_inserted templates people d ->
  SimpleSolution.get_user_total u d
  = sum_of (counted templates) (actions_of u (SimpleSolution.user_actions d))
  /\ SimpleSolution.get_global_total d
     = sum_of (counted templates) (SimpleSolution.user_actions d).
Proof.
  intros H.
  destruct (inserted_user_sums templates people d H) as (_ & Hu & Hg).
  split; [apply Hu|exact Hg].
Qed.

Lemma inserted_totals_are_sums_witness :
  simple_inserted [] [] two_custom_actions
  /\ SimpleSolution.get_user_total "user1"%string two_custom_actions
     = 15200000.
Proof.
  assert (H : simple_inserted [] [] two_custom_actions)
    by (apply inserted_insert; apply inserted_insert; apply inserted_initial).
  split; [exact H|].
  exact (proj1 (inserted_totals_are_sums [] [] two_custom_actions
                  "user1"%string H)).
Defined.

(** X13.  When every action carries a custom quantity (none refers to a
    template), [backfill_totals] run after the inserts confirms what the
    trigger accumulated: it changes the total of no user and leaves the
    global total as it was. *)
Theorem backfill_confirms_custom_totals templates people now d u :
  simple_inserted templates people d ->
  custom_only d ->
  SimpleSolution.get_user_total u (SimpleSolution.backfill_totals now d)
  = SimpleSolution.get_user_total u d
  /\ SimpleSolution.get_global_total (SimpleSolution.backfill_totals now d)
     = SimpleSolution.get_global_total d.
Proof.
  intros Hins Hcustom.
  split; [now apply (backfill_keeps_custom_user_total templates people)|].
  destruct (simple_reachable_consistent templates people d
              (simple_inserted_reachable _ _ _ Hins)) as (Hpk & Hg & _).
  destruct (inserted_user_sums templates people d Hins) as (Ht & Hu & _).
  unfold SimpleSolution.get_global_total at 2. rewrite Hg.
  unfold SimpleSolution.get_global_total, SimpleSolution.backfill_totals.
  cbn [SimpleSolution.global_emissions SimpleSolution.g_total_lbs].
  fold (backfill_upserts now (SimpleSolution.user_totals d)
          (SimpleSolution.user_stats d)).
  rewrite backfill_upserts_spec by apply user_totals_NoDup.
  rewrite mirror_total_all.
  assert (Hnone : filter (absent_from (SimpleSolution.user_stats d))
                    (SimpleSolution.user_totals d) = []).
  { apply filter_none. intros [u' total] Hin. unfold absent_from. simpl.
    apply negb_false_iff. apply existsb_key_In.
    destruct (custom_user_totals d u' total Hcustom Hin) as [_ Hpos].
    rewrite Ht, <- Hu in Hpos.
    unfold SimpleSolution.get_user_total in Hpos.
    destruct (find_row SimpleSolution.us_user_id u'
                (SimpleSolution.user_stats d)) as [r|] eqn:E;
      [|simpl in Hpos; lia].
    apply find_row_Some in E. destruct E as [Hr Hid]. subst u'.
    now apply in_map. }
  rewrite Hnone. simpl. rewrite app_nil_r.
  apply sum_of_same_column. rewrite !map_map. apply map_ext_in.
  intros r Hr. cbn [in_line SimpleSolution.total_lbs].
  pose proof (backfill_keeps_custom_user_total templates people now d
                (SimpleSolution.us_user_id r) Hins Hcustom) as Hsame.
  unfold SimpleSolution.get_user_total in Hsame.
  rewrite (find_row_In_NoDup SimpleSolution.us_user_id _ r Hpk Hr) in Hsame.
  rewrite backfill_totals_user_stats, Hnone in Hsame.
  simpl in Hsame. rewrite app_nil_r, map_map in Hsame.
  rewrite (find_row_map_key SimpleSolution.us_user_id
             SimpleSolution.us_user_id) in Hsame
    by (intros s; cbn [in_line SimpleSolution.us_user_id];
        apply backfilled_row_key).
  rewrite (find_row_In_NoDup SimpleSolution.us_user_id _ r Hpk Hr) in Hsame.
  simpl in Hsame. exact Hsame.
Qed.

Lemma backfill_confirms_custom_totals_witness :
  simple_inserted [] [] two_custom_actions
  /\ custom_only two_custom_actions
  /\ SimpleSolution.get_global_total
       (SimpleSolution.backfill_totals 9 two_custom_actions)
     = SimpleSolution.get_global_total two_custom_actions.
Proof.
  assert (H : simple_inserted [] [] two_custom_actions)
    by (apply inserted_insert; apply inserted_insert; apply inserted_initial).
  assert (Hc : custom_only two_custom_actions).
  { intros a [Ha|[Ha|[]]]; now subst a. }
  split; [exact H|]. split; [exact Hc|].
  exact (proj2 (backfill_confirms_custom_totals [] [] 9 two_custom_actions
                  "user1"%string H Hc)).
Defined.

(* ------------------------------------------------------------------ *)
(** ** Migration 20251115050327 *)

Section TriggerHistories.
Import ActionSyncTriggers.

Lemma existsb_moved (P : uuid -> bool) l x s :
  existsb P (l ++ x :: s) = existsb P (x :: l ++ s).
Proof.
  rewrite existsb_app. simpl. rewrite existsb_app.
  destruct (P x), (existsb P l); reflexivity.
Qed.

Lemma repeat_actions_app earlier l a :
  repeat_actions earlier (l ++ [a])
  = (repeat_actions earlier l
     ++ (if existsb (uuid_eqb (user_id a)) (map user_id l ++ earlier)
         then [a] else []))%list.
Proof.
  revert earlier. induction l as [|x l IH]; intros earlier; simpl.
  - now rewrite app_nil_r.
  - rewrite IH, existsb_moved. simpl. now rewrite app_assoc.
Qed.

Lemma existsb_user_inserted u acts :
  existsb (uuid_eqb u) (map user_id acts) = false <-> inserted_by u acts = [].
Proof.
  unfold inserted_by. induction acts as [|a acts IH]; simpl;
    [split; reflexivity|].
  rewrite (uuid_eqb_sym u). destruct (uuid_eqb (user_id a) u); simpl;
    [split; discriminate|exact IH].
Qed.

Lemma triggers_invariant d :
  triggers_reachable d ->
  primary_key us_user_id (user_stats d)
  /\ (forall u,
        match find_row us_user_id u (user_stats d) with
        | Some r =>
            inserted_by u (user_actions d) <> []
            /\ total_lbs r
               = sum_of action_value (inserted_by u (user_actions d))
            /\ action_count r
               = Z.of_nat (List.length (inserted_by u (user_actions d)))
        | None => inserted_by u (user_actions d) = []
        end)
  /\ total_lbs_saved (global_emissions d)
     = sum_of action_value (repeat_actions [] (user_actions d)).
Proof.
  induction 1 as [|d now a _ (Hpk & Hu & Hg)].
  - split; [constructor|]. split; [intros u|]; reflexivity.
  - unfold insert_user_action, insert_user_action_with,
      sync_user_stats_on_action_insert,
      trigger_sync_global_emissions_on_stats_update.
    cbn [user_actions user_stats global_emissions fires existsb tg_op_eqb
         orb].
    fold (action_value a).
    pose proof (Hu (user_id a)) as Hmine.
    destruct (find_row us_user_id (user_id a) (user_stats d))
      as [old|] eqn:E.
    + (* a further action of the user: the update reaches the global row *)
      unfold sync_global_emissions_on_stats_update. simpl.
      split.
      { unfold primary_key. rewrite map_key_update_rows;
          [exact Hpk|reflexivity]. }
      split.
      * intros u. rewrite find_row_update_rows by reflexivity.
        unfold inserted_by in *. rewrite filter_app. simpl.
        destruct (uuid_eqb (user_id a) u) eqn:Eu.
        -- apply uuid_eqb_eq in Eu. subst u. rewrite E. simpl.
           destruct Hmine as (_ & Ht & Hc).
           rewrite sum_of_app, length_app. simpl.
           split; [now destruct (filter _ (user_actions d))|].
           split; lia.
        -- specialize (Hu u). rewrite app_nil_r. exact Hu.
      * rewrite repeat_actions_app, sum_of_app, app_nil_r.
        assert (Hseen : existsb (uuid_eqb (user_id a))
                          (map user_id (user_actions d)) = true).
        { destruct (existsb (uuid_eqb (user_id a))
                      (map user_id (user_actions d))) eqn:Hex;
            [reflexivity|].
          apply existsb_user_inserted in Hex. now destruct Hmine. }
        rewrite Hseen. simpl. lia.
    + (* the first action of the user: the global row is not reached *)
      simpl. split.
      { now apply primary_key_app_fresh. }
      split.
      * intros u. unfold inserted_by in *. rewrite filter_app. simpl.
        destruct (uuid_eqb (user_id a) u) eqn:Eu.
        -- apply uuid_eqb_eq in Eu. subst u.
           rewrite find_row_app_absent by exact E. simpl.
           rewrite uuid_eqb_refl, Hmine. simpl.
           split; [discriminate|]. split; lia.
        -- specialize (Hu u). rewrite app_nil_r.
           destruct (find_row us_user_id u (user_stats d)) eqn:E'.
           ++ rewrite find_row_app_present by congruence.
              now rewrite E'.
           ++ rewrite find_row_app_absent by exact E'. simpl.
              now rewrite Eu.
      * rewrite repeat_actions_app, sum_of_app, app_nil_r.
        apply existsb_user_inserted in Hmine. rewrite Hmine. simpl. lia.
Qed.

End TriggerHistories.

(** X14.  Under the triggers of migration 20251115050327, after any
    sequence of inserts the total of every user is the sum of the
    quantities of that user's actions and the count their number, while
    the global total is the sum of the quantities of the actions that are
    not the first of their user. *)
Theorem first_actions_never_reach_global d u :
  triggers_reachable d ->
  let mine := inserted_by u (ActionSyncTriggers.user_actions d) in
  (mine = [] ->
   find_row ActionSyncTriggers.us_user_id u (ActionSyncTriggers.user_stats d)
   = None)
  /\ (mine <> [] ->
      exists r,
        find_row ActionSyncTriggers.us_user_id u
          (ActionSyncTriggers.user_stats d)
        = Some r
        /\ ActionSyncTriggers.total_lbs r = sum_of action_value mine
        /\ ActionSyncTriggers.action_count r = Z.of_nat (List.length mine))
  /\ ActionSyncTriggers.total_lbs_saved (ActionSyncTriggers.global_emissions d)
     = sum_of action_value
         (repeat_actions [] (ActionSyncTriggers.user_actions d)).
Proof.
  intros H. cbv zeta.
  destruct (triggers_invariant d H) as (_ & Hu & Hg).
  specialize (Hu u).
  split; [|split; [|exact Hg]].
  - intros Hnil.
    destruct (find_row ActionSyncTriggers.us_user_id u
                (ActionSyncTriggers.user_stats d)); [|reflexivity].
    now destruct Hu.
  - intros Hsome.
    destruct (find_row ActionSyncTriggers.us_user_id u
                (ActionSyncTriggers.user_stats d)) as [r|]; [|contradiction].
    exists r. split; [reflexivity|]. now destruct Hu.
Qed.

Lemma first_actions_never_reach_global_witness :
  triggers_reachable three_trigger_inserts
  /\ ActionSyncTriggers.total_lbs_saved
       (ActionSyncTriggers.global_emissions three_trigger_inserts)
     = 5000000
  /\ exists r,
       find_row ActionSyncTriggers.us_user_id "user1"%string
         (ActionSyncTriggers.user_stats three_trigger_inserts)
       = Some r
       /\ ActionSyncTriggers.total_lbs r = 15200000.
Proof.
  assert (H : triggers_reachable three_trigger_inserts)
    by (repeat apply triggers_insert; apply triggers_initial).
  split; [exact H|].
  destruct (first_actions_never_reach_global three_trigger_inserts
              "user1"%string H) as (_ & Hrow & Hg).
  split; [exact Hg|].
  destruct Hrow as (r & Hr & Ht & _); [discriminate|].
  exists r. split; [exact Hr|exact Ht].
Defined.

(* ------------------------------------------------------------------ *)
(** ** Migrations 20251115053008 and 20251117175551 *)

Section SetupTotals.
Import CompleteAppSetup.

Lemma update_rows_In {R : Type} (key : R -> uuid) k (set : R -> R)
    (t : list R) (r : R) :
  In r (update_rows key k set t) ->
  In r t \/ exists x, In x t /\ key x = k /\ r = set x.
Proof.
  induction t as [|x t IH]; simpl; [intros []|].
  intros [Hin|Hin].
  - destruct (uuid_eqb (key x) k) eqn:E.
    + apply uuid_eqb_eq in E. right. exists x. repeat split; auto.
    + left. now left.
  - destruct (IH Hin) as [H|(y & Hy & Hk & Hr)].
    + left. now right.
    + right. exists y. repeat split; auto.
Qed.

Lemma setup_insert_keeps_step now NEW d :
  primary_key us_user_id (user_stats d) ->
  setup_in_step d ->
  primary_key us_user_id (user_stats (insert_user_action now NEW d))
  /\ setup_in_step (insert_user_action now NEW d).
Proof.
  intros Hpk (Hg & Hs & Hc & Hr).
  unfold insert_user_action, sync_user_stats_on_action_insert,
    trigger_sync_global_emissions.
  cbn [action_templates user_stats fires existsb tg_op_eqb orb].
  destruct (v_lbs (action_templates d) NEW) as [v|];
    [|split; [exact Hpk|now repeat split]].
  destruct (0 <? v) eqn:Hv; [|split; [exact Hpk|now repeat split]].
  apply Z.ltb_lt in Hv.
  destruct (find_row us_user_id (user_id NEW) (user_stats d)) as [old|] eqn:E;
    unfold sync_global_emissions_on_stats_update; simpl.
  - replace (total_lbs old + v - total_lbs old =? 0) with false
      by (symmetry; apply Z.eqb_neq; lia).
    simpl. split.
    { unfold primary_key. rewrite map_key_update_rows;
        [exact Hpk|reflexivity]. }
    unfold setup_in_step. simpl.
    rewrite (sum_of_update_rows us_user_id total_lbs _ _ _ old Hpk E).
    rewrite (sum_of_update_rows us_user_id action_count _ _ _ old Hpk E).
    simpl. repeat split; try lia.
    intros r Hin. apply update_rows_In in Hin.
    destruct Hin as [Hin|(x & Hx & _ & Hrx)]; [now apply Hr|].
    subst r. simpl. rewrite (Hr x Hx). reflexivity.
  - replace (v - 0 =? 0) with false by (symmetry; apply Z.eqb_neq; lia).
    simpl. split.
    { now apply primary_key_app_fresh. }
    unfold setup_in_step. simpl. rewrite !sum_of_app. simpl.
    repeat split; try lia.
    intros r Hin. apply in_app_or in Hin.
    destruct Hin as [Hin|[Hin|[]]]; [now apply Hr|now subst r].
Qed.

End SetupTotals.

(** X15.  Under the triggers of the later migrations, after any sequence
    of inserts both total columns of the global row hold the sum of the
    user totals, the global action count is the sum of the users' counts,
    and the two total columns of every user row agree. *)
Theorem setup_reachable_in_step templates d :
  setup_reachable templates d ->
  primary_key CompleteAppSetup.us_user_id (CompleteAppSetup.user_stats d)
  /\ CompleteAppSetup.g_total_lbs (CompleteAppSetup.global_emissions d)
     = sum_of CompleteAppSetup.total_lbs (CompleteAppSetup.user_stats d)
  /\ CompleteAppSetup.total_lbs_saved (CompleteAppSetup.global_emissions d)
     = sum_of CompleteAppSetup.total_lbs (CompleteAppSetup.user_stats d)
  /\ CompleteAppSetup.total_actions (CompleteAppSetup.global_emissions d)
     = sum_of CompleteAppSetup.action_count (CompleteAppSetup.user_stats d)
  /\ forall r,
       In r (CompleteAppSetup.user_stats d) ->
       CompleteAppSetup.total_emissions_lbs r = CompleteAppSetup.total_lbs r.
Proof.
  intros H.
  enough (Hall : primary_key CompleteAppSetup.us_user_id
                   (CompleteAppSetup.user_stats d)
                 /\ setup_in_step d) by exact Hall.
  induction H as [|d now a _ [Hpk Hstep]].
  - split; [constructor|]. repeat split. intros r [].
  - now apply setup_insert_keeps_step.
Qed.

Lemma setup_reachable_in_step_witness :
  setup_reachable
    [ {| CompleteAppSetup.id := "t1"%string;
         CompleteAppSetup.emissions_saved := 2500000 |} ]
    one_template_action
  /\ CompleteAppSetup.total_lbs_saved
       (CompleteAppSetup.global_emissions one_template_action)
     = sum_of CompleteAppSetup.total_lbs
         (CompleteAppSetup.user_stats one_template_action).
Proof.
  assert (H : setup_reachable
                [ {| CompleteAppSetup.id := "t1"%string;
                     CompleteAppSetup.emissions_saved := 2500000 |} ]
                one_template_action)
    by (apply setup_insert; apply setup_initial).
  split; [exact H|].
  exact (proj1 (proj2 (proj2 (setup_reachable_in_step _ _ H)))).
Defined.

(* ------------------------------------------------------------------ *)
(** ** The logging transaction *)

Section LoggingHistories.
Import EmissionLogging.

(** The state an accepted submission leaves. *)
Lemma log_emission_atomic_accepted now a u q d :
  find_row action_id a (user_actions d) = None ->
  0 <= q ->
  let user_total :=
    match find_row us_user_id u (user_stats d) with
    | Some r => total_emissions_lbs r + q
    | None => q
    end in
  let global_total := total_lbs_saved (global_emissions d) + q in
  log_emission_atomic now a u q d
  = ({| user_actions :=
          user_actions d
          ++ [ {| action_id := a; ua_user_id := u;
                  emissions_saved_lbs := q; verified := true |} ];
        user_stats :=
          upsert us_user_id u
            {| us_user_id := u; total_emissions_lbs := q;
               action_count := 1; last_updated := now |}
            (fun r =>
               {| us_user_id := us_user_id r;
                  total_emissions_lbs := total_emissions_lbs r + q;
                  action_count := action_count r + 1;
                  last_updated := last_updated r |})
            (user_stats d);
        global_emissions :=
          {| total_lbs_saved := global_total;
             total_actions := total_actions (global_emissions d) + 1;
             ge_last_updated := ge_last_updated (global_emissions d) |};
        emission_events :=
          emission_events d
          ++ [ {| ev_action_id := a; ev_user_id := u;
                  ev_emissions_lbs := q;
                  ev_user_total_lbs := user_total;
                  ev_global_total_lbs := global_total |} ] |},
     RpcData
       [ {| success := true; r_action_id := a; r_user_id := u;
            r_emissions_lbs := q;
            user_total_lbs := Some user_total;
            global_total_lbs := Some global_total;
            is_duplicate := false |} ]).
Proof.
  intros Hnew Hq. cbv zeta. unfold log_emission_atomic.
  rewrite Hnew.
  replace (q <? 0) with false by (symmetry; apply Z.ltb_ge; exact Hq).
  rewrite insert_do_nothing_spec. simpl. rewrite Hnew. reflexivity.
Qed.

Lemma log_emission_atomic_rejected now a u q d :
  find_row action_id a (user_actions d) = None ->
  q < 0 ->
  exists message, log_emission_atomic now a u q d = (d, RpcError message).
Proof.
  intros Hnew Hq. unfold log_emission_atomic. rewrite Hnew.
  replace (q <? 0) with true by (symmetry; apply Z.ltb_lt; exact Hq).
  eexists. reflexivity.
Qed.

Lemma logged_total_accepted now a u q d u' :
  find_row action_id a (user_actions d) = None ->
  0 <= q ->
  logged_total u' (fst (log_emission_atomic now a u q d))
  = if uuid_eqb u u'
    then Some (coalesce (logged_total u' d) 0 + q)
    else logged_total u' d.
Proof.
  intros Hnew Hq. rewrite log_emission_atomic_accepted by assumption.
  unfold logged_total. simpl.
  destruct (uuid_eqb u u') eqn:E.
  - apply uuid_eqb_eq in E. subst u'.
    rewrite find_row_upsert_same by reflexivity.
    destruct (find_row us_user_id u (user_stats d)); simpl; f_equal; lia.
  - apply uuid_eqb_neq in E.
    now rewrite find_row_upsert_other by (try reflexivity; exact E).
Qed.

End LoggingHistories.

Section LoggedTotals.
Import EmissionLogging.

Lemma log_emission_atomic_cases now a u q d :
  fst (log_emission_atomic now a u q d) = d
  \/ (find_row action_id a (user_actions d) = None /\ 0 <= q).
Proof.
  destruct (find_row action_id a (user_actions d)) eqn:E.
  - left. unfold log_emission_atomic. now rewrite E.
  - destruct (Z.lt_ge_cases q 0) as [Hq|Hq].
    + left.
      destruct (log_emission_atomic_rejected now a u q d E Hq) as [m Hm].
      now rewrite Hm.
    + right. now split.
Qed.

Lemma logging_invariant d :
  logging_reachable d ->
  primary_key action_id (user_actions d)
  /\ primary_key us_user_id (user_stats d)
  /\ (forall u,
        match find_row us_user_id u (user_stats d) with
        | Some r =>
            logged_by u (user_actions d) <> []
            /\ total_emissions_lbs r
               = sum_of emissions_saved_lbs (logged_by u (user_actions d))
            /\ action_count r
               = Z.of_nat (List.length (logged_by u (user_actions d)))
        | None => logged_by u (user_actions d) = []
        end)
  /\ total_lbs_saved (global_emissions d)
     = sum_of emissions_saved_lbs (user_actions d)
  /\ total_actions (global_emissions d)
     = Z.of_nat (List.length (user_actions d))
  /\ map ev_action_id (emission_events d) = map action_id (user_actions d)
  /\ Forall (fun r => verified r = true /\ 0 <= emissions_saved_lbs r)
            (user_actions d).
Proof.
  induction 1 as [|d now a u q _ IH].
  - split; [constructor|]. split; [constructor|].
    split; [intros u; reflexivity|]. repeat split. constructor.
  - destruct (log_emission_atomic_cases now a u q d) as [Hsame|[Hnew Hq]];
      [now rewrite Hsame|].
    destruct IH as (Hka & Hks & Hu & Hg & Hc & He & Hv).
    rewrite log_emission_atomic_accepted by assumption. simpl.
    split; [now apply primary_key_app_fresh|].
    split; [apply primary_key_upsert; [exact Hks|reflexivity|reflexivity]|].
    split.
    { intros u'. unfold logged_by in *. rewrite filter_app. simpl.
      pose proof (Hu u') as Hmine.
      destruct (uuid_eqb u u') eqn:E.
      - apply uuid_eqb_eq in E. subst u'.
        rewrite find_row_upsert_same by reflexivity.
        rewrite sum_of_app, length_app. simpl.
        destruct (find_row us_user_id u (user_stats d)) as [r|]; simpl.
        + destruct Hmine as (_ & Ht & Hn).
          split; [now destruct (filter _ (user_actions d))|]. split; lia.
        + rewrite Hmine. simpl. split; [discriminate|]. split; lia.
      - apply uuid_eqb_neq in E.
        rewrite find_row_upsert_other by (try reflexivity; exact E).
        now rewrite app_nil_r. }
    rewrite sum_of_app, length_app, !map_app, He. simpl.
    repeat split; try lia.
    apply Forall_app. split; [exact Hv|]. constructor; [|constructor].
    now split.
Qed.

End LoggedTotals.

(** X17.  In every state the logging transaction reaches, every logged
    action is verified and non-negative; a user has a [user_stats] row
    exactly when the user has a logged action, the row holding the sum and
    the number of the user's actions; the global row holds the sum and the
    number of all actions; and the event log holds one event per action,
    in the same order. *)
Theorem logged_history_totals d u :
  logging_reachable d ->
  let mine := logged_by u (EmissionLogging.user_actions d) in
  (mine = [] -> logged_total u d = None)
  /\ (mine <> [] ->
      exists r,
        find_row EmissionLogging.us_user_id u (EmissionLogging.user_stats d)
        = Some r
        /\ EmissionLogging.total_emissions_lbs r
           = sum_of EmissionLogging.emissions_saved_lbs mine
        /\ EmissionLogging.action_count r = Z.of_nat (List.length mine))
  /\ EmissionLogging.total_lbs_saved (EmissionLogging.global_emissions d)
     = sum_of EmissionLogging.emissions_saved_lbs
         (EmissionLogging.user_actions d)
  /\ EmissionLogging.total_actions (EmissionLogging.global_emissions d)
     = Z.of_nat (List.length (EmissionLogging.user_actions d))
  /\ map EmissionLogging.ev_action_id (EmissionLogging.emission_events d)
     = map EmissionLogging.action_id (EmissionLogging.user_actions d)
  /\ Forall
       (fun r =>
          EmissionLogging.verified r = true
          /\ 0 <= EmissionLogging.emissions_saved_lbs r)
       (EmissionLogging.user_actions d).
Proof.
  intros H. cbv zeta.
  destruct (logging_invariant d H) as (_ & _ & Hu & Hg & Hc & He & Hv).
  specialize (Hu u). unfold logged_total.
  split; [|split; [|now repeat split]].
  - intros Hnil.
    destruct (find_row EmissionLogging.us_user_id u
                (EmissionLogging.user_stats d)); [|reflexivity].
    now destruct Hu.
  - intros Hsome.
    destruct (find_row EmissionLogging.us_user_id u
                (EmissionLogging.user_stats d)) as [r|]; [|contradiction].
    exists r. split; [reflexivity|]. now destruct Hu.
Qed.

Lemma logged_history_totals_witness :
  logging_reachable scenario_A_logged
  /\ EmissionLogging.total_actions
       (EmissionLogging.global_emissions scenario_A_logged)
     = 3.
Proof.
  assert (H : logging_reachable scenario_A_logged)
    by (repeat apply logging_log; apply logging_initial).
  split; [exact H|].
  exact (proj1 (proj2 (proj2 (proj2
           (logged_history_totals scenario_A_logged "user1"%string H))))).
Defined.

(* ------------------------------------------------------------------ *)
(** ** The TypeScript services *)

(** X18.  [logAction] checks that the identifiers and the quantity are
    present and nothing else: for a numeric quantity of either sign it
    calls [log_emission_atomic] once, with the quantity as printed, and
    resolves whatever the database replies. *)
Theorem logAction_makes_no_sign_check
    (DB : Type)
    (rpc : ActionsApi.log_action_args -> DB
           -> DB * Services.rpc_reply Services.log_row)
    (now : timestamptz) (request : ActionsApi.LogActionRequest) (d : DB)
    (q : numeric) :
  Services.missing (ActionsApi.action_id request) = false ->
  Services.missing (ActionsApi.user_id request) = false ->
  ActionsApi.lbs request = Some (Services.Num q) ->
  exists args response,
    ActionsApi.p_emissions_lbs args = Services.Printed q
    /\ ActionsApi.p_action_id args = ActionsApi.action_id request
    /\ ActionsApi.p_user_id args = ActionsApi.user_id request
    /\ ActionsApi.logAction DB rpc now request d
       = (fst (rpc args d), Services.Resolved response).
Proof.
  intros Ha Hu Hq.
  unfold ActionsApi.logAction, ActionsApi.logAction_try.
  rewrite Ha, Hu, Hq. simpl.
  match goal with
  | |- context [rpc ?a d] => exists a
  end.
  destruct (rpc _ d) as [d' [[|result rest]|m]]; simpl.
  - eexists. repeat split.
  - destruct (Services.toString (Services.row_emissions_lbs result)),
      (Services.toString (Services.row_user_total_lbs result)),
      (Services.toString (Services.row_global_total_lbs result));
      eexists; repeat split.
  - eexists. repeat split.
Qed.

Lemma logAction_makes_no_sign_check_witness :
  exists args response,
    ActionsApi.p_emissions_lbs args = Services.Printed (-5000000)
    /\ ActionsApi.p_action_id args = Some "a1"%string
    /\ ActionsApi.p_user_id args = Some "user1"%string
    /\ ActionsApi.logAction unit failing_rpc 7 negative_request tt
       = (fst (failing_rpc args tt), Services.Resolved response).
Proof.
  exact (logAction_makes_no_sign_check unit failing_rpc 7 negative_request
           tt (-5000000) eq_refl eq_refl eq_refl).
Defined.

(** X19.  The write wrappers keep every failure inside their result:
    [logEmission] and [logAction] resolve whenever the request carries a
    quantity, [logActionFullSpec] and [bulkBackfillActions] resolve for
    every request, whatever the database function replies. *)
Theorem write_wrappers_contain_errors :
  (forall (DB : Type) rpc request (d : DB) q,
      Services.emissions_lbs request = Some q ->
      exists response,
        snd (Services.logEmission DB rpc request d)
        = Services.Resolved response)
  /\ (forall (DB : Type) rpc now request (d : DB) x,
        ActionsApi.lbs request = Some x ->
        exists response,
          snd (ActionsApi.logAction DB rpc now request d)
          = Services.Resolved response)
  /\ (forall (DB : Type) rpc ToNumber now request (d : DB),
        exists response,
          snd (Services.logActionFullSpec DB rpc ToNumber now request d)
          = Services.Resolved response)
  /\ (forall (DB : Type) rpc request (d : DB),
        exists response,
          snd (Services.bulkBackfillActions DB rpc request d)
          = Services.Resolved response).
Proof.
  split; [|split; [|split]].
  - intros DB rpc request d q Hq. unfold Services.logEmission.
    destruct (Services.logEmission_try DB rpc request d) as [d' [r|e]];
      simpl; [now eexists|].
    rewrite Hq. simpl. now eexists.
  - intros DB rpc now request d x Hx. unfold ActionsApi.logAction.
    destruct (ActionsApi.logAction_try DB rpc now request d) as [d' [r|e]];
      simpl; [now eexists|].
    rewrite Hx. destruct x; simpl; now eexists.
  - intros DB rpc ToNumber now request d. unfold Services.logActionFullSpec.
    destruct (Services.logActionFullSpec_try DB rpc ToNumber now request d)
      as [d' [r|e]]; simpl; now eexists.
  - intros DB rpc request d. unfold Services.bulkBackfillActions.
    destruct (Services.bulkBackfillActions_try DB rpc request d)
      as [d' [r|e]]; simpl; now eexists.
Qed.

Lemma write_wrappers_contain_errors_witness :
  exists response,
    snd (ActionsApi.logAction unit failing_rpc 7 negative_request tt)
    = Services.Resolved response.
Proof.
  exact (proj1 (proj2 write_wrappers_contain_errors) unit failing_rpc 7
           negative_request tt (Services.Num (-5000000)) eq_refl).
Defined.

(** X20.  [bulkBackfillActions] calls the database function at most
    once, never with an unverified action and never with an empty list:
    either no action of the request is verified, and then the database is
    left as it is and the result reports failure; or the function is
    called once with exactly the verified actions of the request, in
    their order. *)
Theorem bulkBackfillActions_sends_the_verified
    (DB : Type)
    (rpc : list Services.action_jsonb -> option string -> DB
           -> DB * Services.rpc_reply Services.backfill_row)
    (request : Services.BulkBackfillRequest) (d : DB) :
  let given := coalesce (Services.actions request) [] in
  let call := Services.bulkBackfillActions DB rpc request d in
  (filter Services.log_verified given = []
   /\ fst call = d
   /\ exists response,
        snd call = Services.Resolved response
        /\ Services.bulk_success response = false
        /\ Services.inserted_count response = 0)
  \/ (exists sent key,
        sent = map Services.to_jsonb (filter Services.log_verified given)
        /\ sent <> []
        /\ Forall (fun a => Services.jb_verified a = true) sent
        /\ fst call = fst (rpc sent key d)).
Proof.
  cbv zeta.
  unfold Services.bulkBackfillActions, Services.bulkBackfillActions_try.
  destruct (Services.actions request) as [[|a given]|]; cbn [coalesce].
  - left. split; [reflexivity|]. split; [reflexivity|].
    eexists. now repeat split.
  - destruct (filter Services.log_verified (a :: given)) as [|v vs] eqn:E.
    + left. split; [reflexivity|]. split; [reflexivity|].
      eexists. now repeat split.
    + right.
      exists (map Services.to_jsonb (v :: vs)),
        (if Services.missing (Services.idempotency_key request)
         then None else Services.idempotency_key request).
      split; [reflexivity|]. split; [discriminate|]. split.
      * apply Forall_map. apply Forall_forall. intros x Hx.
        rewrite <- E in Hx. apply filter_In in Hx. now destruct Hx.
      * now destruct (rpc _ _ d) as [d' [[|result rest]|m]].
  - left. split; [reflexivity|]. split; [reflexivity|].
    eexists. now repeat split.
Qed.

Section AggregatedSequence.
Import GlobalSync.

Lemma payloads_quantities results total :
  map emissions_added_lbs (payloads results total)
  = verified_quantities results.
Proof.
  unfold verified_quantities. revert total.
  induction results as [|[action status] results IH]; intros t;
    [reflexivity|].
  cbn [payloads filter map fst snd].
  destruct status; cbn [FinalStatus_eqb map]; [now rewrite IH|apply IH].
Qed.

Lemma aggregate_each_quietly results s :
  never_throw (listeners s) ->
  let s' := aggregate_each results s in
  listeners s' = listeners s
  /\ calls s'
     = (calls s
        ++ flat_map (calls_of (listeners s))
             (payloads results (totalLbsSaved (state s))))%list
  /\ totalLbsSaved (state s')
     = fold_left PrimFloat.add (verified_quantities results)
         (totalLbsSaved (state s))
  /\ forall rest p,
       payloads results (totalLbsSaved (state s)) = (rest ++ [p])%list ->
       new_total_lbs p = totalLbsSaved (state s').
Proof.
  cbv zeta.
  revert s. induction results as [|[action status] results IH]; intros s Hq.
  - simpl. rewrite app_nil_r. repeat split.
    intros [|x rest] p H; discriminate H.
  - destruct status.
    + assert (Estep : aggregate_each ((action, verified) :: results) s
                      = aggregate_each results
                          (aggregated
                             (coalesce (emissionsSavedLbs action) 0%float)
                             s)).
      { unfold aggregate_each. cbn [fold_left fst snd].
        now rewrite aggregateVerifiedAction_returns by exact Hq. }
      rewrite Estep.
      set (y := coalesce (emissionsSavedLbs action) 0%float) in *.
      destruct (IH (aggregated y s) Hq) as (Hl & Hc & Ht & Hlast).
      cbn [aggregated listeners calls state totalLbsSaved] in Hl, Hc, Ht,
        Hlast.
      assert (Eq : verified_quantities ((action, verified) :: results)
                   = y :: verified_quantities results) by reflexivity.
      assert (Ep : payloads ((action, verified) :: results)
                     (totalLbsSaved (state s))
                   = {| emissions_added_lbs := y;
                        new_total_lbs := (totalLbsSaved (state s) + y)%float
                     |}
                     :: payloads results
                          (totalLbsSaved (state s) + y)%float)
        by reflexivity.
      rewrite Eq, Ep. clear Eq Ep Estep.
      split; [exact Hl|]. split; [|split].
      * rewrite Hc. cbn [flat_map]. now rewrite <- app_assoc.
      * exact Ht.
      * intros rest p Hp.
        destruct (payloads results (totalLbsSaved (state s) + y)%float)
          as [|p0 ps] eqn:E.
        -- destruct rest as [|x [|x' rest]]; try discriminate Hp.
           inversion Hp; subst p. cbn [new_total_lbs].
           rewrite Ht.
           rewrite <- (payloads_quantities results
                         (totalLbsSaved (state s) + y)%float), E.
           reflexivity.
        -- destruct rest as [|x rest]; [discriminate Hp|].
           inversion Hp as [[Hx Hrest]]. now apply (Hlast rest).
    + assert (Estep : aggregate_each ((action, needs_review) :: results) s
                      = aggregate_each results s) by reflexivity.
      rewrite Estep. now apply IH.
Qed.

End AggregatedSequence.

(** X21.  Over a sequence of verification results, and with listeners
    none of which throws, [aggregateVerifiedAction] adds to the in-memory
    total the quantities of the verified results, in their order, and
    nothing for the others; it calls every listener once for each
    verified result, in order, with that result's quantity and the total
    reached; and the last payload carries the total that
    [getGlobalState] then returns. *)
Theorem aggregation_counts_the_verified results subscribed :
  never_throw subscribed ->
  let s := aggregate_each results (GlobalSync.loaded subscribed) in
  GlobalSync.totalLbsSaved (GlobalSync.getGlobalState s)
  = fold_left PrimFloat.add (verified_quantities results) 0%float
  /\ GlobalSync.calls s
     = flat_map (calls_of subscribed) (payloads results 0%float)
  /\ map GlobalSync.emissions_added_lbs (payloads results 0%float)
     = verified_quantities results
  /\ forall rest p,
       payloads results 0%float = (rest ++ [p])%list ->
       GlobalSync.new_total_lbs p
       = GlobalSync.totalLbsSaved (GlobalSync.getGlobalState s).
Proof.
  intros Hquiet. cbv zeta.
  destruct (aggregate_each_quietly results (GlobalSync.loaded subscribed)
              Hquiet) as (_ & Hcalls & Htotal & Hlast).
  split; [exact Htotal|]. split; [exact Hcalls|]. split; [|exact Hlast].
  apply payloads_quantities.
Qed.

Lemma aggregation_counts_the_verified_witness :
  never_throw [quiet]
  /\ map GlobalSync.emissions_added_lbs
       (map snd
          (GlobalSync.calls
             (aggregate_each mixed_results (GlobalSync.loaded [quiet]))))
     = [10.2%float; 10.3%float].
Proof.
  assert (Hquiet : never_throw [quiet]).
  { intros l n p [<-|[]]. reflexivity. }
  split; [exact Hquiet|].
  destruct (aggregation_counts_the_verified mixed_results [quiet] Hquiet)
    as (_ & Hcalls & _).
  rewrite Hcalls. reflexivity.
Defined.

(** X29.  When one of the listeners throws, a call of
    [aggregateVerifiedAction] for a verified result rejects, and by then
    it has added the quantity to the total three times and counted three
    actions: once for each attempt of [retry]. *)
Theorem throwing_listener_adds_three_times action s :
  one_always_throws (GlobalSync.listeners s) ->
  let y := coalesce (GlobalSync.emissionsSavedLbs action) 0%float in
  exists log e,
    GlobalSync.aggregateVerifiedAction action GlobalSync.verified s
    = ({| GlobalSync.state :=
            {| GlobalSync.totalLbsSaved :=
                 (GlobalSync.totalLbsSaved (GlobalSync.state s) + y + y
                  + y)%float;
               GlobalSync.actionCount :=
                 (GlobalSync.actionCount (GlobalSync.state s) + 1 + 1
                  + 1)%float |};
          GlobalSync.listeners := GlobalSync.listeners s;
          GlobalSync.calls := log |},
       GlobalSync.Thrown e).
Proof.
  intros Hthrows. cbv zeta.
  unfold GlobalSync.aggregateVerifiedAction.
  cbn [GlobalSync.FinalStatus_eqb negb GlobalSync.retry].
  destruct (commit_and_broadcast_throws
              (coalesce (GlobalSync.emissionsSavedLbs action) 0%float) s
              Hthrows) as (log1 & e1 & E1).
  rewrite E1.
  match goal with
  | |- context [GlobalSync.commit_and_broadcast ?y ?s1] =>
      destruct (commit_and_broadcast_throws y s1 Hthrows)
        as (log2 & e2 & E2)
  end.
  rewrite E2. cbn [GlobalSync.state GlobalSync.listeners
                   GlobalSync.totalLbsSaved GlobalSync.actionCount].
  match goal with
  | |- context [GlobalSync.commit_and_broadcast ?y ?s2] =>
      destruct (commit_and_broadcast_throws y s2 Hthrows)
        as (log3 & e3 & E3)
  end.
  rewrite E3. cbn [GlobalSync.state GlobalSync.listeners
                   GlobalSync.totalLbsSaved GlobalSync.actionCount].
  now exists log3, e3.
Qed.

Lemma throwing_listener_adds_three_times_witness :
  one_always_throws [quiet; failing]
  /\ exists log e,
       GlobalSync.aggregateVerifiedAction action_a1 GlobalSync.verified
         (GlobalSync.loaded [quiet; failing])
       = ({| GlobalSync.state :=
               {| GlobalSync.totalLbsSaved := (0 + 22.5 + 22.5 + 22.5)%float;
                  GlobalSync.actionCount := (0 + 1 + 1 + 1)%float |};
             GlobalSync.listeners := [quiet; failing];
             GlobalSync.calls := log |},
          GlobalSync.Thrown e).
Proof.
  assert (H : one_always_throws [quiet; failing]).
  { exists failing. split; [right; left; reflexivity|]. discriminate. }
  split; [exact H|].
  exact (throwing_listener_adds_three_times action_a1
           (GlobalSync.loaded [quiet; failing]) H).
Defined.

(** X22.  [ensureLbs] always answers in pounds, converts a value given
    in kilograms by the factor of [kgToLbs], leaves any other value as it
    is, and applied to its own answer changes nothing. *)
Theorem ensureLbs_answers_in_lbs value unit :
  let r := Units.ensureLbs value unit in
  Units.unit r = "lbs"%string
  /\ Units.ensureLbs (Units.lbs r) (Units.unit r) = r
  /\ (unit = "kg"%string -> Units.lbs r = Units.kgToLbs value)
  /\ (unit <> "kg"%string -> Units.lbs r = value).
Proof.
  cbv zeta. unfold Units.ensureLbs.
  destruct (String.eqb unit "lbs") eqn:E1.
  - apply String.eqb_eq in E1. subst unit. simpl.
    repeat split; try discriminate. 
  - destruct (String.eqb unit "kg") eqn:E2; simpl.
    + apply String.eqb_eq in E2. repeat split. intros H. contradiction.
    + apply String.eqb_neq in E2. repeat split. intros H. contradiction.
Qed.

Lemma ensureLbs_answers_in_lbs_witness :
  Units.lbs (Units.ensureLbs 2%float "kg") = Units.kgToLbs 2%float
  /\ Units.lbs (Units.ensureLbs 2%float "stone") = 2%float.
Proof.
  split.
  - exact (proj1 (proj2 (proj2 (ensureLbs_answers_in_lbs 2%float "kg")))
             eq_refl).
  - refine (proj2 (proj2 (proj2 (ensureLbs_answers_in_lbs 2%float "stone")))
              _).
    discriminate.
Defined.

(** X23.  When the AI provider fails or does not answer in time,
    [verifyUserAction] ends in [verified] exactly when the fallback mode
    is [auto_verify_simple], the quantity is at most 5 and the confidence
    threshold is at most 0.86; and whatever the provider does, a result
    that ends in [verified] carries [verified = true] and a confidence
    that reaches the threshold. *)
Theorem fallback_verifies_small_actions_only quantity config settles :
  let result := Verification.verifyUserAction quantity config settles in
  (settles = Verification.Fails \/ settles = Verification.TimesOut ->
   (Verification.finalStatus result = GlobalSync.verified
    <-> Verification.fallbackMode config
        = Some Verification.auto_verify_simple
        /\ PrimFloat.leb quantity 5%float = true
        /\ PrimFloat.leb (Verification.confidenceThreshold config) 0.86%float
           = true))
  /\ (Verification.finalStatus result = GlobalSync.verified ->
      Verification.verified (Verification.ai result) = true
      /\ PrimFloat.leb (Verification.confidenceThreshold config)
           (Verification.confidence (Verification.ai result))
         = true).
Proof.
  cbv zeta. split.
  - intros Hs.
    assert (Hfall : Verification.withTimeout settles
                      (Verification.fallback quantity config)
                    = Verification.fallback quantity config)
      by (destruct Hs; subst settles; reflexivity).
    unfold Verification.verifyUserAction. rewrite Hfall.
    unfold Verification.fallback. simpl.
    destruct (Verification.fallbackMode config) as [[|]|]; simpl.
    + destruct (PrimFloat.leb quantity 5) eqn:Hq; simpl.
      * destruct (PrimFloat.leb (Verification.confidenceThreshold config)
                    0.86) eqn:Ht; simpl.
        -- split; [now repeat split|reflexivity].
        -- split; [discriminate|]. intros (_ & _ & H). discriminate H.
      * rewrite andb_false_r.
        split; [discriminate|]. intros (_ & H & _). discriminate H.
    + rewrite andb_false_r.
      split; [discriminate|]. intros (H & _). discriminate H.
    + rewrite andb_false_r.
      split; [discriminate|]. intros (H & _). discriminate H.
  - unfold Verification.verifyUserAction. simpl.
    destruct (PrimFloat.leb (Verification.confidenceThreshold config) _);
      simpl; [|discriminate].
    destruct (Verification.verified _); [now split|discriminate].
Qed.

Lemma fallback_verifies_small_actions_only_witness :
  Verification.finalStatus
    (Verification.verifyUserAction 3%float default_config
       Verification.TimesOut)
  = GlobalSync.verified.
Proof.
  apply (proj1 (fallback_verifies_small_actions_only 3%float default_config
                  Verification.TimesOut)).
  - right. reflexivity.
  - split; [reflexivity|]. split; reflexivity.
Defined.

(* ------------------------------------------------------------------ *)
(** ** Leaderboards and joins *)

Section ListedOnce.

Lemma filter_key_at_most_one {R : Type} (key : R -> uuid) k (t : list R) :
  primary_key key t ->
  (List.length (filter (fun r => uuid_eqb (key r) k) t) <= 1)%nat.
Proof.
  unfold primary_key. induction t as [|x t IH]; simpl; intros Hpk; [lia|].
  inversion Hpk as [|? ? Hx Hpk']; subst.
  destruct (uuid_eqb (key x) k) eqn:E; [|now apply IH].
  apply uuid_eqb_eq in E. simpl.
  rewrite filter_none; [simpl; lia|].
  intros y Hy. apply uuid_eqb_neq. intros Hk. apply Hx.
  rewrite E, <- Hk. now apply in_map.
Qed.

Lemma joined_rows_listed_once {R S : Type} (key : R -> uuid)
    (rid : S -> uuid) (f : R -> list S) (l : list R) :
  primary_key key l ->
  (forall r, (List.length (f r) <= 1)%nat) ->
  (forall r s, In s (f r) -> rid s = key r) ->
  NoDup (map rid (flat_map f l)).
Proof.
  unfold primary_key. intros Hpk Hlen Hid.
  induction l as [|x l IH]; simpl; [constructor|].
  inversion Hpk as [|? ? Hx Hpk']; subst.
  rewrite map_app. specialize (IH Hpk').
  pose proof (Hlen x) as Hx1. pose proof (Hid x) as Hxid.
  destruct (f x) as [|s [|s' rest]]; simpl in *; [exact IH| |lia].
  constructor; [|exact IH].
  intros Hin. apply in_map_iff in Hin. destruct Hin as (s0 & Hs0 & Hin).
  apply in_flat_map in Hin. destruct Hin as (r & Hr & Hin).
  apply Hx. rewrite <- (Hxid s (or_introl eq_refl)), <- Hs0.
  rewrite (Hid r s0 Hin). now apply in_map.
Qed.

Lemma primary_key_filter {R : Type} (key : R -> uuid) (P : R -> bool)
    (t : list R) :
  primary_key key t -> primary_key key (filter P t).
Proof.
  unfold primary_key. induction t as [|x t IH]; simpl; intros Hpk;
    [constructor|].
  inversion Hpk as [|? ? Hx Hpk']; subst.
  destruct (P x); [|now apply IH]. simpl. constructor; [|now apply IH].
  intros Hin. apply Hx. apply in_map_iff in Hin.
  destruct Hin as (y & Hy & Hin). apply filter_In in Hin.
  rewrite <- Hy. apply in_map. now destruct Hin.
Qed.

Lemma NoDup_firstn {A : Type} n (l : list A) : NoDup l -> NoDup (firstn n l).
Proof.
  intros H. revert n. induction H as [|x l Hx _ IH]; intros [|n]; simpl;
    try constructor.
  - intros Hin. apply Hx. now apply firstn_incl in Hin.
  - apply IH.
Qed.

Lemma left_join_profiles_one people us :
  primary_key SimpleSolution.p_id people ->
  List.length (SimpleSolution.left_join_profiles people us) = 1%nat.
Proof.
  intros Hpk. unfold SimpleSolution.left_join_profiles.
  pose proof (filter_key_at_most_one SimpleSolution.p_id
                (SimpleSolution.us_user_id us) people Hpk) as Hle.
  destruct (filter _ people) as [|p [|p' ps]]; simpl in *;
    try reflexivity; lia.
Qed.

Lemma left_join_profiles_id people us s :
  In s (SimpleSolution.left_join_profiles people us) ->
  SimpleSolution.ru_user_id s = SimpleSolution.us_user_id us.
Proof.
  unfold SimpleSolution.left_join_profiles.
  destruct (filter _ people) as [|p ps].
  - intros [H|[]]. now subst s.
  - intros H. apply in_map_iff in H. destruct H as (q & Hq & _).
    now subst s.
Qed.

Lemma flat_map_singletons {A B : Type} (f : A -> list B) (l : list A) :
  (forall a, List.length (f a) = 1%nat) ->
  List.length (flat_map f l) = List.length l.
Proof.
  intros H. induction l as [|x l IH]; simpl; [reflexivity|].
  now rewrite length_app, H, IH.
Qed.

End ListedOnce.

(** X25.  When the joined tables have their primary keys, a leaderboard
    lists no user twice; and [get_leaderboard_simple], whose join keeps
    users without a profile, lists as many users as the limit allows and
    positive totals exist. *)
Theorem leaderboards_list_a_user_once limit d ds :
  primary_key AiVerification.us_user_id (AiVerification.user_stats d) ->
  primary_key AiVerification.u_user_id (AiVerification.users d) ->
  primary_key SimpleSolution.us_user_id (SimpleSolution.user_stats ds) ->
  primary_key SimpleSolution.p_id (SimpleSolution.profiles ds) ->
  NoDup (map AiVerification.lb_user_id
           (AiVerification.get_leaderboard limit d))
  /\ NoDup (map SimpleSolution.lb_user_id
              (SimpleSolution.get_leaderboard_simple limit ds))
  /\ List.length (SimpleSolution.get_leaderboard_simple limit ds)
     = Nat.min limit
         (List.length
            (filter (fun us => 0 <? SimpleSolution.total_lbs us)
                    (SimpleSolution.user_stats ds))).
Proof.
  intros Hs Hu Hss Hp. split; [|split].
  - rewrite get_leaderboard_users. apply NoDup_firstn.
    apply (Permutation_NoDup
             (Permutation_map _ (Permutation_sym (order_by_perm _ _)))).
    unfold AiVerification.ranked_users.
    apply (joined_rows_listed_once AiVerification.us_user_id).
    + now apply primary_key_filter.
    + intros us. rewrite length_map.
      now apply filter_key_at_most_one.
    + intros us s Hin. apply in_map_iff in Hin.
      destruct Hin as (u & Hs0 & _). now subst s.
  - rewrite get_leaderboard_simple_users. apply NoDup_firstn.
    apply (Permutation_NoDup
             (Permutation_map _ (Permutation_sym (order_by_perm _ _)))).
    unfold simple_candidates.
    apply (joined_rows_listed_once SimpleSolution.us_user_id).
    + now apply primary_key_filter.
    + intros us. now rewrite left_join_profiles_one.
    + intros us s. apply left_join_profiles_id.
  - rewrite <- (length_map SimpleSolution.lb_user_id).
    rewrite get_leaderboard_simple_users, length_firstn, length_map.
    rewrite (Permutation_length (order_by_perm _ _)).
    unfold simple_candidates.
    rewrite flat_map_singletons; [reflexivity|].
    intros us. now apply left_join_profiles_one.
Qed.

Lemma leaderboards_list_a_user_once_witness :
  NoDup (map AiVerification.lb_user_id
           (AiVerification.get_leaderboard 10 tied_board))
  /\ List.length (SimpleSolution.get_leaderboard_simple 10 two_custom_actions)
     = 1%nat.
Proof.
  assert (H : primary_key AiVerification.us_user_id
                (AiVerification.user_stats tied_board)
              /\ primary_key AiVerification.u_user_id
                   (AiVerification.users tied_board)
              /\ primary_key SimpleSolution.us_user_id
                   (SimpleSolution.user_stats two_custom_actions)
              /\ primary_key SimpleSolution.p_id
                   (SimpleSolution.profiles two_custom_actions)).
  { unfold primary_key. simpl.
    repeat split; repeat constructor; simpl; intuition discriminate. }
  destruct H as (H1 & H2 & H3 & H4).
  destruct (leaderboards_list_a_user_once 10 tied_board two_custom_actions
              H1 H2 H3 H4) as (Hn & _ & Hl).
  split; [exact Hn|exact Hl].
Defined.

(** X26.  A second run of [sync_global_from_user_stats] after a first
    finds the totals in sync and changes nothing; after the first run the
    global total is the sum of the user totals, in both columns. *)
Theorem simple_second_sync_finds_nothing now1 now2 d :
  let d1 := fst (SimpleSolution.sync_global_from_user_stats now1 d) in
  let total :=
    sum_of SimpleSolution.total_lbs (SimpleSolution.user_stats d) in
  (SimpleSolution.global_total
     (snd (SimpleSolution.sync_global_from_user_stats now1 d)) <> total ->
   SimpleSolution.total_lbs_saved (SimpleSolution.global_emissions d1)
   = Some total)
  /\ SimpleSolution.get_global_total d1 = total
  /\ SimpleSolution.sync_global_from_user_stats now2 d1
     = (d1,
        {| SimpleSolution.was_in_sync := true;
           SimpleSolution.user_stats_sum := total;
           SimpleSolution.global_total := total;
           SimpleSolution.fixed := false |}).
Proof.
  cbv zeta.
  unfold SimpleSolution.sync_global_from_user_stats,
    SimpleSolution.get_global_total.
  destruct (sum_of SimpleSolution.total_lbs (SimpleSolution.user_stats d)
            =? SimpleSolution.g_total_lbs (SimpleSolution.global_emissions d))
    eqn:E; simpl.
  - apply Z.eqb_eq in E. rewrite E, Z.eqb_refl. simpl.
    split; [intros H; now contradiction H|]. now split.
  - rewrite Z.eqb_refl. simpl. now repeat split.
Qed.

Lemma simple_second_sync_finds_nothing_witness :
  SimpleSolution.was_in_sync
    (snd (SimpleSolution.sync_global_from_user_stats 2
            (fst (SimpleSolution.sync_global_from_user_stats 1
                    two_custom_actions))))
  = true.
Proof.
  pose proof (proj2 (proj2 (simple_second_sync_finds_nothing 1 2
                               two_custom_actions))) as H.
  cbv zeta in H. now rewrite H.
Defined.

(* ------------------------------------------------------------------ *)
(** ** The bulk backfill after the logging transaction *)

Section BackfillOfLogged.
Import EmissionLogging.

Lemma user_sums_found users t u s :
  find_row fst u (user_sums users t) = Some s ->
  s = (u, (sum_of emissions_saved_lbs (verified_rows_of u t),
           Z.of_nat (List.length (verified_rows_of u t)))).
Proof.
  unfold user_sums. induction users as [|x users IH]; simpl; [discriminate|].
  destruct (verified_rows_of x t) as [|r rows] eqn:E; simpl; [exact IH|].
  destruct (uuid_eqb x u) eqn:Ex; [|exact IH].
  apply uuid_eqb_eq in Ex. subst x. rewrite E. intros H. now inversion H.
Qed.

Lemma all_verified_rows u t :
  Forall (fun r => verified r = true /\ 0 <= emissions_saved_lbs r) t ->
  verified_rows_of u t = logged_by u t /\ filter verified t = t.
Proof.
  unfold verified_rows_of, logged_by.
  induction 1 as [|r t [Hv _] _ [IH1 IH2]]; simpl; [now split|].
  rewrite Hv. simpl. now rewrite IH1, IH2.
Qed.

End BackfillOfLogged.

(** X27.  A bulk backfill of actions that the logging transaction has
    already recorded confirms what it accumulated: no action is inserted,
    all are skipped, and the total of every user and the global total stay
    as they were. *)
Theorem backfill_of_logged_actions_confirms now batch d u :
  logging_reachable d ->
  (forall a,
     In a batch ->
     find_row EmissionLogging.action_id (EmissionLogging.b_action_id a)
       (EmissionLogging.user_actions d)
     <> None) ->
  let run := EmissionLogging.bulk_backfill_actions now batch d in
  EmissionLogging.user_actions (fst run) = EmissionLogging.user_actions d
  /\ EmissionLogging.inserted_count (snd run) = 0
  /\ EmissionLogging.skipped_count (snd run) = Z.of_nat (List.length batch)
  /\ logged_total u (fst run) = logged_total u d
  /\ EmissionLogging.total_lbs_saved
       (EmissionLogging.global_emissions (fst run))
     = EmissionLogging.total_lbs_saved (EmissionLogging.global_emissions d).
Proof.
  intros Hreach Hall. cbv zeta.
  destruct (logging_invariant d Hreach)
    as (_ & _ & Hu & Hg & _ & _ & Hv).
  rewrite bulk_backfill_actions_state, bulk_backfill_actions_result.
  rewrite (insert_batch_all_duplicates batch _ Hall). simpl.
  destruct (all_verified_rows u (EmissionLogging.user_actions d) Hv)
    as [Hmine Hverified].
  rewrite Hverified. repeat split; try (symmetry; exact Hg).
  unfold logged_total. simpl. rewrite find_row_update_from_sums.
  specialize (Hu u).
  destruct (find_row EmissionLogging.us_user_id u
              (EmissionLogging.user_stats d)) as [r|]; [|reflexivity].
  simpl. destruct Hu as (_ & Ht & _).
  destruct (find_row fst u _) as [s|] eqn:E; [|reflexivity].
  apply user_sums_found in E. subst s. simpl.
  now rewrite Hmine, Ht.
Qed.

Lemma backfill_of_logged_actions_confirms_witness :
  logging_reachable scenario_A_logged
  /\ logged_total "user1"%string
       (fst (EmissionLogging.bulk_backfill_actions 9 one_action_batch
               scenario_A_logged))
     = logged_total "user1"%string scenario_A_logged.
Proof.
  assert (H : logging_reachable scenario_A_logged)
    by (repeat apply logging_log; apply logging_initial).
  split; [exact H|].
  refine (proj1 (proj2 (proj2 (proj2
            (backfill_of_logged_actions_confirms 9 one_action_batch
               scenario_A_logged "user1"%string H _))))).
  intros a [Ha|[]]. subst a. discriminate.
Defined.

(* ------------------------------------------------------------------ *)
(** ** The leaderboard over verified histories *)

(** X28.  In a history of saved actions and successful verifications,
    every user that [get_leaderboard] lists is a registered user with at
    least one verified action, and the total shown is the sum of that
    user's verified actions, rounded to two decimals. *)
Theorem listed_users_are_verified registered limit d row :
  ai_verified_history registered d ->
  In row (AiVerification.get_leaderboard limit d) ->
  let mine :=
    verified_actions_of (AiVerification.lb_user_id row)
      (AiVerification.user_actions d) in
  mine <> []
  /\ AiVerification.lb_total_emissions_lbs row
     = round2 (sum_of AiVerification.emissions_saved_lbs mine)
  /\ AiVerification.lb_action_count row = Z.of_nat (List.length mine)
  /\ In (AiVerification.lb_user_id row)
        (map AiVerification.u_user_id (AiVerification.users d)).
Proof.
  intros Hh Hin. cbv zeta.
  destruct (verified_history_invariant registered d Hh)
    as (_ & Hpk & Hu & _).
  unfold AiVerification.get_leaderboard in Hin.
  apply firstn_incl in Hin. apply in_map_iff in Hin.
  destruct Hin as (nr & Hrow & Hnr). apply row_number_In in Hnr.
  apply (Permutation_in _ (order_by_perm _ _)) in Hnr.
  apply ranked_users_spec in Hnr.
  destruct Hnr as (us & u & Hus & _ & Hreg & Hid & Hrid & Htot & _ & Hr).
  subst row. simpl. rewrite Hrid, Htot, Hr. simpl.
  specialize (Hu (AiVerification.us_user_id us)).
  unfold ai_user_exact in Hu. cbv zeta in Hu.
  rewrite (find_row_In_NoDup AiVerification.us_user_id _ us Hpk Hus) in Hu.
  destruct Hu as (Hne & Ht & Hc).
  split; [exact Hne|]. split; [now rewrite Ht|]. split; [exact Hc|].
  rewrite <- Hid. now apply in_map.
Qed.

Lemma listed_users_are_verified_witness :
  ai_verified_history three_users
    (AiVerification.verifyAndSyncAction 5 "a1"%string true one_saved_action)
  /\ 10200000 = round2 10200000.
Proof.
  assert (Hh : ai_verified_history three_users
            (AiVerification.verifyAndSyncAction 5 "a1"%string true
               one_saved_action)).
  { apply history_verify.
    apply (history_save three_users (AiVerification.empty_db three_users)
             "a1"%string "user1"%string 10200000);
      [apply history_initial|reflexivity]. }
  split; [exact Hh|].
  exact (proj1 (proj2
           (listed_users_are_verified three_users 10
              (AiVerification.verifyAndSyncAction 5 "a1"%string true
                 one_saved_action)
              {| AiVerification.rank := 1;
                 AiVerification.lb_user_id := "user1"%string;
                 AiVerification.lb_username := Some "User1"%string;
                 AiVerification.lb_total_emissions_lbs := 10200000;
                 AiVerification.lb_action_count := 1;
                 AiVerification.lb_last_update_timestamp := 5 |}
              Hh (or_introl eq_refl)))).
Defined.
